(** * ascii-clock: a shallow embedding of [clock.py]

    The development follows the source file top to bottom: the ANSI colour
    table, the terminal-size query, the background grid builder
    ([ASCIIClock.create_display_grid]), the glyph table ([ASCII_PATTERNS]),
    the compositor ([get_highlight_positions], [get_border_positions]), the
    frame renderer ([display_code_with_time]), the size warning
    ([display_size_warning]) and one iteration of the loop of [main].

    Python values are modelled as follows.
    - [int] is [Z].
    - [str] is a list of Unicode code points ([list N]); [len] is [length].
    - a [list] is a [list]; [xs[i]] is [index], which raises [IndexError]
      out of range and counts from the end for a negative [i].
    - a [dict] keyed by tuples is a [gmap], a [set] of tuples a [gset].
    - an exception is the [Raise] branch of [result]. *)

From Stdlib Require Import ZArith List Ascii String DecimalString.
From stdpp Require Import base tactics option list gmap sets.

#[local] Set Warnings "-clear-no-such-hyp".

Open Scope Z_scope.

(** ** Python values and exceptions *)

Definition char := N.
Abbreviation pystr := (list char) (only parsing).

(** A literal of the source, written as a Rocq string of ASCII characters. *)
Definition py (s : string) : pystr :=
  map N_of_ascii (list_ascii_of_string s).
Arguments py s%_string : simpl never.

Definition ch (a : ascii) : char := N_of_ascii a.
Arguments ch a%_char : simpl never.

Inductive exn :=
| IndexError
| KeyError
| ValueError
| OSError.

Inductive result (A : Type) :=
| Ok (a : A)
| Raise (e : exn).
Arguments Ok {A} a.
Arguments Raise {A} e.

#[global] Instance result_ret : MRet result := λ A a, Ok a.
#[global] Instance result_bind : MBind result := λ A B f m,
  match m with
  | Ok a => f a
  | Raise e => Raise e
  end.

(** [len(xs)] *)
Definition len {A} (xs : list A) : Z := Z.of_nat (length xs).

(** [xs[i]] *)
Definition index {A} (xs : list A) (i : Z) : result A :=
  let pos := if 0 <=? i then i else len xs + i in
  if (0 <=? pos) && (pos <? len xs) then
    match xs !! Z.to_nat pos with
    | Some x => Ok x
    | None => Raise IndexError
    end
  else Raise IndexError.

(** [range(n)] *)
Definition range (n : Z) : list Z :=
  map Z.of_nat (seq 0 (Z.to_nat n)).

(** [enumerate(xs, start)] and [enumerate(xs)] *)
Fixpoint enumerate_from {A} (start : Z) (xs : list A) : list (Z * A) :=
  match xs with
  | [] => []
  | x :: xs' => (start, x) :: enumerate_from (start + 1) xs'
  end.

Definition enumerate {A} (xs : list A) : list (Z * A) :=
  enumerate_from 0 xs.

(** [for x in xs: body], threading the variables the body assigns. *)
Fixpoint for_each {A S} (xs : list A) (body : A → S → result S) (s : S)
  : result S :=
  match xs with
  | [] => Ok s
  | x :: xs' => s' ← body x s; for_each xs' body s'
  end.


(** [d[k]] for a dictionary. *)
Definition dict_get `{Countable K} {V} (d : gmap K V) (k : K) : result V :=
  match d !! k with
  | Some v => Ok v
  | None => Raise KeyError
  end.

(** [needle in hay] for strings. *)
Fixpoint starts_with (needle hay : pystr) : bool :=
  match needle, hay with
  | [], _ => true
  | _ :: _, [] => false
  | a :: needle', b :: hay' => (a =? b)%N && starts_with needle' hay'
  end.

Fixpoint contains (needle hay : pystr) : bool :=
  starts_with needle hay ||
  match hay with
  | [] => false
  | _ :: hay' => contains needle hay'
  end.

(** [str(n)] and the [{n}] of an f-string, for an [int]. *)
Definition str (n : Z) : pystr :=
  py (NilZero.string_of_int (Z.to_int n)).
Arguments str n%_Z : simpl never.

(** [s.center(width)], as CPython pads: the odd cell goes to the left
    exactly when the margin and the width are both odd. *)
Definition center (s : pystr) (width : Z) : pystr :=
  if len s >=? width then s
  else
    let marg := width - len s in
    let left := marg / 2 + Z.land (Z.land marg width) 1 in
    replicate (Z.to_nat left) (ch " ") ++ s
      ++ replicate (Z.to_nat (marg - left)) (ch " ").

(** ** class Colors *)

Module Colors.
Definition ESC : pystr := [27%N].
Definition CYAN : pystr := ESC ++ py "[96m".
Definition GREEN : pystr := ESC ++ py "[92m".
Definition YELLOW : pystr := ESC ++ py "[93m".
Definition RED : pystr := ESC ++ py "[91m".
Definition PURPLE : pystr := ESC ++ py "[95m".
Definition BLUE : pystr := ESC ++ py "[94m".
Definition WHITE : pystr := ESC ++ py "[97m".
Definition GRAY : pystr := ESC ++ py "[90m".
Definition DARK_GRAY : pystr := ESC ++ py "[2m" ++ ESC ++ py "[90m".
Definition RESET : pystr := ESC ++ py "[0m".
Definition BOLD : pystr := ESC ++ py "[1m".
Definition BG_WHITE : pystr := ESC ++ py "[47m".
Definition BG_BLACK : pystr := ESC ++ py "[40m".
End Colors.

(** ** Terminal output

    What the program does to the outside world, in order. *)

Inductive action :=
| Write (text : pystr)        (* sys.stdout.write(text) *)
| Print (line : pystr)        (* print(line) *)
| ClearScreen                 (* os.system("cls") or os.system("clear") *)
| ReadSource                  (* get_minified_source reads the program's file *)
| Sleep (seconds : Z).        (* time.sleep(seconds) *)

#[global] Instance action_eq_dec : EqDecision action.
Proof. solve_decision. Defined.

Module Cursor.
Definition hide : list action := [Write (Colors.ESC ++ py "[?25l")].
Definition show : list action := [Write (Colors.ESC ++ py "[?25h")].
Definition move_to (row col : Z) : list action :=
  [Write (Colors.ESC ++ py "[" ++ str row ++ py ";" ++ str col ++ py "H")].
Definition clear_screen : list action := [ClearScreen].
End Cursor.

(** ** class ASCIIClock *)

Definition Grid := list (list char).

Record OsInfo := {
  system : pystr;
  version : pystr;
  is_windows : bool;
  is_unix : bool;
  is_mac : bool;
}.

Record ASCIIClock := {
  source_code : pystr;
  grid : Grid;
  width : Z;
  height : Z;
  terminal_resized : bool;
  min_width : Z;
  min_height : Z;
  supports_resize_signal : bool;
  os_info : OsInfo;
}.

(** [ASCIIClock.__init__]. Whether [SIGWINCH] exists and the handler could
    be installed, and what [platform] reports, come from the host. *)
Definition init (sigwinch_installed : bool) (info : OsInfo) : ASCIIClock := {|
  source_code := [];
  grid := [];
  width := 0;
  height := 0;
  terminal_resized := true;
  min_width := 100;
  min_height := 25;
  supports_resize_signal := sigwinch_installed;
  os_info := info;
|}.

(** [ASCIIClock._handle_resize] *)
Definition _handle_resize (self : ASCIIClock) : ASCIIClock := {|
  source_code := source_code self;
  grid := grid self;
  width := width self;
  height := height self;
  terminal_resized := true;
  min_width := min_width self;
  min_height := min_height self;
  supports_resize_signal := supports_resize_signal self;
  os_info := os_info self;
|}.

(** What the host answers to one call of [get_terminal_size]:
    [os.get_terminal_size()] as (columns, lines) or the exception it
    raises, and the lines of [mode con]'s output (or the exception of
    [subprocess.run]), each line with what
    [int(line.split(":")[1].strip())] gives on it. *)
Record ModeLine := {
  text : pystr;
  int_field : result Z;
}.

Record Terminal := {
  os_get_terminal_size : result (Z * Z);
  mode_con : result (list ModeLine);
}.

(** The body of the outer [try] of [get_terminal_size]. *)
Definition get_terminal_size_try (self : ASCIIClock) (t : Terminal)
  : result (Z * Z) :=
  if is_windows (os_info self) then
    match os_get_terminal_size t with
    | Ok size => Ok size
    | Raise _ =>
        lines ← mode_con t;
        for_each lines (λ line '(cols, rows),
          if contains (py "Columns:") (text line) then
            cols ← int_field line; Ok (cols, rows)
          else if contains (py "Lines:") (text line) then
            rows ← int_field line; Ok (cols, rows)
          else Ok (cols, rows)) (80, 24)
    end
  else os_get_terminal_size t.

Definition get_terminal_size (self : ASCIIClock) (t : Terminal) : Z * Z :=
  match get_terminal_size_try self t with
  | Ok size => size
  | Raise _ => (80, 24)
  end.

Definition is_terminal_size_adequate (self : ASCIIClock) (t : Terminal)
  : bool :=
  let '(cols, lines) := get_terminal_size self t in
  (cols >=? min_width self) && (lines >=? min_height self).

(** The body of the inner loop of [create_display_grid]: one cell. *)
Definition fill_cell (self : ASCIIClock) (st : list char * Z)
  : result (list char * Z) :=
  let '(grid_row, char_index) := st in
  if char_index <? len (source_code self) then
    c ← index (source_code self) char_index;
    Ok (grid_row ++ [c], char_index + 1)
  else
    let char_index := 0 in
    c ← index (source_code self) char_index;
    Ok (grid_row ++ [c], char_index).

Definition create_display_grid (self : ASCIIClock) : result Grid :=
  '(grid, _) ← for_each (range (height self)) (λ _ '(grid, char_index),
     '(grid_row, char_index) ←
        for_each (range (width self)) (λ _ st, fill_cell self st)
                 ([], char_index);
     Ok (grid ++ [grid_row], char_index)) ([], 0);
  Ok grid.

(** [update_display_parameters]. [minified] is what [get_minified_source]
    returns on this call. *)
Definition update_display_parameters (self : ASCIIClock) (t : Terminal)
    (minified : pystr) : result ASCIIClock :=
  let '(cols, lines) := get_terminal_size self t in
  let self := {|
    source_code := minified;
    grid := grid self;
    width := cols - 2;
    height := lines - 2;
    terminal_resized := terminal_resized self;
    min_width := min_width self;
    min_height := min_height self;
    supports_resize_signal := supports_resize_signal self;
    os_info := os_info self;
  |} in
  g ← create_display_grid self;
  Ok {|
    source_code := source_code self;
    grid := g;
    width := width self;
    height := height self;
    terminal_resized := terminal_resized self;
    min_width := min_width self;
    min_height := min_height self;
    supports_resize_signal := supports_resize_signal self;
    os_info := os_info self;
  |}.

(** ** Glyph table *)

Definition Pattern := list (list Z).

Definition ASCII_PATTERNS : gmap char Pattern := list_to_map [
    (ch "0",
    [[1; 1; 1; 1; 1; 1; 1; 1; 1];
     [1; 1; 1; 0; 0; 0; 1; 1; 1];
     [1; 1; 0; 0; 0; 0; 0; 1; 1];
     [1; 1; 0; 0; 0; 0; 0; 1; 1];
     [1; 1; 0; 0; 0; 0; 0; 1; 1];
     [1; 1; 0; 0; 0; 0; 0; 1; 1];
     [1; 1; 0; 0; 0; 0; 0; 1; 1];
     [1; 1; 0; 0; 0; 0; 0; 1; 1];
     [1; 1; 0; 0; 0; 0; 0; 1; 1];
     [1; 1; 1; 0; 0; 0; 1; 1; 1];
     [1; 1; 1; 1; 1; 1; 1; 1; 1]]);
    (ch "1",
    [[0; 0; 0; 1; 1; 1; 0; 0; 0];
     [0; 0; 1; 1; 1; 1; 0; 0; 0];
     [0; 1; 1; 0; 1; 1; 0; 0; 0];
     [0; 0; 0; 0; 1; 1; 0; 0; 0];
     [0; 0; 0; 0; 1; 1; 0; 0; 0];
     [0; 0; 0; 0; 1; 1; 0; 0; 0];
     [0; 0; 0; 0; 1; 1; 0; 0; 0];
     [0; 0; 0; 0; 1; 1; 0; 0; 0];
     [0; 0; 0; 0; 1; 1; 0; 0; 0];
     [0; 0; 0; 0; 1; 1; 0; 0; 0];
     [1; 1; 1; 1; 1; 1; 1; 1; 1]]);
    (ch "2",
    [[1; 1; 1; 1; 1; 1; 1; 1; 1];
     [1; 1; 0; 0; 0; 0; 0; 1; 1];
     [0; 0; 0; 0; 0; 0; 0; 1; 1];
     [0; 0; 0; 0; 0; 0; 0; 1; 1];
     [0; 0; 0; 0; 0; 0; 1; 1; 1];
     [1; 1; 1; 1; 1; 1; 1; 1; 0];
     [1; 1; 1; 0; 0; 0; 0; 0; 0];
     [1; 1; 0; 0; 0; 0; 0; 0; 0];
     [1; 1; 0; 0; 0; 0; 0; 0; 0];
     [1; 1; 0; 0; 0; 0; 0; 1; 1];
     [1; 1; 1; 1; 1; 1; 1; 1; 1]]);
    (ch "3",
    [[1; 1; 1; 1; 1; 1; 1; 1; 1];
     [1; 1; 0; 0; 0; 0; 0; 1; 1];
     [0; 0; 0; 0; 0; 0; 0; 1; 1];
     [0; 0; 0; 0; 0; 0; 0; 1; 1];
     [0; 0; 0; 0; 0; 0; 1; 1; 1];
     [1; 1; 1; 1; 1; 1; 1; 1; 0];
     [0; 0; 0; 0; 0; 0; 1; 1; 1];
     [0; 0; 0; 0; 0; 0; 0; 1; 1];
     [0; 0; 0; 0; 0; 0; 0; 1; 1];
     [1; 1; 0; 0; 0; 0; 0; 1; 1];
     [1; 1; 1; 1; 1; 1; 1; 1; 1]]);
    (ch "4",
    [[1; 1; 0; 0; 0; 0; 1; 1; 1];
     [1; 1; 0; 0; 0; 0; 1; 1; 1];
     [1; 1; 0; 0; 0; 0; 1; 1; 1];
     [1; 1; 0; 0; 0; 0; 1; 1; 1];
     [1; 1; 0; 0; 0; 0; 1; 1; 1];
     [1; 1; 1; 1; 1; 1; 1; 1; 1];
     [0; 0; 0; 0; 0; 0; 1; 1; 1];
     [0; 0; 0; 0; 0; 0; 1; 1; 1];
     [0; 0; 0; 0; 0; 0; 1; 1; 1];
     [0; 0; 0; 0; 0; 0; 1; 1; 1];
     [0; 0; 0; 0; 0; 0; 1; 1; 1]]);
    (ch "5",
    [[1; 1; 1; 1; 1; 1; 1; 1; 1];
     [1; 1; 0; 0; 0; 0; 0; 0; 0];
     [1; 1; 0; 0; 0; 0; 0; 0; 0];
     [1; 1; 0; 0; 0; 0; 0; 0; 0];
     [1; 1; 0; 0; 0; 0; 0; 0; 0];
     [1; 1; 1; 1; 1; 1; 1; 1; 1];
     [0; 0; 0; 0; 0; 0; 0; 1; 1];
     [0; 0; 0; 0; 0; 0; 0; 1; 1];
     [0; 0; 0; 0; 0; 0; 0; 1; 1];
     [1; 1; 0; 0; 0; 0; 0; 1; 1];
     [1; 1; 1; 1; 1; 1; 1; 1; 1]]);
    (ch "6",
    [[1; 1; 1; 1; 1; 1; 1; 1; 1];
     [1; 1; 0; 0; 0; 0; 0; 1; 1];
     [1; 1; 0; 0; 0; 0; 0; 0; 0];
     [1; 1; 0; 0; 0; 0; 0; 0; 0];
     [1; 1; 0; 0; 0; 0; 0; 0; 0];
     [1; 1; 1; 1; 1; 1; 1; 1; 1];
     [1; 1; 0; 0; 0; 0; 0; 1; 1];
     [1; 1; 0; 0; 0; 0; 0; 1; 1];
     [1; 1; 0; 0; 0; 0; 0; 1; 1];
     [1; 1; 0; 0; 0; 0; 0; 1; 1];
     [1; 1; 1; 1; 1; 1; 1; 1; 1]]);
    (ch "7",
    [[1; 1; 1; 1; 1; 1; 1; 1; 1];
     [1; 1; 0; 0; 0; 0; 0; 1; 1];
     [0; 0; 0; 0; 0; 0; 0; 1; 1];
     [0; 0; 0; 0; 0; 0; 1; 1; 0];
     [0; 0; 0; 0; 0; 1; 1; 0; 0];
     [0; 0; 0; 0; 1; 1; 0; 0; 0];
     [0; 0; 0; 1; 1; 0; 0; 0; 0];
     [0; 0; 1; 1; 0; 0; 0; 0; 0];
     [0; 1; 1; 0; 0; 0; 0; 0; 0];
     [0; 1; 1; 0; 0; 0; 0; 0; 0];
     [0; 1; 1; 0; 0; 0; 0; 0; 0]]);
    (ch "8",
    [[1; 1; 1; 1; 1; 1; 1; 1; 1];
     [1; 1; 0; 0; 0; 0; 0; 1; 1];
     [1; 1; 0; 0; 0; 0; 0; 1; 1];
     [1; 1; 0; 0; 0; 0; 0; 1; 1];
     [1; 1; 0; 0; 0; 0; 0; 1; 1];
     [1; 1; 1; 1; 1; 1; 1; 1; 1];
     [1; 1; 0; 0; 0; 0; 0; 1; 1];
     [1; 1; 0; 0; 0; 0; 0; 1; 1];
     [1; 1; 0; 0; 0; 0; 0; 1; 1];
     [1; 1; 0; 0; 0; 0; 0; 1; 1];
     [1; 1; 1; 1; 1; 1; 1; 1; 1]]);
    (ch "9",
    [[1; 1; 1; 1; 1; 1; 1; 1; 1];
     [1; 1; 0; 0; 0; 0; 0; 1; 1];
     [1; 1; 0; 0; 0; 0; 0; 1; 1];
     [1; 1; 0; 0; 0; 0; 0; 1; 1];
     [1; 1; 0; 0; 0; 0; 0; 1; 1];
     [1; 1; 1; 1; 1; 1; 1; 1; 1];
     [0; 0; 0; 0; 0; 0; 0; 1; 1];
     [0; 0; 0; 0; 0; 0; 0; 1; 1];
     [0; 0; 0; 0; 0; 0; 0; 1; 1];
     [1; 1; 0; 0; 0; 0; 0; 1; 1];
     [1; 1; 1; 1; 1; 1; 1; 1; 1]]);
    (ch ":",
    [[0; 0; 0; 0; 0; 0; 0; 0; 0];
     [0; 0; 0; 0; 0; 0; 0; 0; 0];
     [0; 0; 1; 1; 1; 1; 1; 0; 0];
     [0; 0; 1; 1; 1; 1; 1; 0; 0];
     [0; 0; 1; 1; 1; 1; 1; 0; 0];
     [0; 0; 0; 0; 0; 0; 0; 0; 0];
     [0; 0; 0; 0; 0; 0; 0; 0; 0];
     [0; 0; 1; 1; 1; 1; 1; 0; 0];
     [0; 0; 1; 1; 1; 1; 1; 0; 0];
     [0; 0; 1; 1; 1; 1; 1; 0; 0];
     [0; 0; 0; 0; 0; 0; 0; 0; 0]])
  ].

(** ** Glyph compositor *)

(** The bounds test both functions apply to a cell. *)
Definition within (row col grid_width grid_height : Z) : bool :=
  (0 <=? row) && (row <? grid_height) && (0 <=? col) && (col <? grid_width).

(** [for row_idx in range(11): for col_idx in range(9):
       if pattern[row_idx][col_idx] == 1: body]
    the double loop over the pixels of a glyph that all three passes share. *)
Definition for_each_lit_pixel {S} (pattern : Pattern)
    (body : Z → Z → S → result S) (s : S) : result S :=
  for_each (range 11) (λ row_idx s,
    for_each (range 9) (λ col_idx s,
      pattern_row ← index pattern row_idx;
      pixel ← index pattern_row col_idx;
      if pixel =? 1 then body row_idx col_idx s else Ok s) s) s.

Definition colors : list pystr := [
  Colors.RED ++ Colors.BOLD;
  Colors.RED ++ Colors.BOLD;
  Colors.YELLOW ++ Colors.BOLD;
  Colors.GREEN ++ Colors.BOLD;
  Colors.GREEN ++ Colors.BOLD;
  Colors.YELLOW ++ Colors.BOLD;
  Colors.CYAN ++ Colors.BOLD;
  Colors.CYAN ++ Colors.BOLD
].

Definition get_highlight_positions (time_str : pystr)
    (start_row start_col grid_width grid_height : Z)
  : result (list (Z * Z * pystr)) :=
  '(positions, _) ←
    for_each (enumerate time_str) (λ '(char_idx, c) '(positions, current_col),
      pattern ← dict_get ASCII_PATTERNS c;
      color ← index colors char_idx;
      positions ← for_each_lit_pixel pattern (λ row_idx col_idx positions,
        let highlight_row := start_row + row_idx in
        let highlight_col := current_col + col_idx in
        if within highlight_row highlight_col grid_width grid_height then
          Ok (positions ++ [(highlight_row, highlight_col, color)])
        else Ok positions) positions;
      Ok (positions, current_col + 12)) ([], start_col);
  Ok positions.

Definition get_border_positions (time_str : pystr)
    (start_row start_col grid_width grid_height : Z)
  : result (list (Z * Z)) :=
  (* First, collect all digit positions *)
  '(digit_positions, _) ←
    for_each (enumerate time_str) (λ '(_, c) '(digit_positions, current_col),
      pattern ← dict_get ASCII_PATTERNS c;
      digit_positions ←
        for_each_lit_pixel pattern (λ row_idx col_idx digit_positions,
          let digit_row := start_row + row_idx in
          let digit_col := current_col + col_idx in
          if within digit_row digit_col grid_width grid_height then
            Ok ({[ (digit_row, digit_col) ]} ∪ digit_positions)
          else Ok digit_positions) (digit_positions : gset (Z * Z));
      Ok (digit_positions, current_col + 12)) (∅, start_col);
  (* Now find border positions *)
  '(border_positions, _) ←
    for_each (enumerate time_str) (λ '(_, c) '(border_positions, current_col),
      pattern ← dict_get ASCII_PATTERNS c;
      border_positions ←
        for_each_lit_pixel pattern (λ row_idx col_idx border_positions,
          let center_row := start_row + row_idx in
          let center_col := current_col + col_idx in
          for_each [-1; 0; 1] (λ dr border_positions,
            for_each [-1; 0; 1] (λ dc border_positions,
              if (dr =? 0) && (dc =? 0) then Ok border_positions
              else
                let border_row := center_row + dr in
                let border_col := center_col + dc in
                if within border_row border_col grid_width grid_height
                   && negb (bool_decide
                              ((border_row, border_col) ∈ digit_positions))
                then Ok (border_positions ++ [(border_row, border_col)])
                else Ok border_positions) border_positions)
          border_positions) border_positions;
      Ok (border_positions, current_col + 12)) ([], start_col);
  (* list(set(border_positions)): the order of the result is the set's *)
  Ok (elements (list_to_set border_positions : gset (Z * Z))).

(** ** Frame renderer *)

Definition display_code_with_time (grid : Grid)
    (highlight_positions : list (Z * Z * pystr))
    (border_positions : list (Z * Z)) : result (list action) :=
  let border_set : gset (Z * Z) := list_to_set border_positions in
  highlight_dict ←
    for_each highlight_positions
      (λ '(row, col, color) (highlight_dict : gmap (Z * Z) pystr),
      inside ←
        (if (0 <=? row) && (row <? len grid) then
           first_row ← index grid 0;
           Ok ((0 <=? col) && (col <? len first_row))
         else Ok false);
      if (inside : bool) then Ok (<[(row, col) := color]> highlight_dict)
      else Ok highlight_dict) (∅ : gmap (Z * Z) pystr);
  for_each (enumerate grid) (λ '(row_idx, row) out,
    line ← for_each (enumerate row) (λ '(col_idx, c) line,
      match highlight_dict !! (row_idx, col_idx) with
      | Some color => Ok (line ++ color ++ [c] ++ Colors.RESET)
      | None =>
          if bool_decide ((row_idx, col_idx) ∈ border_set) then
            Ok (line ++ Colors.GRAY ++ [c] ++ Colors.RESET)
          else
            Ok (line ++ Colors.DARK_GRAY ++ [c] ++ Colors.RESET)
      end) [];
    Ok (out ++ [Print line])) [].

(** ** Size warning *)

Definition WARNING_SIGN : pystr := [9888%N; 65039%N].

Definition warning_lines (self : ASCIIClock) (cols lines : Z) : list pystr :=
  let warning_lines := [
    [];
    WARNING_SIGN ++ py "  TERMINAL TOO SMALL " ++ WARNING_SIGN;
    [];
    py "Current size: " ++ str cols ++ py " x " ++ str lines;
    py "Required minimum: " ++ str (min_width self) ++ py " x "
      ++ str (min_height self);
    [];
    py "Please resize your terminal window";
    py "to view the ASCII clock properly.";
    [];
    py "The clock will appear automatically";
    py "when the terminal size is adequate.";
    []
  ] in
  let os_info_lines := [
    py "Operating System: " ++ system (os_info self);
    []
  ] in
  let os_info_lines :=
    if negb (supports_resize_signal self) then
      os_info_lines ++ [
        WARNING_SIGN ++ py "  Auto-resize detection not supported on this OS";
        py "Manual terminal refresh may be needed after resizing";
        []
      ]
    else os_info_lines in
  take 5 warning_lines ++ os_info_lines ++ drop 5 warning_lines.

(** The colour [display_size_warning] prints a line in. *)
Definition warning_color (line : pystr) : pystr :=
  if contains WARNING_SIGN line && contains (py "TERMINAL TOO SMALL") line
  then Colors.YELLOW ++ Colors.BOLD
  else if contains (py "Current size:") line
          || contains (py "Required minimum:") line
  then Colors.RED
  else if contains (py "Operating System:") line then Colors.CYAN
  else if contains (py "Auto-resize detection") line
          || contains (py "Manual terminal refresh") line
  then Colors.YELLOW
  else Colors.WHITE.

Definition display_size_warning (clock : ASCIIClock) (t : Terminal)
  : list action :=
  let '(cols, lines) := get_terminal_size clock t in
  let warning_lines := warning_lines clock cols lines in
  let start_row := Z.max 1 (lines / 2 - len warning_lines / 2) in
  Cursor.clear_screen ++
  flat_map (λ '(i, line),
    if start_row + i <? lines then
      let centered_line := center line cols in
      Cursor.move_to (start_row + i) 1 ++
      [Print (warning_color line ++ centered_line ++ Colors.RESET)]
    else []) (enumerate warning_lines).

(** ** The loop of [main] *)

(** What the host supplies during one iteration: the answer to each call
    of [get_terminal_size] (in [update_display_parameters], in
    [is_terminal_size_adequate], in [display_size_warning]), the text
    [get_minified_source] returns, and [time.strftime("%H:%M:%S")]. *)
Record Host := {
  size_at_update : Terminal;
  size_at_check : Terminal;
  size_at_warning : Terminal;
  minified_source : pystr;
  current_time : pystr;
}.

Definition clear_resized (self : ASCIIClock) : ASCIIClock := {|
  source_code := source_code self;
  grid := grid self;
  width := width self;
  height := height self;
  terminal_resized := false;
  min_width := min_width self;
  min_height := min_height self;
  supports_resize_signal := supports_resize_signal self;
  os_info := os_info self;
|}.

(** One pass through the body of [while True] in [main]. *)
Definition main_iteration (host : Host) (clock : ASCIIClock)
  : result (ASCIIClock * list action) :=
  '(clock, out) ←
    (if terminal_resized clock || negb (supports_resize_signal clock) then
       clock ← update_display_parameters clock (size_at_update host)
                 (minified_source host);
       Ok (clear_resized clock, [ReadSource])
     else Ok (clock, []));
  if negb (is_terminal_size_adequate clock (size_at_check host)) then
    Ok (clock,
        out ++ display_size_warning clock (size_at_warning host) ++ [Sleep 1])
  else
    let time_width := 8 * 12 - 3 in
    let time_start_row := Z.max 1 (height clock / 2 - 5) in
    let time_start_col := Z.max 5 ((width clock - time_width) / 2) in
    let current_time := current_time host in
    highlight_positions ←
      get_highlight_positions current_time time_start_row time_start_col
        (width clock) (height clock);
    border_positions ←
      get_border_positions current_time time_start_row time_start_col
        (width clock) (height clock);
    frame ← display_code_with_time (grid clock) highlight_positions
              border_positions;
    Ok (clock, out ++ Cursor.clear_screen ++ frame ++ [Sleep 1]).

(** The loop, for as many iterations as [hosts] describes. Between two
    iterations a [SIGWINCH] may arrive ([true] in the pair); the handler is
    installed only when [supports_resize_signal] holds. *)
Fixpoint main_loop (hosts : list (bool * Host)) (clock : ASCIIClock)
  : result (ASCIIClock * list action) :=
  match hosts with
  | [] => Ok (clock, [])
  | (sigwinch, host) :: hosts' =>
      let clock :=
        if sigwinch && supports_resize_signal clock
        then _handle_resize clock else clock in
      '(clock, out) ← main_iteration host clock;
      '(clock, out') ← main_loop hosts' clock;
      Ok (clock, out ++ out')
  end.

(** ** Vocabulary of the properties *)

(** The characters the glyph table covers. *)
Definition supported_chars : list char :=
  [ch "0"; ch "1"; ch "2"; ch "3"; ch "4"; ch "5"; ch "6"; ch "7"; ch "8";
   ch "9"; ch ":"].

Definition supported (c : char) : Prop := c ∈ supported_chars.

(** A time string: supported characters, at most the eight slots of
    [HH:MM:SS]. *)
Definition time_string (s : pystr) : Prop :=
  Forall supported s ∧ (length s ≤ 8)%nat.

(** [pattern[row_idx][col_idx]] *)
Definition pixel (pattern : Pattern) (row_idx col_idx : Z) : result Z :=
  pattern_row ← index pattern row_idx; index pattern_row col_idx.

(** The pixels of a glyph the loops visit and find lit, in loop order. *)
Definition lit_pixels (pattern : Pattern) : list (Z * Z) :=
  flat_map (λ row_idx,
    flat_map (λ col_idx,
      match pixel pattern row_idx col_idx with
      | Ok v => if v =? 1 then [(row_idx, col_idx)] else []
      | Raise _ => []
      end) (range 9)) (range 11).

(** Every pixel the loops read exists. *)
Definition shape_ok (pattern : Pattern) : bool :=
  forallb (λ row_idx,
    forallb (λ col_idx,
      match pixel pattern row_idx col_idx with
      | Ok _ => true
      | Raise _ => false
      end) (range 9)) (range 11).

(** The grid cell [q] is a lit pixel of the glyph of slot [i], the glyph
    being laid with its top-left pixel on
    [(start_row, start_col + 12 * i)]; the cell may lie outside the grid. *)
Definition slot_cell (time_str : pystr) (start_row start_col : Z)
    (i : nat) (q : Z * Z) : Prop :=
  ∃ c pattern row_idx col_idx,
    time_str !! i = Some c ∧
    ASCII_PATTERNS !! c = Some pattern ∧
    0 ≤ row_idx < 11 ∧ 0 ≤ col_idx < 9 ∧
    pixel pattern row_idx col_idx = Ok 1 ∧
    q = (start_row + row_idx, start_col + 12 * Z.of_nat i + col_idx).

Definition glyph_cell (time_str : pystr) (start_row start_col : Z)
    (q : Z * Z) : Prop :=
  ∃ i, slot_cell time_str start_row start_col i q.

Definition in_grid (grid_width grid_height : Z) (q : Z * Z) : Prop :=
  0 ≤ q.1 < grid_height ∧ 0 ≤ q.2 < grid_width.

(** Two distinct cells that touch by a side or a corner. *)
Definition adjacent8 (p q : Z * Z) : Prop :=
  Z.abs (p.1 - q.1) ≤ 1 ∧ Z.abs (p.2 - q.2) ≤ 1 ∧ p ≠ q.

(** The cells of a highlight list, colours dropped. *)
Definition cells (positions : list (Z * Z * pystr)) : list (Z * Z) :=
  map fst positions.

(** [s] occurs in [t]. *)
Definition mentions (t s : pystr) : Prop :=
  ∃ before after, t = before ++ s ++ after.

(** The index the grid builder reads for the cell of row-major index [k]
    when the text has [n] characters: after the last character it reads
    character 0 without advancing, so the text repeats with period
    [n + 1]. *)
Definition cursor_at (n k : Z) : Z :=
  let m := k mod (n + 1) in
  if m <? n then m else 0.

(** The colour the last entry for the cell gives, if there is one. *)
Definition highlight_color (positions : list (Z * Z * pystr)) (q : Z * Z)
  : option pystr :=
  last (map snd (filter (λ entry, entry.1 = q) positions)).

(** All rows are as long as the first. *)
Definition rectangular (g : Grid) : Prop :=
  ∀ row first_row, row ∈ g → head g = Some first_row →
    length row = length first_row.

(** How the renderer writes one cell. *)
Definition rendered_cell (positions : list (Z * Z * pystr))
    (border : list (Z * Z)) (q : Z * Z) (c : char) : pystr :=
  match highlight_color positions q with
  | Some color => color ++ [c] ++ Colors.RESET
  | None =>
      if bool_decide (q ∈ border) then Colors.GRAY ++ [c] ++ Colors.RESET
      else Colors.DARK_GRAY ++ [c] ++ Colors.RESET
  end.

Definition rendered_line (positions : list (Z * Z * pystr))
    (border : list (Z * Z)) (row_idx : Z) (row : list char) : pystr :=
  flat_map (λ '(col_idx, c),
             rendered_cell positions border (row_idx, col_idx) c)
           (enumerate row).

(** The test the renderer applies to a highlight entry before it enters
    [highlight_dict]: its row is a row of the grid and its column a column
    of the first row. *)
Definition inside_first_row (g : Grid) (q : Z * Z) : bool :=
  (0 <=? q.1) && (q.1 <? len g) && (0 <=? q.2)
  && (q.2 <? len (default [] (head g))).

(** The character the grid builder writes to the cell of row-major index
    [k] (a blank where the text has no character to read). *)
Definition char_at (source_code : pystr) (k : Z) : char :=
  default (ch " ")
    (source_code !! Z.to_nat (cursor_at (len source_code) k)).

(** [m] cells from row-major index [k] on, and [rows] rows of [w] cells. *)
Fixpoint cells_from (source_code : pystr) (k : Z) (m : nat) : list char :=
  match m with
  | O => []
  | S m' => char_at source_code k :: cells_from source_code (k + 1) m'
  end.

Fixpoint rows_from (source_code : pystr) (w : nat) (k : Z) (rows : nat)
  : Grid :=
  match rows with
  | O => []
  | S rows' =>
      cells_from source_code k w
        :: rows_from source_code w (k + Z.of_nat w) rows'
  end.

(** The grid property of the specification: the cell of row-major index
    [k] holds character [k mod len(filler_text)] of the text. *)
Definition tiles (self : ASCIIClock) (g : Grid) : Prop :=
  ∀ r c, 0 ≤ r < height self → 0 ≤ c < width self →
    (row ← index g r; index row c)
    = index (source_code self)
        ((r * width self + c) mod len (source_code self)).

(** A clock about to build a grid of [w] by [h] cells from [filler]. *)
Definition clock_of (filler : pystr) (w h : Z) : ASCIIClock := {|
  source_code := filler;
  grid := [];
  width := w;
  height := h;
  terminal_resized := true;
  min_width := 100;
  min_height := 25;
  supports_resize_signal := true;
  os_info := {| system := py "Linux"; version := []; is_windows := false;
                is_unix := true; is_mac := false |};
|}.

(** ** Pure descriptions of the compositor's loops *)

(** What one pass of the compositor collects: for each slot, for each lit
    pixel of its glyph, whatever [emit] gives for the slot and the grid
    cell of the pixel. *)
Definition slot_emit {B} (emit : nat → Z * Z → list B) (start_row : Z)
    (char_idx : nat) (c : char) (current_col : Z) : list B :=
  match ASCII_PATTERNS !! c with
  | Some pattern =>
      flat_map (λ '(row_idx, col_idx),
                 emit char_idx (start_row + row_idx, current_col + col_idx))
               (lit_pixels pattern)
  | None => []
  end.

Fixpoint slots_from {B} (emit : nat → Z * Z → list B) (start_row : Z)
    (chars : list char) (char_idx : nat) (current_col : Z) : list B :=
  match chars with
  | [] => []
  | c :: rest =>
      slot_emit emit start_row char_idx c current_col
        ++ slots_from emit start_row rest (S char_idx) (current_col + 12)
  end.

Definition slot_color (char_idx : nat) : pystr :=
  default [] (colors !! char_idx).

Definition emit_highlight (grid_width grid_height : Z) (char_idx : nat)
    (q : Z * Z) : list (Z * Z * pystr) :=
  if within q.1 q.2 grid_width grid_height then [(q, slot_color char_idx)]
  else [].

Definition emit_digit (grid_width grid_height : Z) (char_idx : nat)
    (q : Z * Z) : list (Z * Z) :=
  if within q.1 q.2 grid_width grid_height then [q] else [].

Definition emit_border (grid_width grid_height : Z)
    (digit_positions : gset (Z * Z)) (char_idx : nat) (q : Z * Z)
  : list (Z * Z) :=
  flat_map (λ dr,
    flat_map (λ dc,
      if (dr =? 0) && (dc =? 0) then []
      else if within (q.1 + dr) (q.2 + dc) grid_width grid_height
              && negb (bool_decide ((q.1 + dr, q.2 + dc) ∈ digit_positions))
      then [(q.1 + dr, q.2 + dc)]
      else []) [-1; 0; 1]) [-1; 0; 1].

(** The two ways the loops accumulate: appending to a list, adding to a
    set. *)
Definition list_add {B} (acc : list B) (new : list B) : list B := acc ++ new.

Definition set_add `{Countable B} (acc : gset B) (new : list B) : gset B :=
  list_to_set new ∪ acc.

(** The set [digit_positions] the border pass starts from. *)
Definition digit_set (time_str : pystr)
    (start_row start_col grid_width grid_height : Z) : gset (Z * Z) :=
  list_to_set (slots_from (emit_digit grid_width grid_height) start_row
                 time_str 0 start_col).

(** The border as the specification describes it: the cells inside the
    grid that touch a highlighted cell and are not highlighted. *)
Definition border_of_highlight (positions : list (Z * Z * pystr))
    (border : list (Z * Z)) (grid_width grid_height : Z) : Prop :=
  ∀ p, p ∈ border ↔
       in_grid grid_width grid_height p ∧ (p ∉ cells positions) ∧
       ∃ q, q ∈ cells positions ∧ adjacent8 q p.

(** ** Vocabulary of the controller's properties *)

(** How many times the iteration(s) rebuilt the grid: each call of
    [update_display_parameters] reads the source once. *)
Definition rebuilds (out : list action) : nat :=
  length (filter (λ a, a = ReadSource) out).

(** A terminal that answers the size query with [cols] by [lines]. *)
Definition terminal_of (cols lines : Z) : Terminal := {|
  os_get_terminal_size := Ok (cols, lines);
  mode_con := Raise OSError;
|}.

(** A host whose terminal has the same size at each query of the
    iteration. *)
Definition host_of (cols lines : Z) (minified now : pystr) : Host := {|
  size_at_update := terminal_of cols lines;
  size_at_check := terminal_of cols lines;
  size_at_warning := terminal_of cols lines;
  minified_source := minified;
  current_time := now;
|}.

Definition linux : OsInfo := {|
  system := py "Linux";
  version := [];
  is_windows := false;
  is_unix := true;
  is_mac := false;
|}.

Definition windows : OsInfo := {|
  system := py "Windows";
  version := [];
  is_windows := true;
  is_unix := false;
  is_mac := false;
|}.

(** The two lines of the warning that carry the sizes. *)
Definition current_size_line (cols lines : Z) : pystr :=
  py "Current size: " ++ str cols ++ py " x " ++ str lines.

Definition required_minimum_line (self : ASCIIClock) : pystr :=
  py "Required minimum: " ++ str (min_width self) ++ py " x "
    ++ str (min_height self).

(** What [display_size_warning] prints for a line of the warning. *)
Definition warning_print (line : pystr) (cols : Z) : action :=
  Print (warning_color line ++ center line cols ++ Colors.RESET).

(** The fields no method assigns after [__init__]. *)
Definition same_settings (a b : ASCIIClock) : Prop :=
  min_width a = min_width b ∧ min_height a = min_height b ∧
  supports_resize_signal a = supports_resize_signal b ∧
  os_info a = os_info b.

(** Whether the iteration starts by calling [update_display_parameters]. *)
Definition rebuilds_first (clock : ASCIIClock) : bool :=
  terminal_resized clock || negb (supports_resize_signal clock).

(** What an iteration shows once [clock] is settled: the size warning when
    the size check fails, else the frame composed for the current time on
    the grid the clock holds. *)
Definition iteration_shows (host : Host) (clock : ASCIIClock)
    (out : list action) : Prop :=
  if is_terminal_size_adequate clock (size_at_check host) then
    ∃ positions border lines,
      get_highlight_positions (current_time host)
        (Z.max 1 (height clock / 2 - 5))
        (Z.max 5 ((width clock - (8 * 12 - 3)) / 2))
        (width clock) (height clock) = Ok positions ∧
      get_border_positions (current_time host)
        (Z.max 1 (height clock / 2 - 5))
        (Z.max 5 ((width clock - (8 * 12 - 3)) / 2))
        (width clock) (height clock) = Ok border ∧
      display_code_with_time (grid clock) positions border
        = Ok (map Print lines) ∧
      length lines = length (grid clock) ∧
      out = Cursor.clear_screen ++ map Print lines ++ [Sleep 1]
  else
    out = display_size_warning clock (size_at_warning host) ++ [Sleep 1].

(** ** [get_minified_source], from the minifying on

    Reading the file and [_remove_docstrings_and_comments] (regular
    expressions) are not modelled: [source] below is the text they leave. *)

(** [c.isspace()], the characters [strip] removes. *)
Definition isspace (c : char) : bool :=
  ((9 <=? c) && (c <=? 13) || (28 <=? c) && (c <=? 32) || (c =? 133)
   || (c =? 160) || (c =? 5760) || (8192 <=? c) && (c <=? 8202)
   || (c =? 8232) || (c =? 8233) || (c =? 8239) || (c =? 8287)
   || (c =? 12288))%N.

Fixpoint lstrip (s : pystr) : pystr :=
  match s with
  | [] => []
  | c :: s' => if isspace c then lstrip s' else s
  end.

(** [s.strip()] *)
Definition strip (s : pystr) : pystr :=
  reverse (lstrip (reverse (lstrip s))).

(** [s.split(sep)] for a separator of one character. *)
Fixpoint split (sep : char) (s : pystr) : list pystr :=
  match s with
  | [] => [[]]
  | c :: s' =>
      if (c =? sep)%N then [] :: split sep s'
      else
        match split sep s' with
        | part :: parts => (c :: part) :: parts
        | [] => [[c]]
        end
  end.

(** [sep.join(parts)] *)
Fixpoint join (sep : pystr) (parts : list pystr) : pystr :=
  match parts with
  | [] => []
  | [part] => part
  | part :: parts' => part ++ sep ++ join sep parts'
  end.

Definition NEWLINE : char := 10%N.

(** The minifying: the lines stripped, the empty ones dropped, the rest
    joined by single spaces. *)
Definition minify (source : pystr) : pystr :=
  let lines := split NEWLINE source in
  let minified_lines :=
    foldl (λ minified_lines line,
             let line := strip line in
             if bool_decide (line ≠ []) then minified_lines ++ [line]
             else minified_lines) [] lines in
  join (py " ") minified_lines.

(** [while len(minified) < 20000: minified += " " + minified], for at
    most [fuel] rounds. *)
Fixpoint ensure_length (fuel : nat) (minified : pystr) : option pystr :=
  if len minified <? 20000 then
    match fuel with
    | O => None
    | S fuel' => ensure_length fuel' (minified ++ (py " " ++ minified))
    end
  else Some minified.

Definition get_minified_source (fuel : nat) (source : pystr)
  : option pystr :=
  ensure_length fuel (minify source).

(** ** [main], with its two ways out *)

(** What an iteration has done when it stops, and how it stopped. An
    iteration that raises has by then printed nothing: the only calls that
    raise are [create_display_grid] and the two compositor calls, which
    come before the iteration's first write; all it may have done is read
    the source. *)
Definition main_iteration_effects (host : Host) (clock : ASCIIClock)
  : list action * result ASCIIClock :=
  match main_iteration host clock with
  | Ok (clock', out) => (out, Ok clock')
  | Raise e => (if rebuilds_first clock then [ReadSource] else [], Raise e)
  end.

(** The loop until an iteration raises ([Some e]) or, the iterations of
    [hosts] done, the user interrupts it during the sleep ([None]). *)
Fixpoint main_until (hosts : list (bool * Host)) (clock : ASCIIClock)
  : list action * option exn :=
  match hosts with
  | [] => ([], None)
  | (sigwinch, host) :: hosts' =>
      let clock :=
        if sigwinch && supports_resize_signal clock
        then _handle_resize clock else clock in
      match main_iteration_effects host clock with
      | (out, Ok clock') =>
          let '(out', stop) := main_until hosts' clock' in
          (out ++ out', stop)
      | (out, Raise e) => (out, Some e)
      end
  end.

(** [main]: what it does to the terminal and the exit status it passes to
    [sys.exit]. [str_exn] is the text of an exception in an f-string. *)
Definition main (sigwinch_installed : bool) (info : OsInfo)
    (str_exn : exn → pystr) (hosts : list (bool * Host))
  : list action * Z :=
  let clock := init sigwinch_installed info in
  let '(out, stop) := main_until hosts clock in
  match stop with
  | None =>
      (* except KeyboardInterrupt *)
      (Cursor.hide ++ out ++ Cursor.clear_screen, 0)
  | Some e =>
      (* except Exception as e *)
      (Cursor.hide ++ out ++ Cursor.show ++ Cursor.clear_screen
       ++ [Print (py "Error: " ++ str_exn e);
           Print (py "OS: " ++ system (os_info clock));
           Print (py "Please check terminal compatibility and try again.")],
       1)
  end.

(** How often a run rebuilds the grid, by the code's rule: an iteration
    rebuilds when the flag is set, a signal arrived before it, or signals
    are not supported. *)
Fixpoint expected_rebuilds (signals flag : bool)
    (hosts : list (bool * Host)) : nat :=
  match hosts with
  | [] => 0
  | (sigwinch, _) :: hosts' =>
      ((if negb signals || flag || sigwinch then 1 else 0)
       + expected_rebuilds signals false hosts')%nat
  end.

(** A host that gives the loop what the collaborators always give it: a
    non-empty text and a time string. *)
Definition well_formed_host (host : Host) : Prop :=
  minified_source host ≠ [] ∧ time_string (current_time host).

(** The anchor [main] computes for a grid of [w] by [h]. *)
Definition time_start_row (h : Z) : Z := Z.max 1 (h / 2 - 5).
Definition time_start_col (w : Z) : Z := Z.max 5 ((w - (8 * 12 - 3)) / 2).

(** A line of [mode con] the loop reads a number from. *)
Definition consulted (line : ModeLine) : bool :=
  contains (py "Columns:") (text line) || contains (py "Lines:") (text line).

(** [padded] is [line] between two runs of spaces that differ by at most
    one cell, filling [width] cells; a line of [width] cells or more is
    left as it is. *)
Definition centred_in (width : Z) (line padded : pystr) : Prop :=
  ∃ left right,
    padded = replicate (Z.to_nat left) (ch " ") ++ line
               ++ replicate (Z.to_nat right) (ch " ") ∧
    0 ≤ left ∧ 0 ≤ right ∧ Z.abs (left - right) ≤ 1 ∧
    left + len line + right = Z.max width (len line).

(** * Properties *)

(** ** Loops *)

Lemma bind_Ok {A B} (a : A) (f : A → result B) : (Ok a ≫= f) = f a.
Proof. done. Qed.

Section for_each.
Context {A S : Type}.
Implicit Types (xs : list A) (body : A → S → result S).

Lemma for_each_nil body s : for_each [] body s = Ok s.
Proof. done. Qed.

Lemma for_each_cons x xs body s :
  for_each (x :: xs) body s = s' ← body x s; for_each xs body s'.
Proof. done. Qed.

Lemma for_each_app xs ys body s :
  for_each (xs ++ ys) body s = s' ← for_each xs body s; for_each ys body s'.
Proof.
  revert s. induction xs as [|x xs IH]; intros s; simpl; [done|].
  destruct (body x s); simpl; [apply IH | done].
Qed.

Lemma for_each_ext xs body body' s :
  (∀ x s, x ∈ xs → body x s = body' x s) →
  for_each xs body s = for_each xs body' s.
Proof.
  revert s. induction xs as [|x xs IH]; intros s Hb; simpl; [done|].
  rewrite Hb by constructor.
  destruct (body' x s); simpl; [|done].
  apply IH. intros; apply Hb. by constructor.
Qed.

Lemma for_each_flat_map {B} (f : B → list A) (bs : list B) body s :
  for_each (flat_map f bs) body s
  = for_each bs (λ b s, for_each (f b) body s) s.
Proof.
  revert s. induction bs as [|b bs IH]; intros s; simpl; [done|].
  rewrite for_each_app. destruct (for_each (f b) body s); simpl; auto.
Qed.
End for_each.

(** A loop whose body appends to a list. *)
Lemma for_each_append {A B} (xs : list A) (body : A → list B → result (list B))
    (F : A → list B) acc :
  (∀ x acc, x ∈ xs → body x acc = Ok (acc ++ F x)) →
  for_each xs body acc = Ok (acc ++ flat_map F xs).
Proof.
  revert acc. induction xs as [|x xs IH]; intros acc Hb; simpl.
  - by rewrite app_nil_r.
  - rewrite Hb by constructor. simpl.
    rewrite IH; [by rewrite <- app_assoc|].
    intros; apply Hb. by constructor.
Qed.

(** A loop whose body adds to a set. *)
Lemma for_each_add {A B} `{!EqDecision B, !Countable B} (xs : list A)
    (body : A → gset B → result (gset B)) (F : A → list B) acc :
  (∀ x acc, x ∈ xs → body x acc = Ok (list_to_set (F x) ∪ acc)) →
  for_each xs body acc = Ok (list_to_set (flat_map F xs) ∪ acc).
Proof.
  revert acc. induction xs as [|x xs IH]; intros acc Hb; simpl.
  - f_equal. set_solver.
  - rewrite Hb by constructor. simpl.
    rewrite IH; [f_equal; set_solver|].
    intros; apply Hb. by constructor.
Qed.

(** ** Indexing *)

Lemma len_nonneg {A} (xs : list A) : 0 ≤ len xs.
Proof. unfold len. lia. Qed.

Ltac zbool :=
  repeat match goal with
  | |- context [?a <=? ?b] => destruct (Z.leb_spec a b)
  | |- context [?a <? ?b] => destruct (Z.ltb_spec a b)
  | |- context [?a >=? ?b] => rewrite (Z.geb_leb a b)
  | |- context [?a =? ?b] => destruct (Z.eqb_spec a b)
  end; simpl; try lia.

Lemma index_lookup {A} (xs : list A) (i : nat) x :
  xs !! i = Some x → index xs (Z.of_nat i) = Ok x.
Proof.
  intros Hx. pose proof (lookup_lt_Some _ _ _ Hx) as Hlt.
  unfold index, len. zbool.
  by rewrite Nat2Z.id, Hx.
Qed.

Lemma index_nil {A} (i : Z) : index (@nil A) i = Raise IndexError.
Proof. unfold index, len. simpl. zbool; done. Qed.

Lemma range_pos n : 0 < n → ∃ rest, range n = 0 :: rest.
Proof.
  intros Hn. unfold range.
  destruct (Z.to_nat n) as [|k] eqn:Hk; [lia|].
  simpl. eauto.
Qed.

Lemma elem_of_range n i : i ∈ range n ↔ 0 ≤ i < n.
Proof.
  unfold range. rewrite list_elem_of_fmap. split.
  - intros (k & -> & Hk). apply elem_of_seq in Hk. lia.
  - intros Hi. exists (Z.to_nat i). split; [lia|].
    apply elem_of_seq. lia.
Qed.

(** ** Background grid builder *)

Lemma cursor_at_range n k : 0 < n → 0 ≤ cursor_at n k < n.
Proof.
  intros Hn. unfold cursor_at.
  pose proof (Z.mod_pos_bound k (n + 1) ltac:(lia)).
  zbool.
Qed.

Lemma index_char_at source_code k :
  source_code ≠ [] →
  index source_code (cursor_at (len source_code) k)
  = Ok (char_at source_code k).
Proof.
  intros Hne.
  assert (0 < len source_code) as Hn
    by (unfold len; destruct source_code; [done | simpl; lia]).
  pose proof (cursor_at_range _ k Hn) as Hc.
  unfold char_at.
  destruct (source_code !! Z.to_nat (cursor_at (len source_code) k))
    as [x|] eqn:Hx.
  - simpl. rewrite <- (Z2Nat.id (cursor_at (len source_code) k)) by lia.
    by apply index_lookup.
  - apply lookup_ge_None in Hx. unfold len in *. lia.
Qed.

(** One cell: the cursor of cell [k] is [k mod (n + 1)], the character
    written is [char_at k]. *)
Lemma fill_cell_step self grid_row k :
  source_code self ≠ [] → 0 ≤ k →
  fill_cell self (grid_row, k mod (len (source_code self) + 1))
  = Ok (grid_row ++ [char_at (source_code self) k],
        (k + 1) mod (len (source_code self) + 1)).
Proof.
  intros Hne Hk. set (n := len (source_code self)).
  assert (0 < n) as Hn
    by (unfold n, len; destruct (source_code self); [done | simpl; lia]).
  pose proof (Z.mod_pos_bound k (n + 1) ltac:(lia)) as Hm.
  pose proof (index_char_at (source_code self) k Hne) as Hidx.
  unfold cursor_at in Hidx. fold n in Hidx.
  unfold fill_cell. fold n.
  destruct (Z.ltb_spec (k mod (n + 1)) n) as [Hlt|Hge].
  - rewrite Hidx. simpl. do 2 f_equal.
    rewrite <- (Z.mod_small (k mod (n + 1) + 1) (n + 1)) by lia.
    apply Zplus_mod_idemp_l.
  - rewrite Hidx. simpl. do 2 f_equal.
    assert (k mod (n + 1) = n) as Heq by lia.
    rewrite <- Zplus_mod_idemp_l, Heq.
    replace (n + 1) with (1 * (n + 1)) at 1 by lia.
    by rewrite Z.mod_mul by lia.
Qed.

Lemma fill_row self (xs : list Z) grid_row k :
  source_code self ≠ [] → 0 ≤ k →
  for_each xs (λ _ st, fill_cell self st)
    (grid_row, k mod (len (source_code self) + 1))
  = Ok (grid_row ++ cells_from (source_code self) k (length xs),
        (k + Z.of_nat (length xs)) mod (len (source_code self) + 1)).
Proof.
  intros Hne. revert grid_row k.
  induction xs as [|x xs IH]; intros grid_row k Hk.
  - simpl. by rewrite app_nil_r, Z.add_0_r.
  - rewrite for_each_cons, fill_cell_step by done. simpl mbind.
    rewrite IH by lia. simpl length. simpl cells_from.
    rewrite <- app_assoc. simpl. do 3 f_equal. lia.
Qed.

Lemma length_range n : length (range n) = Z.to_nat n.
Proof. unfold range. by rewrite length_map, length_seq. Qed.

Lemma fill_rows self (ys : list Z) g k :
  source_code self ≠ [] → 0 ≤ k →
  for_each ys (λ _ '(grid, char_index),
     '(grid_row, char_index) ←
        for_each (range (width self)) (λ _ st, fill_cell self st)
                 ([], char_index);
     Ok (grid ++ [grid_row], char_index))
    (g, k mod (len (source_code self) + 1))
  = Ok (g ++ rows_from (source_code self) (Z.to_nat (width self)) k
               (length ys),
        (k + Z.of_nat (Z.to_nat (width self)) * Z.of_nat (length ys))
          mod (len (source_code self) + 1)).
Proof.
  intros Hne. revert g k.
  induction ys as [|y ys IH]; intros g k Hk.
  - simpl. by rewrite app_nil_r, Z.mul_0_r, Z.add_0_r.
  - rewrite for_each_cons, fill_row by done. simpl mbind.
    rewrite length_range, IH by lia.
    simpl length. simpl rows_from. rewrite <- app_assoc. simpl.
    do 3 f_equal. lia.
Qed.

(** What the builder returns for a non-empty text. *)
Lemma create_display_grid_rows self :
  source_code self ≠ [] →
  create_display_grid self
  = Ok (rows_from (source_code self) (Z.to_nat (width self)) 0
          (Z.to_nat (height self))).
Proof.
  intros Hne. unfold create_display_grid.
  pose proof (fill_rows self (range (height self)) [] 0 Hne ltac:(lia)) as H.
  rewrite Z.mod_0_l in H by (pose proof (len_nonneg (source_code self)); lia).
  rewrite H. simpl. by rewrite length_range.
Qed.

Lemma cells_from_lookup source_code k m (j : nat) :
  (j < m)%nat →
  cells_from source_code k m !! j = Some (char_at source_code (k + Z.of_nat j)).
Proof.
  revert k j. induction m as [|m IH]; intros k j Hj; [lia|].
  destruct j as [|j]; simpl.
  - by rewrite Z.add_0_r.
  - rewrite IH by lia. do 2 f_equal. lia.
Qed.

Lemma rows_from_lookup source_code w k rows (i : nat) :
  (i < rows)%nat →
  rows_from source_code w k rows !! i
  = Some (cells_from source_code (k + Z.of_nat i * Z.of_nat w) w).
Proof.
  revert k i. induction rows as [|rows IH]; intros k i Hi; [lia|].
  destruct i as [|i]; simpl rows_from.
  - simpl. do 2 f_equal. lia.
  - change ((?x :: ?l) !! S i) with (l !! i).
    rewrite IH by lia. do 2 f_equal. lia.
Qed.

Lemma length_cells_from source_code k m :
  length (cells_from source_code k m) = m.
Proof. revert k. induction m; intros; simpl; auto. Qed.

Lemma length_rows_from source_code w k rows :
  length (rows_from source_code w k rows) = rows.
Proof. revert k. induction rows; intros; simpl; auto. Qed.

(** The cell of row [r] and column [c] holds the character under the
    cursor of row-major index [r * width + c]. *)
Lemma create_display_grid_cells self :
  source_code self ≠ [] →
  ∃ g, create_display_grid self = Ok g ∧
       length g = Z.to_nat (height self) ∧
       (∀ row, row ∈ g → length row = Z.to_nat (width self)) ∧
       ∀ r c, 0 ≤ r < height self → 0 ≤ c < width self →
         (row ← index g r; index row c)
         = index (source_code self)
             (cursor_at (len (source_code self)) (r * width self + c)).
Proof.
  intros Hne. eexists. split; [by apply create_display_grid_rows|].
  split; [apply length_rows_from|]. split.
  - intros row Hrow. apply list_elem_of_lookup in Hrow as [i Hi].
    pose proof (lookup_lt_Some _ _ _ Hi) as Hlt.
    rewrite length_rows_from in Hlt.
    rewrite rows_from_lookup in Hi by done.
    injection Hi as <-. apply length_cells_from.
  - intros r c Hr Hc.
    rewrite <- (Z2Nat.id r) at 1 by lia.
    erewrite index_lookup by (apply rows_from_lookup; lia).
    simpl mbind. rewrite <- (Z2Nat.id c) at 1 by lia.
    erewrite index_lookup by (apply cells_from_lookup; lia).
    rewrite index_char_at by done. do 2 f_equal. lia.
Qed.

(** As long as the builder has not passed the end of the text more than
    once, the grid is the tiling of the specification. *)
Lemma create_display_grid_tiles_short self :
  source_code self ≠ [] →
  width self * height self ≤ len (source_code self) + 1 →
  ∃ g, create_display_grid self = Ok g ∧ tiles self g.
Proof.
  intros Hne Hsmall.
  destruct (create_display_grid_cells self Hne) as (g & Hg & _ & _ & Hcell).
  exists g. split; [done|]. intros r c Hr Hc. rewrite Hcell by done.
  f_equal. set (n := len (source_code self)) in *.
  assert (0 < n) as Hn
    by (unfold n, len; destruct (source_code self); [done | simpl; lia]).
  assert (r * width self + c < width self * height self) as Hk by nia.
  assert (0 ≤ r * width self + c) as Hk0 by nia.
  unfold cursor_at. rewrite (Z.mod_small _ (n + 1)) by lia.
  destruct (Z.ltb_spec (r * width self + c) n) as [Hlt|Hge].
  - by rewrite Z.mod_small by lia.
  - replace (r * width self + c) with n by lia. by rewrite Z.mod_same by lia.
Qed.

(** C7. With an empty filler text and positive grid dimensions the grid
    builder raises [IndexError] on its first cell: it returns no grid and
    it does not loop. *)
Theorem create_display_grid_empty_source self :
  source_code self = [] → 0 < width self → 0 < height self →
  create_display_grid self = Raise IndexError.
Proof.
  intros Hsrc Hw Hh. unfold create_display_grid.
  destruct (range_pos _ Hh) as [ys ->]. destruct (range_pos _ Hw) as [xs ->].
  rewrite for_each_cons. cbv beta iota. rewrite for_each_cons.
  assert (fill_cell self ([], 0) = Raise IndexError) as ->; [|done].
  unfold fill_cell. rewrite Hsrc. reflexivity.
Qed.

Lemma create_display_grid_empty_source_witness :
  create_display_grid (clock_of [] 120 30) = Raise IndexError.
Proof. by apply (create_display_grid_empty_source (clock_of [] 120 30)). Defined.

(** Without rows to fill the builder never reads the text. *)
Lemma create_display_grid_no_rows self :
  height self ≤ 0 → create_display_grid self = Ok [].
Proof.
  intros Hh. unfold create_display_grid, range.
  by replace (Z.to_nat (height self)) with 0%nat by lia.
Qed.

(** C1. On the filler text "AB" and a grid of 4 by 1 the builder returns
    the row "ABAA": after the last character it writes character 0 and
    leaves the cursor on 0, so character 0 comes twice. The cell of
    row-major index 3 holds "A", not character 3 mod 2. *)
Theorem create_display_grid_repeats_first_char :
  create_display_grid (clock_of (py "AB") 4 1) = Ok [py "ABAA"] ∧
  ¬ tiles (clock_of (py "AB") 4 1) [py "ABAA"].
Proof.
  split; [done|]. intros Htiles.
  specialize (Htiles 0 3 ltac:(simpl; lia) ltac:(simpl; lia)).
  vm_compute in Htiles. discriminate.
Qed.

(** The scenario of 120 by 30 cells: row 0 starts "ABAABA". *)
Lemma create_display_grid_AB_120_30 :
  ∃ g row, create_display_grid (clock_of (py "AB") 120 30) = Ok g ∧
           g !! 0%nat = Some row ∧ take 6 row = py "ABAABA".
Proof. vm_compute. eauto. Qed.

(** ** Glyph table *)

Lemma supported_lookup c : supported c → is_Some (ASCII_PATTERNS !! c).
Proof.
  unfold supported, supported_chars. intros H.
  repeat (apply elem_of_cons in H as [->|H]; [by vm_compute; eauto|]).
  by apply elem_of_nil in H.
Qed.

Lemma lookup_supported c pattern :
  ASCII_PATTERNS !! c = Some pattern → supported c.
Proof.
  unfold ASCII_PATTERNS. intros H. apply elem_of_list_to_map_2 in H.
  unfold supported, supported_chars.
  repeat (apply elem_of_cons in H as [[= -> _]|H];
          [repeat first [by left | right]|]).
  by apply elem_of_nil in H.
Qed.

(** Every glyph has the 11 rows of 9 pixels the loops read. *)
Lemma patterns_shape c pattern :
  ASCII_PATTERNS !! c = Some pattern → shape_ok pattern = true.
Proof.
  unfold ASCII_PATTERNS. intros H. apply elem_of_list_to_map_2 in H.
  repeat (apply elem_of_cons in H as [[= _ ->]|H]; [reflexivity|]).
  by apply elem_of_nil in H.
Qed.

Lemma patterns_dimensions c pattern :
  ASCII_PATTERNS !! c = Some pattern →
  length pattern = 11%nat ∧ Forall (λ row, length row = 9%nat) pattern.
Proof.
  unfold ASCII_PATTERNS. intros H. apply elem_of_list_to_map_2 in H.
  repeat (apply elem_of_cons in H as [[= _ ->]|H];
          [split; [reflexivity | repeat constructor]|]).
  by apply elem_of_nil in H.
Qed.

Lemma shape_ok_pixel pattern row_idx col_idx :
  shape_ok pattern = true → row_idx ∈ range 11 → col_idx ∈ range 9 →
  ∃ v, pixel pattern row_idx col_idx = Ok v.
Proof.
  unfold shape_ok. rewrite forallb_forall. intros H Hr Hc.
  apply list_elem_of_In in Hr, Hc.
  specialize (H _ Hr). rewrite forallb_forall in H. specialize (H _ Hc).
  destruct (pixel pattern row_idx col_idx); [eauto | done].
Qed.

Lemma elem_of_lit_pixels pattern row_idx col_idx :
  (row_idx, col_idx) ∈ lit_pixels pattern ↔
  0 ≤ row_idx < 11 ∧ 0 ≤ col_idx < 9 ∧ pixel pattern row_idx col_idx = Ok 1.
Proof.
  unfold lit_pixels. rewrite list_elem_of_In, in_flat_map. split.
  - intros (r & Hr & H). apply in_flat_map in H as (c & Hc & H).
    apply list_elem_of_In, elem_of_range in Hr, Hc.
    destruct (pixel pattern r c) as [v|] eqn:Hv; [|done].
    destruct (Z.eqb_spec v 1) as [->|]; [|done].
    destruct H as [[= <- <-]|[]]. done.
  - intros (Hr & Hc & Hv). exists row_idx.
    split; [by apply list_elem_of_In, elem_of_range|].
    apply in_flat_map. exists col_idx.
    split; [by apply list_elem_of_In, elem_of_range|].
    rewrite Hv. simpl. by left.
Qed.

(** ** Loops that accumulate *)

Lemma flat_map_nested {A B C} (f : A → list B) (g : B → list C) xs :
  flat_map g (flat_map f xs) = flat_map (λ x, flat_map g (f x)) xs.
Proof.
  induction xs as [|x xs IH]; simpl; [done|].
  by rewrite flat_map_app, IH.
Qed.

Section accumulate.
Context {B St : Type} (add : St → list B → St).
Hypothesis add_nil : ∀ s, add s [] = s.
Hypothesis add_app : ∀ s new new', add (add s new) new' = add s (new ++ new').

Lemma for_each_accumulate {A} (xs : list A) (body : A → St → result St)
    (F : A → list B) s :
  (∀ x s, x ∈ xs → body x s = Ok (add s (F x))) →
  for_each xs body s = Ok (add s (flat_map F xs)).
Proof.
  revert s. induction xs as [|x xs IH]; intros s Hb.
  - simpl. by rewrite add_nil.
  - rewrite for_each_cons, Hb by constructor. simpl mbind.
    rewrite IH; [by rewrite add_app|].
    intros; apply Hb. by constructor.
Qed.

(** The double loop over the pixels of a glyph. *)
Lemma for_each_lit_pixel_accumulate pattern (body : Z → Z → St → result St)
    (F : Z → Z → list B) s :
  shape_ok pattern = true →
  (∀ row_idx col_idx s, body row_idx col_idx s = Ok (add s (F row_idx col_idx))) →
  for_each_lit_pixel pattern body s
  = Ok (add s (flat_map (λ '(row_idx, col_idx), F row_idx col_idx)
                        (lit_pixels pattern))).
Proof.
  intros Hshape Hb. unfold for_each_lit_pixel, lit_pixels.
  rewrite flat_map_nested.
  apply for_each_accumulate. intros r s' Hr.
  rewrite flat_map_nested.
  apply for_each_accumulate. intros c s'' Hc.
  destruct (shape_ok_pixel _ _ _ Hshape Hr Hc) as [v Hv].
  rewrite Hv. unfold pixel in Hv.
  destruct (index pattern r) as [pattern_row|]; [|done]. simpl in *.
  rewrite Hv. simpl.
  destruct (v =? 1); simpl; [by rewrite Hb, app_nil_r | by rewrite add_nil].
Qed.

(** The loop over the characters of the time string. [good] is what the
    body needs of a slot in order not to raise. *)
Lemma slots_accumulate (good : nat → char → Prop)
    (body : Z * char → St * Z → result (St * Z))
    (emit : nat → Z * Z → list B) start_row chars char_idx s current_col :
  (∀ i c s cur, good i c →
     body (Z.of_nat i, c) (s, cur)
     = Ok (add s (slot_emit emit start_row i c cur), cur + 12)) →
  (∀ i c, chars !! i = Some c → good (char_idx + i)%nat c) →
  for_each (enumerate_from (Z.of_nat char_idx) chars) body (s, current_col)
  = Ok (add s (slots_from emit start_row chars char_idx current_col),
        current_col + 12 * len chars).
Proof.
  intros Hb. revert char_idx s current_col.
  induction chars as [|c chars IH]; intros char_idx s cur Hgood.
  - simpl. rewrite add_nil. do 2 f_equal. unfold len. simpl. lia.
  - simpl enumerate_from. rewrite for_each_cons.
    rewrite Hb by (rewrite <- (Nat.add_0_r char_idx); by apply Hgood).
    simpl mbind.
    replace (Z.of_nat char_idx + 1) with (Z.of_nat (S char_idx)) by lia.
    rewrite IH.
    + simpl slots_from. rewrite add_app. do 2 f_equal.
      unfold len. simpl length. lia.
    + intros i c' Hi. replace (S char_idx + i)%nat with (char_idx + S i)%nat
        by lia. by apply Hgood.
Qed.
End accumulate.

Lemma list_add_nil {B} (acc : list B) : list_add acc [] = acc.
Proof. apply app_nil_r. Qed.

Lemma list_add_app {B} (acc new new' : list B) :
  list_add (list_add acc new) new' = list_add acc (new ++ new').
Proof. unfold list_add. by rewrite app_assoc. Qed.

Lemma set_add_nil `{Countable B} (acc : gset B) : set_add acc [] = acc.
Proof. unfold set_add. set_solver. Qed.

Lemma set_add_app `{Countable B} (acc : gset B) (new new' : list B) :
  set_add (set_add acc new) new' = set_add acc (new ++ new').
Proof. unfold set_add. set_solver. Qed.

(** ** The three passes of the compositor *)

Lemma elem_of_slot_emit {B} (emit : nat → Z * Z → list B) start_row i c cur x :
  x ∈ slot_emit emit start_row i c cur ↔
  ∃ pattern row_idx col_idx,
    ASCII_PATTERNS !! c = Some pattern ∧
    (row_idx, col_idx) ∈ lit_pixels pattern ∧
    x ∈ emit i (start_row + row_idx, cur + col_idx).
Proof.
  unfold slot_emit. destruct (ASCII_PATTERNS !! c) as [pattern|].
  - rewrite list_elem_of_In, in_flat_map. split.
    + intros ([r cc] & Hq & Hx). exists pattern, r, cc.
      by rewrite !list_elem_of_In.
    + intros (? & r & cc & [= <-] & Hq & Hx). exists (r, cc).
      by rewrite <- !list_elem_of_In.
  - split; [by intros ?%elem_of_nil | by intros (? & ? & ? & ? & _)].
Qed.

Lemma elem_of_slots_from {B} (emit : nat → Z * Z → list B) start_row chars
    char_idx cur x :
  x ∈ slots_from emit start_row chars char_idx cur ↔
  ∃ (i : nat) c pattern row_idx col_idx,
    chars !! i = Some c ∧
    ASCII_PATTERNS !! c = Some pattern ∧
    (row_idx, col_idx) ∈ lit_pixels pattern ∧
    x ∈ emit (char_idx + i)%nat
             (start_row + row_idx, cur + 12 * Z.of_nat i + col_idx).
Proof.
  revert char_idx cur. induction chars as [|c chars IH]; intros k cur.
  - simpl. split; [by intros ?%elem_of_nil|].
    by intros (i & ? & ? & ? & ? & ? & _).
  - simpl slots_from. rewrite elem_of_app, elem_of_slot_emit, IH. split.
    + intros [(p & r & cc & Hp & Hq & Hx)|(i & c' & p & r & cc & Hi & Hp & Hq & Hx)].
      * exists 0%nat, c, p, r, cc. rewrite Nat.add_0_r.
        replace (cur + 12 * Z.of_nat 0 + cc) with (cur + cc) by lia. done.
      * exists (S i), c', p, r, cc.
        replace (k + S i)%nat with (S k + i)%nat by lia.
        replace (cur + 12 * Z.of_nat (S i) + cc)
          with (cur + 12 + 12 * Z.of_nat i + cc) by lia. done.
    + intros (i & c' & p & r & cc & Hi & Hp & Hq & Hx).
      destruct i as [|i].
      * left. injection Hi as ->. exists p, r, cc.
        rewrite Nat.add_0_r in Hx.
        replace (cur + 12 * Z.of_nat 0 + cc) with (cur + cc) in Hx by lia.
        done.
      * right. exists i, c', p, r, cc.
        replace (k + S i)%nat with (S k + i)%nat in Hx by lia.
        replace (cur + 12 * Z.of_nat (S i) + cc)
          with (cur + 12 + 12 * Z.of_nat i + cc) in Hx by lia. done.
Qed.

(** What a pass collects, in terms of the cells of the glyphs. *)
Lemma elem_of_slots {B} (emit : nat → Z * Z → list B) time_str start_row
    start_col x :
  x ∈ slots_from emit start_row time_str 0 start_col ↔
  ∃ i q, slot_cell time_str start_row start_col i q ∧ x ∈ emit i q.
Proof.
  rewrite elem_of_slots_from. split.
  - intros (i & c & p & r & cc & Hi & Hp & Hq & Hx).
    apply elem_of_lit_pixels in Hq as (Hr & Hc & Hv).
    exists i, (start_row + r, start_col + 12 * Z.of_nat i + cc).
    split; [|done]. by exists c, p, r, cc.
  - intros (i & q & (c & p & r & cc & Hi & Hp & Hr & Hc & Hv & ->) & Hx).
    exists i, c, p, r, cc. rewrite elem_of_lit_pixels. done.
Qed.

Lemma time_string_good time_str (i : nat) c :
  time_string time_str → time_str !! i = Some c →
  supported c ∧ (i < 8)%nat.
Proof.
  intros [Hsup Hlen] Hi. split.
  - by eapply Forall_lookup_1.
  - apply lookup_lt_Some in Hi. lia.
Qed.

Lemma index_colors (i : nat) :
  (i < 8)%nat → index colors (Z.of_nat i) = Ok (slot_color i).
Proof.
  intros Hi. apply index_lookup. unfold slot_color.
  do 8 (destruct i as [|i]; [done|]). lia.
Qed.

Lemma dict_get_supported c :
  supported c → ∃ pattern, ASCII_PATTERNS !! c = Some pattern ∧
                            dict_get ASCII_PATTERNS c = Ok pattern.
Proof.
  intros [pattern Hp]%supported_lookup. exists pattern.
  unfold dict_get. by rewrite Hp.
Qed.

Lemma get_highlight_positions_slots time_str start_row start_col
    grid_width grid_height :
  time_string time_str →
  get_highlight_positions time_str start_row start_col grid_width grid_height
  = Ok (slots_from (emit_highlight grid_width grid_height) start_row
          time_str 0 start_col).
Proof.
  intros Hts. unfold get_highlight_positions, enumerate.
  change 0 with (Z.of_nat 0) at 1.
  erewrite (slots_accumulate (B:=Z * Z * pystr) list_add list_add_nil
              list_add_app (λ i c, supported c ∧ (i < 8)%nat) _
              (emit_highlight grid_width grid_height) start_row); [done| |].
  - intros i c positions cur [Hc Hi].
    destruct (dict_get_supported c Hc) as (pattern & Hp & ->). simpl mbind.
    rewrite index_colors by done. simpl mbind.
    erewrite (for_each_lit_pixel_accumulate (B:=Z * Z * pystr) list_add list_add_nil list_add_app
                _ _ (λ row_idx col_idx,
                       emit_highlight grid_width grid_height i
                         (start_row + row_idx, cur + col_idx)));
      [| by eapply patterns_shape |].
    + simpl. unfold slot_emit. by rewrite Hp.
    + intros r cc acc. unfold emit_highlight, list_add. simpl.
      destruct (within _ _ _ _); [done | by rewrite app_nil_r].
  - intros i c Hi. by eapply time_string_good.
Qed.

Lemma get_border_positions_slots time_str start_row start_col
    grid_width grid_height :
  Forall supported time_str →
  get_border_positions time_str start_row start_col grid_width grid_height
  = Ok (elements (list_to_set
          (slots_from
             (emit_border grid_width grid_height
                (digit_set time_str start_row start_col grid_width
                   grid_height))
             start_row time_str 0 start_col) : gset (Z * Z))).
Proof.
  intros Hts. unfold get_border_positions, enumerate.
  change (enumerate_from 0 time_str)
    with (enumerate_from (Z.of_nat 0) time_str).
  erewrite (slots_accumulate (B:=Z * Z) set_add set_add_nil set_add_app
              (λ i c, supported c) _ (emit_digit grid_width grid_height)
              start_row);
    [| |intros i c Hi; by eapply Forall_lookup_1].
  - rewrite bind_Ok. cbv beta iota.
    erewrite (slots_accumulate (B:=Z * Z) list_add list_add_nil list_add_app
                (λ i c, supported c) _
                (emit_border grid_width grid_height
                   (set_add ∅ (slots_from (emit_digit grid_width grid_height)
                                 start_row time_str 0 start_col)))
                start_row);
      [| |intros i c Hi; by eapply Forall_lookup_1].
    + simpl. unfold digit_set, set_add. do 4 f_equal.
      rewrite (right_id_L ∅ (∪)). done.
    + intros i c acc cur Hc.
      destruct (dict_get_supported c Hc) as (pattern & Hp & ->).
      rewrite bind_Ok.
      erewrite (for_each_lit_pixel_accumulate (B:=Z * Z) list_add list_add_nil
                  list_add_app _ _
                  (λ row_idx col_idx,
                     emit_border grid_width grid_height _ i
                       (start_row + row_idx, cur + col_idx)));
        [| by eapply patterns_shape |].
      * simpl. unfold slot_emit. by rewrite Hp.
      * intros r cc acc'. unfold emit_border.
        apply (for_each_accumulate (B:=Z * Z) list_add list_add_nil list_add_app).
        intros dr acc'' _.
        apply (for_each_accumulate (B:=Z * Z) list_add list_add_nil list_add_app).
        intros dc acc''' _. unfold list_add. simpl.
        destruct ((dr =? 0) && (dc =? 0)); [by rewrite app_nil_r|].
        destruct (within _ _ _ _ && _); [done | by rewrite app_nil_r].
  - intros i c acc cur Hc.
    destruct (dict_get_supported c Hc) as (pattern & Hp & ->). simpl mbind.
    erewrite (for_each_lit_pixel_accumulate (B:=Z * Z) set_add set_add_nil set_add_app
                _ _ (λ row_idx col_idx,
                       emit_digit grid_width grid_height i
                         (start_row + row_idx, cur + col_idx)));
      [| by eapply patterns_shape |].
    + simpl. unfold slot_emit. by rewrite Hp.
    + intros r cc acc'. unfold emit_digit, set_add. simpl.
      destruct (within _ _ _ _); f_equal; set_solver.
Qed.

(** ** Membership in the two sets *)

Lemma within_in_grid row col grid_width grid_height :
  within row col grid_width grid_height = true ↔
  in_grid grid_width grid_height (row, col).
Proof. unfold within, in_grid. simpl. zbool; intuition lia. Qed.

Lemma elem_of_emit_highlight grid_width grid_height i q x :
  x ∈ emit_highlight grid_width grid_height i q ↔
  x = (q, slot_color i) ∧ in_grid grid_width grid_height q.
Proof.
  unfold emit_highlight. destruct q as [r c]. simpl.
  destruct (within r c grid_width grid_height) eqn:Hw.
  - apply within_in_grid in Hw. rewrite list_elem_of_singleton. tauto.
  - split; [by intros ?%elem_of_nil|]. intros [_ Hq].
    apply within_in_grid in Hq. congruence.
Qed.

Lemma elem_of_emit_digit grid_width grid_height i q x :
  x ∈ emit_digit grid_width grid_height i q ↔
  x = q ∧ in_grid grid_width grid_height q.
Proof.
  unfold emit_digit. destruct q as [r c]. simpl.
  destruct (within r c grid_width grid_height) eqn:Hw.
  - apply within_in_grid in Hw. rewrite list_elem_of_singleton. tauto.
  - split; [by intros ?%elem_of_nil|]. intros [_ Hq].
    apply within_in_grid in Hq. congruence.
Qed.

Lemma elem_of_emit_border (grid_width grid_height : Z)
    (digit_positions : gset (Z * Z)) (i : nat) (q p : Z * Z) :
  p ∈ emit_border grid_width grid_height digit_positions i q ↔
  adjacent8 q p ∧ in_grid grid_width grid_height p ∧ p ∉ digit_positions.
Proof.
  unfold emit_border. rewrite list_elem_of_In, in_flat_map. split.
  - intros (dr & Hdr & H). apply in_flat_map in H as (dc & Hdc & H).
    destruct ((dr =? 0) && (dc =? 0)) eqn:Hskip; [done|].
    destruct (within _ _ _ _) eqn:Hw; [|done].
    destruct (bool_decide _) eqn:Hd; [done|]. simpl in H.
    destruct H as [<-|[]].
    apply within_in_grid in Hw. apply bool_decide_eq_false in Hd.
    split; [|done]. unfold adjacent8. destruct q as [r c]. simpl in *.
    assert (dr = -1 ∨ dr = 0 ∨ dr = 1) as Hr by (simpl in Hdr; intuition lia).
    assert (dc = -1 ∨ dc = 0 ∨ dc = 1) as Hc by (simpl in Hdc; intuition lia).
    apply andb_false_iff in Hskip.
    rewrite !Z.eqb_neq in Hskip.
    repeat split; [lia | lia |]. intros [= Hr' Hc']. lia.
  - intros ((Hr & Hc & Hne) & Hin & Hd). destruct q as [r c], p as [pr pc].
    cbn [fst snd] in *.
    exists (pr - r). split; [simpl; lia|].
    apply in_flat_map. exists (pc - c). split; [simpl; lia|].
    replace (r + (pr - r)) with pr by lia.
    replace (c + (pc - c)) with pc by lia.
    destruct ((pr - r =? 0) && (pc - c =? 0)) eqn:Hskip.
    { apply andb_true_iff in Hskip. rewrite !Z.eqb_eq in Hskip.
      destruct Hne. f_equal; lia. }
    apply within_in_grid in Hin. rewrite Hin.
    rewrite bool_decide_eq_false_2 by done. simpl. by left.
Qed.

Lemma slot_color_lookup (i : nat) :
  (i < 8)%nat → colors !! i = Some (slot_color i).
Proof.
  intros Hi. unfold slot_color.
  do 8 (destruct i as [|i]; [done|]). lia.
Qed.

Lemma slot_cell_lt time_str start_row start_col i q :
  slot_cell time_str start_row start_col i q → (i < length time_str)%nat.
Proof. intros (c & ? & ? & ? & Hi & _). by eapply lookup_lt_Some. Qed.

(** The highlight list: the lit pixels of the glyphs that fall inside the
    grid, each with the colour of its slot. *)
Lemma elem_of_highlight time_str start_row start_col grid_width grid_height :
  time_string time_str →
  ∃ positions,
    get_highlight_positions time_str start_row start_col grid_width
      grid_height = Ok positions ∧
    ∀ q color, (q, color) ∈ positions ↔
      ∃ i, slot_cell time_str start_row start_col i q ∧
           in_grid grid_width grid_height q ∧
           colors !! i = Some color.
Proof.
  intros Hts. eexists. split; [by apply get_highlight_positions_slots|].
  intros q color. rewrite elem_of_slots. split.
  - intros (i & q' & Hcell & [[= <- ->] Hin]%elem_of_emit_highlight).
    exists i. split; [done|]. split; [done|]. apply slot_color_lookup.
    apply slot_cell_lt in Hcell. destruct Hts. lia.
  - intros (i & Hcell & Hin & Hcol). exists i, q. split; [done|].
    apply elem_of_emit_highlight. split; [|done].
    rewrite slot_color_lookup in Hcol; [by injection Hcol as -> |].
    apply slot_cell_lt in Hcell. destruct Hts. lia.
Qed.

Lemma elem_of_cells (positions : list (Z * Z * pystr)) q :
  q ∈ cells positions ↔ ∃ color, (q, color) ∈ positions.
Proof.
  unfold cells. rewrite list_elem_of_fmap. split.
  - intros ([q' color] & -> & H). by exists color.
  - intros (color & H). by exists (q, color).
Qed.

Lemma elem_of_highlight_cells time_str start_row start_col grid_width
    grid_height positions q :
  time_string time_str →
  get_highlight_positions time_str start_row start_col grid_width
    grid_height = Ok positions →
  q ∈ cells positions ↔
  glyph_cell time_str start_row start_col q ∧ in_grid grid_width grid_height q.
Proof.
  intros Hts Hpos.
  destruct (elem_of_highlight time_str start_row start_col grid_width
              grid_height Hts) as (positions' & Hpos' & Hiff).
  rewrite Hpos in Hpos'. injection Hpos' as <-.
  rewrite elem_of_cells. split.
  - intros (color & (i & Hcell & Hin & _)%Hiff). split; [by exists i | done].
  - intros [[i Hcell] Hin]. exists (slot_color i). apply Hiff.
    exists i. split; [done|]. split; [done|]. apply slot_color_lookup.
    apply slot_cell_lt in Hcell. destruct Hts. lia.
Qed.

Lemma elem_of_digit_set time_str start_row start_col grid_width grid_height q :
  q ∈ digit_set time_str start_row start_col grid_width grid_height ↔
  glyph_cell time_str start_row start_col q ∧ in_grid grid_width grid_height q.
Proof.
  unfold digit_set. rewrite elem_of_list_to_set, elem_of_slots. split.
  - intros (i & q' & Hcell & [-> Hin]%elem_of_emit_digit).
    split; [by exists i | done].
  - intros [[i Hcell] Hin]. exists i, q. split; [done|].
    by apply elem_of_emit_digit.
Qed.

(** The border list: the cells inside the grid that touch a lit pixel of a
    glyph, inside the grid or not, and are not themselves a lit pixel. *)
Lemma elem_of_border time_str start_row start_col grid_width grid_height :
  Forall supported time_str →
  ∃ border,
    get_border_positions time_str start_row start_col grid_width grid_height
      = Ok border ∧
    NoDup border ∧
    ∀ p, p ∈ border ↔
      in_grid grid_width grid_height p ∧
      ¬ glyph_cell time_str start_row start_col p ∧
      ∃ q, glyph_cell time_str start_row start_col q ∧ adjacent8 q p.
Proof.
  intros Hts. eexists. split; [by apply get_border_positions_slots|].
  split; [apply NoDup_elements|].
  intros p. rewrite elem_of_elements, elem_of_list_to_set, elem_of_slots.
  split.
  - intros (i & q & Hcell & (Hadj & Hin & Hd)%elem_of_emit_border).
    rewrite elem_of_digit_set in Hd.
    split; [done|]. split; [tauto|]. exists q. split; [by exists i|done].
  - intros (Hin & Hnot & q & [i Hcell] & Hadj). exists i, q. split; [done|].
    apply elem_of_emit_border. split; [done|]. split; [done|].
    rewrite elem_of_digit_set. tauto.
Qed.

(** Both passes return for a time string. *)
Lemma compositor_returns time_str start_row start_col
    grid_width grid_height :
  time_string time_str →
  ∃ positions border,
    get_highlight_positions time_str start_row start_col grid_width
      grid_height = Ok positions ∧
    get_border_positions time_str start_row start_col grid_width
      grid_height = Ok border.
Proof.
  intros Hts.
  destruct (elem_of_highlight time_str start_row start_col grid_width
              grid_height Hts) as (positions & Hpos & _).
  destruct (elem_of_border time_str start_row start_col grid_width
              grid_height (proj1 Hts)) as (border & Hbd & _).
  by exists positions, border.
Qed.

(** ** The compositor's claims *)

(** Decides [time_string] on a literal. *)
Ltac time_string_literal :=
  split; [apply (bool_decide_unpack _); vm_compute; exact I | vm_compute; lia].

(** C3. For a time string of supported characters, any anchor and any grid
    size, both functions return (they raise nothing) and every position
    they return lies inside the grid. *)
Theorem compositor_positions_in_bounds time_str start_row start_col
    grid_width grid_height :
  time_string time_str →
  ∃ positions border,
    get_highlight_positions time_str start_row start_col grid_width
      grid_height = Ok positions ∧
    get_border_positions time_str start_row start_col grid_width
      grid_height = Ok border ∧
    (∀ row col color, (row, col, color) ∈ positions →
       0 ≤ row < grid_height ∧ 0 ≤ col < grid_width) ∧
    (∀ row col, (row, col) ∈ border →
       0 ≤ row < grid_height ∧ 0 ≤ col < grid_width).
Proof.
  intros Hts.
  destruct (elem_of_highlight time_str start_row start_col grid_width
              grid_height Hts) as (positions & Hpos & Hhl).
  destruct (elem_of_border time_str start_row start_col grid_width
              grid_height (proj1 Hts)) as (border & Hbd & _ & Hb).
  exists positions, border. split; [done|]. split; [done|]. split.
  - intros row col color (i & _ & Hin & _)%Hhl. exact Hin.
  - intros row col (Hin & _)%Hb. exact Hin.
Qed.

Lemma compositor_positions_in_bounds_witness :
  ∃ positions border,
    get_highlight_positions (py "12:30:45") (-3) 100 120 30 = Ok positions ∧
    get_border_positions (py "12:30:45") (-3) 100 120 30 = Ok border ∧
    (∀ row col color, (row, col, color) ∈ positions →
       0 ≤ row < 30 ∧ 0 ≤ col < 120) ∧
    (∀ row col, (row, col) ∈ border → 0 ≤ row < 30 ∧ 0 ≤ col < 120).
Proof.
  apply (compositor_positions_in_bounds (py "12:30:45") (-3) 100 120 30).
  time_string_literal.
Defined.

(** C4. For a time string of supported characters, any anchor and any grid
    size, no cell is both in the highlight list and in the border list. *)
Theorem highlight_border_disjoint time_str start_row start_col
    grid_width grid_height :
  time_string time_str →
  ∃ positions border,
    get_highlight_positions time_str start_row start_col grid_width
      grid_height = Ok positions ∧
    get_border_positions time_str start_row start_col grid_width
      grid_height = Ok border ∧
    ∀ row col color, (row, col, color) ∈ positions → (row, col) ∉ border.
Proof.
  intros Hts.
  destruct (elem_of_highlight time_str start_row start_col grid_width
              grid_height Hts) as (positions & Hpos & Hhl).
  destruct (elem_of_border time_str start_row start_col grid_width
              grid_height (proj1 Hts)) as (border & Hbd & _ & Hb).
  exists positions, border. split; [done|]. split; [done|].
  intros row col color (i & Hcell & _)%Hhl (_ & Hnot & _)%Hb.
  apply Hnot. by exists i.
Qed.

Lemma highlight_border_disjoint_witness :
  ∃ positions border,
    get_highlight_positions (py "12:30:45") 5 10 120 30 = Ok positions ∧
    get_border_positions (py "12:30:45") 5 10 120 30 = Ok border ∧
    ∀ row col color, (row, col, color) ∈ positions → (row, col) ∉ border.
Proof.
  apply (highlight_border_disjoint (py "12:30:45") 5 10 120 30).
  time_string_literal.
Defined.

(** C5. The highlighted cells are exactly these: for the character at
    index [i] of the time string, each lit pixel [(row_idx, col_idx)] of
    its 11 by 9 glyph, at the cell
    [(start_row + row_idx, start_col + 12 * i + col_idx)] when that cell
    is inside the grid, in the colour of slot [i]. So the glyph of slot
    [i] lies on the box of 11 rows and 9 columns whose top-left cell is
    [(start_row, start_col + 12 * i)]; 12 is the glyph's 9 columns and 3
    more. *)
Theorem glyph_placement time_str start_row start_col grid_width grid_height :
  time_string time_str →
  ∃ positions,
    get_highlight_positions time_str start_row start_col grid_width
      grid_height = Ok positions ∧
    ∀ row col color, (row, col, color) ∈ positions ↔
      ∃ (i : nat) c pattern row_idx col_idx,
        time_str !! i = Some c ∧
        ASCII_PATTERNS !! c = Some pattern ∧
        0 ≤ row_idx < 11 ∧ 0 ≤ col_idx < 9 ∧
        pixel pattern row_idx col_idx = Ok 1 ∧
        row = start_row + row_idx ∧
        col = start_col + 12 * Z.of_nat i + col_idx ∧
        (0 ≤ row < grid_height ∧ 0 ≤ col < grid_width) ∧
        colors !! i = Some color.
Proof.
  intros Hts.
  destruct (elem_of_highlight time_str start_row start_col grid_width
              grid_height Hts) as (positions & Hpos & Hhl).
  exists positions. split; [done|]. intros row col color. rewrite Hhl.
  split.
  - intros (i & (c & p & r & cc & Hi & Hp & Hr & Hc & Hv & [= -> ->])
              & Hin & Hcol).
    by exists i, c, p, r, cc.
  - intros (i & c & p & r & cc & Hi & Hp & Hr & Hc & Hv & -> & -> & Hin & Hcol).
    exists i. split; [|done]. by exists c, p, r, cc.
Qed.

Lemma glyph_placement_witness :
  ∃ positions,
    get_highlight_positions (py "12:30:45") 5 10 120 30 = Ok positions ∧
    ∀ row col color, (row, col, color) ∈ positions ↔
      ∃ (i : nat) c pattern row_idx col_idx,
        py "12:30:45" !! i = Some c ∧
        ASCII_PATTERNS !! c = Some pattern ∧
        0 ≤ row_idx < 11 ∧ 0 ≤ col_idx < 9 ∧
        pixel pattern row_idx col_idx = Ok 1 ∧
        row = 5 + row_idx ∧
        col = 10 + 12 * Z.of_nat i + col_idx ∧
        (0 ≤ row < 30 ∧ 0 ≤ col < 120) ∧
        colors !! i = Some color.
Proof.
  apply (glyph_placement (py "12:30:45") 5 10 120 30).
  time_string_literal.
Defined.

(** C2, as the code has it. The border list holds exactly the cells inside
    the grid that touch (by a side or a corner) a lit glyph pixel, whether
    that pixel is inside the grid or clipped, and that are not
    highlighted. When no lit pixel is clipped, that is the border of the
    highlight list. *)
Theorem border_of_glyph_cells time_str start_row start_col grid_width
    grid_height :
  time_string time_str →
  ∃ positions border,
    get_highlight_positions time_str start_row start_col grid_width
      grid_height = Ok positions ∧
    get_border_positions time_str start_row start_col grid_width
      grid_height = Ok border ∧
    (∀ p, p ∈ border ↔
       in_grid grid_width grid_height p ∧ (p ∉ cells positions) ∧
       ∃ q, glyph_cell time_str start_row start_col q ∧ adjacent8 q p) ∧
    ((∀ q, glyph_cell time_str start_row start_col q →
           in_grid grid_width grid_height q) →
     border_of_highlight positions border grid_width grid_height).
Proof.
  intros Hts.
  destruct (elem_of_highlight time_str start_row start_col grid_width
              grid_height Hts) as (positions & Hpos & _).
  destruct (elem_of_border time_str start_row start_col grid_width
              grid_height (proj1 Hts)) as (border & Hbd & _ & Hb).
  pose proof (λ q, elem_of_highlight_cells time_str start_row start_col
                     grid_width grid_height positions q Hts Hpos) as Hcells.
  exists positions, border. split; [done|]. split; [done|].
  assert (∀ p, p ∈ border ↔
       in_grid grid_width grid_height p ∧ (p ∉ cells positions) ∧
       ∃ q, glyph_cell time_str start_row start_col q ∧ adjacent8 q p)
    as Hborder.
  { intros p. rewrite Hb, Hcells. tauto. }
  split; [done|]. intros Hall p. rewrite Hborder. split.
  - intros (Hin & Hnot & q & Hq & Hadj). split; [done|]. split; [done|].
    exists q. split; [|done]. apply Hcells. auto.
  - intros (Hin & Hnot & q & Hq & Hadj). split; [done|]. split; [done|].
    exists q. split; [|done]. by apply Hcells.
Qed.

Lemma border_of_glyph_cells_witness :
  ∃ positions border,
    get_highlight_positions (py "12:30:45") (-3) 100 120 30 = Ok positions ∧
    get_border_positions (py "12:30:45") (-3) 100 120 30 = Ok border ∧
    (∀ p, p ∈ border ↔
       in_grid 120 30 p ∧ (p ∉ cells positions) ∧
       ∃ q, glyph_cell (py "12:30:45") (-3) 100 q ∧ adjacent8 q p) ∧
    ((∀ q, glyph_cell (py "12:30:45") (-3) 100 q → in_grid 120 30 q) →
     border_of_highlight positions border 120 30).
Proof.
  apply (border_of_glyph_cells (py "12:30:45") (-3) 100 120 30).
  time_string_literal.
Defined.

(** C2, as stated, fails. With the anchor 11 rows above the grid every
    glyph pixel is clipped and the highlight list is empty, yet the bottom
    row of each glyph still gives border cells on row 0: the border cell
    (0, 0) touches no highlighted cell. *)
Lemma border_cell_without_highlight :
  ∃ border,
    get_highlight_positions (py "00:00:00") (-11) 0 120 30 = Ok [] ∧
    get_border_positions (py "00:00:00") (-11) 0 120 30 = Ok border ∧
    (0, 0) ∈ border ∧
    ¬ border_of_highlight [] border 120 30.
Proof.
  eexists. split; [by vm_compute|]. split; [by vm_compute|].
  split.
  - apply (bool_decide_unpack _). by vm_compute.
  - intros Hb.
    assert ((0, 0) ∈ cells []) as Hin; [|by apply elem_of_nil in Hin].
    match type of Hb with
    | border_of_highlight _ ?b _ _ =>
        assert ((0, 0) ∈ b) as H by (apply (bool_decide_unpack _); by vm_compute)
    end.
    apply Hb in H as (_ & _ & q & Hq & _). by apply elem_of_nil in Hq.
Qed.

(** The scenario of the specification: "12:30:45" anchored at (5, 10). The
    digit of slot 0 spans rows 5 to 15 and columns 10 to 18; the colon of
    slot 2 lies within columns 34 to 42. *)
Lemma scenario_12_30_45 :
  (∀ q, slot_cell (py "12:30:45") 5 10 0 q →
        5 ≤ q.1 ≤ 15 ∧ 10 ≤ q.2 ≤ 18) ∧
  slot_cell (py "12:30:45") 5 10 0 (5, 13) ∧
  slot_cell (py "12:30:45") 5 10 0 (15, 10) ∧
  slot_cell (py "12:30:45") 5 10 0 (15, 18) ∧
  (∀ q, slot_cell (py "12:30:45") 5 10 2 q →
        5 ≤ q.1 ≤ 15 ∧ 34 ≤ q.2 ≤ 42).
Proof.
  assert (∀ i q, slot_cell (py "12:30:45") 5 10 i q →
            5 ≤ q.1 ≤ 15 ∧
            10 + 12 * Z.of_nat i ≤ q.2 ≤ 10 + 12 * Z.of_nat i + 8) as Hbox.
  { intros i q (c & p & r & cc & _ & _ & Hr & Hc & _ & ->). simpl. lia. }
  split; [intros q Hq%Hbox; simpl in Hq; lia|].
  split; [exists (ch "1"); eexists _, 0, 3; by vm_compute|].
  split; [exists (ch "1"); eexists _, 10, 0; by vm_compute|].
  split; [exists (ch "1"); eexists _, 10, 8; by vm_compute|].
  intros q Hq%Hbox. simpl in Hq. lia.
Qed.

(** ** Frame renderer *)

Lemma highlight_color_cons entry positions q :
  highlight_color (entry :: positions) q
  = match highlight_color positions q with
    | Some color => Some color
    | None => if decide (entry.1 = q) then Some entry.2 else None
    end.
Proof.
  unfold highlight_color. rewrite filter_cons.
  destruct (decide (entry.1 = q)) as [Heq|Hne].
  - simpl map. by rewrite last_cons.
  - by destruct (last _).
Qed.

(** The test of one highlight entry never raises: the first row is read
    only once the grid is known to have a row. *)
Lemma highlight_entry_inside (g : Grid) row col :
  (if (0 <=? row) && (row <? len g) then
     first_row ← index g 0;
     Ok ((0 <=? col) && (col <? len first_row))
   else Ok false)
  = Ok (inside_first_row g (row, col)).
Proof.
  unfold inside_first_row. simpl.
  destruct ((0 <=? row) && (row <? len g)) eqn:Hrow; [|done].
  destruct g as [|first_row g].
  - apply andb_true_iff in Hrow as [H1 H2].
    apply Z.leb_le in H1. apply Z.ltb_lt in H2. unfold len in H2. simpl in H2.
    lia.
  - change (index (first_row :: g) 0) with (index (first_row :: g) (Z.of_nat 0)).
    by rewrite (index_lookup (first_row :: g) 0 first_row eq_refl).
Qed.

Lemma highlight_dict_loop (g : Grid) (positions : list (Z * Z * pystr))
    (d0 : gmap (Z * Z) (list char)) :
  ∃ d,
    for_each positions
      (λ '(row, col, color) (highlight_dict : gmap (Z * Z) pystr),
        inside ←
          (if (0 <=? row) && (row <? len g) then
             first_row ← index g 0;
             Ok ((0 <=? col) && (col <? len first_row))
           else Ok false);
        if (inside : bool) then Ok (<[(row, col) := color]> highlight_dict)
        else Ok highlight_dict) d0 = Ok d ∧
    ∀ q, d !! q
         = match (if inside_first_row g q then highlight_color positions q
                  else None) with
           | Some color => Some color
           | None => d0 !! q
           end.
Proof.
  revert d0. induction positions as [|[[row col] color] positions IH];
    intros d0.
  - exists d0. split; [done|]. intros q. by destruct (inside_first_row g q).
  - rewrite for_each_cons. cbv beta iota.
    rewrite highlight_entry_inside, bind_Ok.
    set (d1 := if inside_first_row g (row, col)
               then <[(row, col) := color]> d0 else d0).
    destruct (IH d1) as (d & Hd & Hlookup). exists d. split.
    + rewrite <- Hd. unfold d1.
      by destruct (inside_first_row g (row, col)).
    + intros q. rewrite Hlookup, highlight_color_cons. simpl.
      destruct (inside_first_row g q) eqn:Hq.
      * destruct (highlight_color positions q); [done|].
        unfold d1. destruct (decide ((row, col) = q)) as [<-|Hne].
        -- by rewrite Hq, lookup_insert_eq.
        -- destruct (inside_first_row g (row, col)); [|done].
           by rewrite lookup_insert_ne.
      * unfold d1. destruct (inside_first_row g (row, col)) eqn:Hrc; [|done].
        rewrite lookup_insert_ne; [done|]. intros <-. congruence.
Qed.

Lemma elem_of_enumerate_from {A} (xs : list A) start i x :
  (i, x) ∈ enumerate_from start xs →
  start ≤ i < start + len xs ∧ xs !! Z.to_nat (i - start) = Some x.
Proof.
  revert start. induction xs as [|y xs IH]; intros start H.
  - by apply elem_of_nil in H.
  - simpl in H. apply elem_of_cons in H as [[= -> ->]|H].
    + unfold len. simpl. split; [lia|]. by rewrite Z.sub_diag.
    + apply IH in H as [Hi Hx]. unfold len in *. simpl length. split; [lia|].
      replace (Z.to_nat (i - start)) with (S (Z.to_nat (i - (start + 1))))
        by lia. done.
Qed.

Lemma flat_map_singleton {A B} (f : A → B) xs :
  flat_map (λ x, [f x]) xs = map f xs.
Proof. induction xs; simpl; congruence. Qed.

(** C8. For a grid whose rows all have the length of the first, the
    renderer prints one line per grid row, in order. The line of a row is
    the concatenation, cell by cell, of a colour, the grid's character and
    RESET; the colour is the one the highlight list gives the cell (the
    last one, should it give several), else GRAY when the cell is in the
    border list, else DARK_GRAY. *)
Theorem display_code_with_time_lines g positions border :
  rectangular g →
  display_code_with_time g positions border
  = Ok (map (λ '(row_idx, row),
               Print (rendered_line positions border row_idx row))
            (enumerate g)).
Proof.
  intros Hrect. unfold display_code_with_time.
  destruct (highlight_dict_loop g positions ∅) as (d & -> & Hd).
  rewrite bind_Ok.
  rewrite <- flat_map_singleton.
  erewrite (for_each_accumulate (B:=action) list_add list_add_nil list_add_app);
    [done|].
  intros [row_idx row] out Hrow.
  apply elem_of_enumerate_from in Hrow as [Hidx Hrow].
  erewrite (for_each_accumulate (B:=char) list_add list_add_nil list_add_app
              _ _ (λ '(col_idx, c),
                     rendered_cell positions border (row_idx, col_idx) c)).
  { by rewrite bind_Ok. }
  intros [col_idx c] line Hcol.
  apply elem_of_enumerate_from in Hcol as [Hcidx _].
  unfold rendered_cell, list_add. rewrite Hd, lookup_empty.
  assert (inside_first_row g (row_idx, col_idx) = true) as ->.
  { unfold inside_first_row. simpl.
    destruct g as [|first_row g']; [by rewrite lookup_nil in Hrow|].
    assert (length row = length first_row) as Hlen
      by (eapply Hrect; [by eapply list_elem_of_lookup_2 | done]).
    simpl. unfold len in *. rewrite <- Hlen. zbool. }
  destruct (highlight_color positions (row_idx, col_idx)); [done|].
  rewrite (bool_decide_ext _ ((row_idx, col_idx) ∈ border))
    by apply elem_of_list_to_set.
  by destruct (bool_decide _).
Qed.

Lemma display_code_with_time_lines_witness :
  display_code_with_time [py "ab"; py "cd"]
    [(0, 1, Colors.RED ++ Colors.BOLD)] [(0, 0); (1, 1)]
  = Ok [Print (Colors.GRAY ++ py "a" ++ Colors.RESET
               ++ (Colors.RED ++ Colors.BOLD) ++ py "b" ++ Colors.RESET);
        Print (Colors.DARK_GRAY ++ py "c" ++ Colors.RESET
               ++ Colors.GRAY ++ py "d" ++ Colors.RESET)].
Proof.
  rewrite (display_code_with_time_lines [py "ab"; py "cd"]
             [(0, 1, Colors.RED ++ Colors.BOLD)] [(0, 0); (1, 1)]).
  - reflexivity.
  - intros row first_row Hrow [= <-].
    repeat (apply elem_of_cons in Hrow as [->|Hrow]; [reflexivity|]).
    by apply elem_of_nil in Hrow.
Defined.

Lemma length_enumerate_from {A} (xs : list A) start :
  length (enumerate_from start xs) = length xs.
Proof. revert start. induction xs; intros; simpl; auto. Qed.

(** One line per row, and the renderer never raises, whatever the grid. *)
Lemma display_code_with_time_returns g positions border :
  ∃ lines, display_code_with_time g positions border = Ok (map Print lines) ∧
           length lines = length g.
Proof.
  unfold display_code_with_time.
  destruct (highlight_dict_loop g positions ∅) as (d & -> & _).
  rewrite bind_Ok.
  set (cell := λ (row_idx : Z) (x : Z * char),
         match d !! (row_idx, x.1) with
         | Some color => color ++ [x.2] ++ Colors.RESET
         | None =>
             if bool_decide ((row_idx, x.1) ∈ (list_to_set border : gset _))
             then Colors.GRAY ++ [x.2] ++ Colors.RESET
             else Colors.DARK_GRAY ++ [x.2] ++ Colors.RESET
         end).
  exists (map (λ x, flat_map (cell x.1) (enumerate x.2)) (enumerate g)).
  split; [|unfold enumerate; by rewrite length_map, length_enumerate_from].
  rewrite map_map, <- flat_map_singleton.
  erewrite (for_each_accumulate (B:=action) list_add list_add_nil list_add_app);
    [done|].
  intros [row_idx row] out _.
  erewrite (for_each_accumulate (B:=char) list_add list_add_nil list_add_app
              _ _ (cell row_idx)).
  - by rewrite bind_Ok.
  - intros [col_idx c] line _. unfold list_add, cell. simpl.
    destruct (d !! (row_idx, col_idx)); [done|].
    by destruct (bool_decide _).
Qed.

(** ** Terminal size *)


Lemma get_terminal_size_terminal_of self cols lines :
  get_terminal_size self (terminal_of cols lines) = (cols, lines).
Proof.
  unfold get_terminal_size, get_terminal_size_try. simpl.
  by destruct (is_windows (os_info self)).
Qed.

(** On Windows, when [os.get_terminal_size] raises and [mode con] is read
    instead, each of the two numbers is either parsed or left at its
    default, 80 and 24; a default left in place is below the minimum. *)
Lemma mode_con_defaults (lines : list ModeLine) cols rows cols' rows' :
  for_each lines (λ line '(cols, rows),
    if contains (py "Columns:") (text line) then
      cols ← int_field line; Ok (cols, rows)
    else if contains (py "Lines:") (text line) then
      rows ← int_field line; Ok (cols, rows)
    else Ok (cols, rows)) (cols, rows) = Ok (cols', rows') →
  (cols' = cols ∨ ∃ line, line ∈ lines ∧ int_field line = Ok cols') ∧
  (rows' = rows ∨ ∃ line, line ∈ lines ∧ int_field line = Ok rows').
Proof.
  revert cols rows. induction lines as [|line lines IH]; intros cols rows H.
  - injection H as -> ->. auto.
  - rewrite for_each_cons in H. cbv beta iota in H.
    assert (∀ v, (∃ l, l ∈ lines ∧ int_field l = Ok v) →
                 ∃ l, l ∈ line :: lines ∧ int_field l = Ok v) as Hweak.
    { intros v (l & Hl & Hv). exists l. split; [by right | done]. }
    destruct (contains (py "Columns:") (text line)).
    + destruct (int_field line) as [v|] eqn:Hv; [|done].
      simpl in H. apply IH in H as [Hc Hr]. split.
      * right. destruct Hc as [->|Hc]; [|by apply Hweak].
        exists line. split; [by left | done].
      * destruct Hr as [->|Hr]; [by left | right; by apply Hweak].
    + destruct (contains (py "Lines:") (text line)).
      * destruct (int_field line) as [v|] eqn:Hv; [|done].
        simpl in H. apply IH in H as [Hc Hr]. split.
        -- destruct Hc as [->|Hc]; [by left | right; by apply Hweak].
        -- right. destruct Hr as [->|Hr]; [|by apply Hweak].
           exists line. split; [by left | done].
      * simpl in H. apply IH in H as [Hc Hr]. split.
        -- destruct Hc as [->|Hc]; [by left | right; by apply Hweak].
        -- destruct Hr as [->|Hr]; [by left | right; by apply Hweak].
Qed.

(** ** One iteration of the loop *)

Lemma same_settings_refl clock : same_settings clock clock.
Proof. by repeat split. Qed.

Lemma same_settings_trans a b c :
  same_settings a b → same_settings b c → same_settings a c.
Proof.
  intros (? & ? & ? & ?) (? & ? & ? & ?). repeat split; congruence.
Qed.

Lemma get_terminal_size_settings a b t :
  same_settings a b → get_terminal_size a t = get_terminal_size b t.
Proof.
  intros (_ & _ & _ & Hos).
  unfold get_terminal_size, get_terminal_size_try. by rewrite Hos.
Qed.

Lemma is_terminal_size_adequate_settings a b t :
  same_settings a b →
  is_terminal_size_adequate a t = is_terminal_size_adequate b t.
Proof.
  intros Hs. unfold is_terminal_size_adequate.
  rewrite (get_terminal_size_settings a b t Hs).
  destruct Hs as (-> & -> & _). done.
Qed.

(** [update_display_parameters] returns for a non-empty text: the clock
    it leaves has the dimensions of the terminal less 2 and the grid built
    for them. *)
Lemma update_display_parameters_returns self t minified :
  minified ≠ [] →
  ∃ clock,
    update_display_parameters self t minified = Ok clock ∧
    source_code clock = minified ∧
    width clock = (get_terminal_size self t).1 - 2 ∧
    height clock = (get_terminal_size self t).2 - 2 ∧
    create_display_grid clock = Ok (grid clock) ∧
    terminal_resized clock = terminal_resized self ∧
    same_settings clock self.
Proof.
  intros Hne. unfold update_display_parameters.
  destruct (get_terminal_size self t) as [cols lines].
  match goal with
  | |- context [create_display_grid ?pre] =>
      destruct (create_display_grid_cells pre Hne) as (g & Hg & _);
      rewrite Hg
  end.
  eexists. split; [done|]. simpl.
  repeat split; done.
Qed.

Lemma display_size_warning_no_read clock t :
  ReadSource ∉ display_size_warning clock t.
Proof.
  unfold display_size_warning.
  destruct (get_terminal_size clock t) as [cols lines].
  intros [H|H]%elem_of_app.
  - by apply list_elem_of_singleton in H.
  - apply list_elem_of_In, in_flat_map in H as ([i line] & _ & H).
    destruct (_ <? _); [|done]. simpl in H.
    destruct H as [H|[H|[]]]; discriminate.
Qed.

Lemma prints_no_read (lines : list (list char)) :
  ReadSource ∉ map Print lines.
Proof. intros (? & ? & _)%list_elem_of_fmap. discriminate. Qed.

Lemma iteration_shows_no_read host clock out :
  iteration_shows host clock out → ReadSource ∉ out.
Proof.
  unfold iteration_shows.
  destruct (is_terminal_size_adequate clock (size_at_check host)).
  - intros (positions & border & lines & _ & _ & _ & _ & ->).
    intros [H|[H|H]%elem_of_app]%elem_of_app.
    + by apply list_elem_of_singleton in H.
    + by apply prints_no_read in H.
    + by apply list_elem_of_singleton in H.
  - intros ->. intros [H|H]%elem_of_app.
    + by apply display_size_warning_no_read in H.
    + by apply list_elem_of_singleton in H.
Qed.

(** After the optional rebuild, the iteration shows the warning or the
    frame and leaves the clock as it is. *)
Lemma main_iteration_show host clock :
  (is_terminal_size_adequate clock (size_at_check host) = true →
   time_string (current_time host)) →
  ∃ out,
    (if negb (is_terminal_size_adequate clock (size_at_check host)) then
       Ok (clock,
           display_size_warning clock (size_at_warning host) ++ [Sleep 1])
     else
       let time_width := 8 * 12 - 3 in
       let time_start_row := Z.max 1 (height clock / 2 - 5) in
       let time_start_col := Z.max 5 ((width clock - time_width) / 2) in
       let current_time := current_time host in
       highlight_positions ←
         get_highlight_positions current_time time_start_row time_start_col
           (width clock) (height clock);
       border_positions ←
         get_border_positions current_time time_start_row time_start_col
           (width clock) (height clock);
       frame ← display_code_with_time (grid clock) highlight_positions
                 border_positions;
       Ok (clock, Cursor.clear_screen ++ frame ++ [Sleep 1]))
    = Ok (clock, out) ∧
    iteration_shows host clock out.
Proof.
  intros Hts. unfold iteration_shows.
  destruct (is_terminal_size_adequate clock (size_at_check host)); simpl negb;
    cbv iota; [|eauto].
  cbv zeta.
  destruct (compositor_returns (current_time host)
              (Z.max 1 (height clock / 2 - 5))
              (Z.max 5 ((width clock - (8 * 12 - 3)) / 2))
              (width clock) (height clock) (Hts eq_refl))
    as (positions & border & Hpos & Hbd).
  destruct (display_code_with_time_returns (grid clock) positions border)
    as (lines & Hframe & Hlen).
  rewrite Hpos, bind_Ok, Hbd, bind_Ok, Hframe, bind_Ok.
  eexists. split; [done|]. by exists positions, border, lines.
Qed.

(** One iteration. *)
Lemma main_iteration_returns host clock :
  (is_terminal_size_adequate clock (size_at_check host) = true →
   time_string (current_time host)) →
  (rebuilds_first clock = true → minified_source host ≠ []) →
  ∃ clock' out,
    main_iteration host clock
    = Ok (clock', (if rebuilds_first clock then [ReadSource] else []) ++ out) ∧
    iteration_shows host clock' out ∧
    same_settings clock' clock ∧
    if rebuilds_first clock then
      terminal_resized clock' = false ∧
      source_code clock' = minified_source host ∧
      width clock' = (get_terminal_size clock (size_at_update host)).1 - 2 ∧
      height clock' = (get_terminal_size clock (size_at_update host)).2 - 2 ∧
      create_display_grid clock' = Ok (grid clock')
    else clock' = clock.
Proof.
  intros Hts Hsrc. unfold main_iteration. fold (rebuilds_first clock).
  destruct (rebuilds_first clock) eqn:Hre.
  - destruct (update_display_parameters_returns clock (size_at_update host)
                (minified_source host) (Hsrc eq_refl))
      as (clock1 & -> & Hs & Hw & Hh & Hg & _ & Hset).
    rewrite !bind_Ok. cbv beta iota.
    assert (same_settings (clear_resized clock1) clock) as Hset' by exact Hset.
    destruct (main_iteration_show host (clear_resized clock1))
      as (out & Heq & Hshow).
    { by rewrite (is_terminal_size_adequate_settings _ clock _ Hset'). }
    exists (clear_resized clock1), out.
    split; [|split; [done|split; [exact Hset|]]].
    + destruct (negb _); [by injection Heq as <-|].
      cbv zeta in *.
      destruct (get_highlight_positions _ _ _ _ _); [|done].
      rewrite bind_Ok in *.
      destruct (get_border_positions _ _ _ _ _); [|done].
      rewrite bind_Ok in *.
      destruct (display_code_with_time _ _ _); [|done].
      rewrite bind_Ok in *. by injection Heq as <-.
    + simpl. repeat split; done.
  - rewrite bind_Ok. cbv beta iota.
    destruct (main_iteration_show host clock Hts) as (out & Heq & Hshow).
    exists clock, out.
    split; [|split; [done|split; [apply same_settings_refl|done]]].
    destruct (negb _); [by injection Heq as <-|].
    cbv zeta in *.
    destruct (get_highlight_positions _ _ _ _ _); [|done].
    rewrite bind_Ok in *.
    destruct (get_border_positions _ _ _ _ _); [|done].
    rewrite bind_Ok in *.
    destruct (display_code_with_time _ _ _); [|done].
    rewrite bind_Ok in *. by injection Heq as <-.
Qed.

(** ** Size warning *)

Lemma mentions_refl (s : list char) : mentions s s.
Proof. exists [], []. by rewrite app_nil_r. Qed.

Lemma mentions_app_r (t u s : list char) : mentions t s → mentions (t ++ u) s.
Proof.
  intros (before & after & ->). exists before, (after ++ u).
  by rewrite <- !app_assoc.
Qed.

Lemma mentions_app_l (t u s : list char) : mentions t s → mentions (u ++ t) s.
Proof.
  intros (before & after & ->). exists (u ++ before), after.
  by rewrite <- !app_assoc.
Qed.

(** Centring only pads. *)
Lemma mentions_center (line : list char) width s :
  mentions line s → mentions (center line width) s.
Proof.
  intros H. unfold center. destruct (len line >=? width); [done|].
  by apply mentions_app_l, mentions_app_r.
Qed.

Lemma land_1 a : Z.land a 1 = a mod 2.
Proof. apply (Z.land_ones a 1). lia. Qed.

(** A centred line has the width asked for, and the two margins differ by
    at most one cell. *)
Lemma center_balanced (line : list char) width :
  len line < width →
  ∃ left right,
    center line width
    = replicate (Z.to_nat left) (ch " ") ++ line
        ++ replicate (Z.to_nat right) (ch " ") ∧
    0 ≤ left ∧ 0 ≤ right ∧ left + len line + right = width ∧
    Z.abs (left - right) ≤ 1.
Proof.
  intros Hlt. unfold center.
  destruct (Z.geb_spec (len line) width) as [Hge|_]; [lia|].
  set (marg := width - len line).
  eexists _, _. split; [done|].
  assert (0 ≤ Z.land (Z.land marg width) 1 ≤ marg mod 2) as Hbit.
  { rewrite land_1, <- !Z.bit0_mod, Z.land_spec.
    destruct (Z.testbit marg 0), (Z.testbit width 0); simpl; lia. }
  pose proof (Z.div_mod marg 2 ltac:(lia)) as Hdiv.
  pose proof (Z.mod_pos_bound marg 2 ltac:(lia)) as Hmod.
  unfold marg in *. lia.
Qed.

Lemma warning_lines_sizes self cols lines :
  (3, current_size_line cols lines) ∈ enumerate (warning_lines self cols lines) ∧
  (4, required_minimum_line self) ∈ enumerate (warning_lines self cols lines) ∧
  (len (warning_lines self cols lines) = 14 ∨
   len (warning_lines self cols lines) = 17).
Proof.
  unfold warning_lines, enumerate, current_size_line, required_minimum_line.
  cbn [take drop app enumerate_from].
  split; [do 3 right; left|]. split; [do 4 right; left|].
  unfold len. destruct (negb (supports_resize_signal self)); simpl; auto.
Qed.

Lemma display_size_warning_prints clock t cols lines i line :
  get_terminal_size clock t = (cols, lines) →
  (i, line) ∈ enumerate (warning_lines clock cols lines) →
  Z.max 1 (lines / 2 - len (warning_lines clock cols lines) / 2) + i < lines →
  warning_print line cols ∈ display_size_warning clock t.
Proof.
  intros Hsz Hline Hrow. unfold display_size_warning. rewrite Hsz.
  apply elem_of_app. right. apply list_elem_of_In, in_flat_map.
  exists (i, line). split; [by apply list_elem_of_In|].
  destruct (Z.ltb_spec (Z.max 1 (lines / 2
              - len (warning_lines clock cols lines) / 2) + i) lines); [|lia].
  apply in_or_app. right. by left.
Qed.

(** In a terminal of at least 6 lines the warning carries both sizes. *)
Lemma display_size_warning_sizes clock t cols lines :
  get_terminal_size clock t = (cols, lines) → 6 ≤ lines →
  warning_print (current_size_line cols lines) cols
    ∈ display_size_warning clock t ∧
  warning_print (required_minimum_line clock) cols
    ∈ display_size_warning clock t.
Proof.
  intros Hsz Hlines.
  destruct (warning_lines_sizes clock cols lines) as (H3 & H4 & Hlen).
  split; (eapply display_size_warning_prints; [done..|]);
    destruct Hlen as [-> | ->];
    [change (14 / 2) with 7 | change (17 / 2) with 8
    |change (14 / 2) with 7 | change (17 / 2) with 8];
    Z.div_mod_to_equations; lia.
Qed.

Lemma required_minimum_line_mentions clock :
  min_width clock = 100 → min_height clock = 25 →
  mentions (required_minimum_line clock) (py "100 x 25").
Proof.
  intros Hw Hh. unfold required_minimum_line. rewrite Hw, Hh.
  apply mentions_app_l. exists [], []. reflexivity.
Qed.

Lemma current_size_line_mentions cols lines :
  mentions (current_size_line cols lines) (str cols ++ py " x " ++ str lines).
Proof. unfold current_size_line. apply mentions_app_l, mentions_refl. Qed.

Lemma warning_print_mentions line cols s :
  mentions line s →
  ∃ printed, warning_print line cols = Print printed ∧ mentions printed s.
Proof.
  intros H. eexists. split; [done|].
  by apply mentions_app_l, mentions_app_r, mentions_center.
Qed.

(** ** The controller's claims *)

Lemma inadequate_size cols lines clock t :
  min_width clock = 100 → min_height clock = 25 →
  get_terminal_size clock t = (cols, lines) →
  cols < 100 ∨ lines < 25 →
  is_terminal_size_adequate clock t = false.
Proof.
  intros Hw Hh Hsz Hsmall. unfold is_terminal_size_adequate.
  rewrite Hsz, Hw, Hh. zbool.
Qed.

(** C6, as stated, fails. On the first iteration (the resize flag is set)
    in a terminal of 79 by 24 the clock reads the source and builds a grid
    of 22 rows before it shows the warning. *)
Lemma warning_iteration_builds_grid :
  ∃ clock' out,
    main_iteration (host_of 79 24 (py "AB") (py "12:30:45")) (init true linux)
    = Ok (clock', out) ∧
    is_terminal_size_adequate clock' (terminal_of 79 24) = false ∧
    ReadSource ∈ out ∧
    length (grid clock') = 22%nat ∧
    grid clock' ≠ grid (init true linux).
Proof.
  eexists _, _. split; [by vm_compute|].
  split; [by vm_compute|]. split; [by left|]. split; [by vm_compute|].
  vm_compute. discriminate.
Qed.

(** In a terminal of fewer than 6 lines the warning is cut before the
    lines with the sizes: here, 79 by 4, the line of the current size is
    not printed. *)
Lemma warning_cut_in_short_terminal :
  warning_print (current_size_line 79 4) 79
    ∉ display_size_warning (init true linux) (terminal_of 79 4).
Proof. apply (bool_decide_unpack _). by vm_compute. Qed.



Lemma rebuilds_app out out' : rebuilds (out ++ out') = (rebuilds out + rebuilds out')%nat.
Proof. unfold rebuilds. by rewrite filter_app, length_app. Qed.

Lemma rebuilds_none out : ReadSource ∉ out → rebuilds out = 0%nat.
Proof.
  unfold rebuilds. induction out as [|a out IH]; intros Hnot; [done|].
  rewrite filter_cons. destruct (decide (a = ReadSource)) as [->|_].
  - destruct Hnot. by left.
  - apply IH. intros H. apply Hnot. by right.
Qed.

(** With the flag clear and resize signals supported an iteration leaves
    the clock, grid included, as it is and reads no source. *)
Lemma main_iteration_reuses_grid host clock :
  rebuilds_first clock = false →
  time_string (current_time host) →
  ∃ out, main_iteration host clock = Ok (clock, out) ∧
         iteration_shows host clock out ∧
         rebuilds out = 0%nat.
Proof.
  intros Hre Hts.
  destruct (main_iteration_returns host clock) as
    (clock' & out & Hrun & Hshow & _ & Hclock); [done | congruence |].
  rewrite Hre in Hrun, Hclock. subst clock'. exists out.
  split; [done|]. split; [done|].
  by apply rebuilds_none, (iteration_shows_no_read host clock).
Qed.

Lemma main_loop_reuses_grid hosts clock :
  rebuilds_first clock = false →
  Forall (λ later, later.1 = false ∧ time_string (current_time later.2))
    hosts →
  ∃ out, main_loop hosts clock = Ok (clock, out) ∧ rebuilds out = 0%nat.
Proof.
  intros Hre Hhosts.
  induction Hhosts as [|[sigwinch host] hosts [Hsig Hts] _ IH].
  - by exists [].
  - simpl in Hsig, Hts. subst sigwinch. simpl main_loop.
    destruct (main_iteration_reuses_grid host clock Hre Hts)
      as (out & -> & _ & Hout).
    rewrite bind_Ok. cbv beta iota.
    destruct IH as (out' & -> & Hout'). rewrite bind_Ok. cbv beta iota.
    exists (out ++ out'). split; [done|].
    by rewrite rebuilds_app, Hout, Hout'.
Qed.

(** The scenario of the specification, computed: after a resize to 150 by
    40 the grid has 38 rows of 148 cells. *)
Lemma resize_to_150_40 :
  ∃ clock' out,
    main_iteration (host_of 150 40 (py "AB") (py "12:30:45"))
      (_handle_resize (clear_resized (init true linux))) = Ok (clock', out) ∧
    width clock' = 148 ∧ height clock' = 38 ∧
    length (grid clock') = 38%nat ∧
    Forall (λ row, length row = 148%nat) (grid clock').
Proof.
  eexists _, _. split; [by vm_compute|].
  split; [done|]. split; [done|]. split; [by vm_compute|].
  apply (bool_decide_unpack _). by vm_compute.
Qed.


(** * Further properties of the code *)

(** ** Background grid builder: shape, errors, contents *)

Lemma fill_no_columns self (ys : list Z) g k :
  width self ≤ 0 →
  for_each ys (λ _ '(grid, char_index),
     '(grid_row, char_index) ←
        for_each (range (width self)) (λ _ st, fill_cell self st)
                 ([], char_index);
     Ok (grid ++ [grid_row], char_index)) (g, k)
  = Ok (g ++ replicate (length ys) [], k).
Proof.
  intros Hw. unfold range. replace (Z.to_nat (width self)) with 0%nat by lia.
  simpl map. revert g.
  induction ys as [|y ys IH]; intros g.
  - simpl. by rewrite app_nil_r.
  - rewrite for_each_cons. cbv beta iota. rewrite for_each_nil, !bind_Ok.
    cbv beta iota. rewrite IH, <- app_assoc. done.
Qed.

Lemma create_display_grid_no_columns self :
  width self ≤ 0 →
  create_display_grid self = Ok (replicate (Z.to_nat (height self)) []).
Proof.
  intros Hw. unfold create_display_grid.
  rewrite (fill_no_columns self (range (height self)) [] 0 Hw), bind_Ok.
  by rewrite length_range.
Qed.

Lemma create_display_grid_empty_raises self :
  source_code self = [] → 0 < width self → 0 < height self →
  create_display_grid self = Raise IndexError.
Proof.
  intros Hsrc Hw Hh. unfold create_display_grid.
  destruct (range_pos _ Hh) as [ys ->]. destruct (range_pos _ Hw) as [xs ->].
  rewrite for_each_cons. cbv beta iota. rewrite for_each_cons.
  assert (fill_cell self ([], 0) = Raise IndexError) as ->; [|done].
  unfold fill_cell. rewrite Hsrc. reflexivity.
Qed.

(** X1. The builder raises exactly when it has a cell to fill and no text
    to fill it from: an empty source with a positive width and a positive
    height. The exception is then [IndexError]; in every other case a grid
    is returned. *)
Theorem create_display_grid_raises_iff self :
  (create_display_grid self = Raise IndexError ↔
   source_code self = [] ∧ 0 < width self ∧ 0 < height self) ∧
  (∀ e, create_display_grid self = Raise e → e = IndexError).
Proof.
  assert (∀ e, create_display_grid self = Raise e →
               source_code self = [] ∧ 0 < width self ∧ 0 < height self)
    as Hraise.
  { intros e He.
    destruct (decide (source_code self = [])) as [Hsrc|Hsrc].
    - split; [done|].
      destruct (Z.le_gt_cases (width self) 0) as [Hw|Hw].
      { by rewrite create_display_grid_no_columns in He. }
      destruct (Z.le_gt_cases (height self) 0) as [Hh|Hh]; [|lia].
      by rewrite create_display_grid_no_rows in He.
    - destruct (create_display_grid_cells self Hsrc) as (g & Hg & _).
      congruence. }
  assert (source_code self = [] ∧ 0 < width self ∧ 0 < height self →
          create_display_grid self = Raise IndexError) as Hempty.
  { intros (Hsrc & Hw & Hh). by apply create_display_grid_empty_raises. }
  split; [split; [apply Hraise | apply Hempty]|].
  intros e He. pose proof (Hempty (Hraise e He)). congruence.
Qed.

Lemma grid_shape self g :
  create_display_grid self = Ok g →
  length g = Z.to_nat (height self) ∧
  Forall (λ row, length row = Z.to_nat (width self)) g ∧
  rectangular g.
Proof.
  intros Hg.
  assert (length g = Z.to_nat (height self) ∧
          Forall (λ row, length row = Z.to_nat (width self)) g) as [Hlen Hrows].
  { destruct (decide (source_code self = [])) as [Hsrc|Hsrc].
    - destruct (Z.le_gt_cases (width self) 0) as [Hw|Hw].
      + rewrite create_display_grid_no_columns in Hg by done.
        injection Hg as <-. rewrite length_replicate. split; [done|].
        apply Forall_forall. intros row [-> _]%elem_of_replicate. simpl. lia.
      + destruct (Z.le_gt_cases (height self) 0) as [Hh|Hh].
        * rewrite create_display_grid_no_rows in Hg by done.
          injection Hg as <-. simpl. split; [lia | constructor].
        * by rewrite create_display_grid_empty_raises in Hg.
    - destruct (create_display_grid_cells self Hsrc)
        as (g' & Hg' & Hl & Hrow & _).
      rewrite Hg in Hg'. injection Hg' as <-. split; [done|].
      by apply Forall_forall. }
  split; [done|]. split; [done|].
  intros row first_row Hrow Hfirst. rewrite Forall_forall in Hrows.
  rewrite (Hrows row Hrow). symmetry. apply Hrows.
  destruct g; [done|]. injection Hfirst as ->. by left.
Qed.

(** X2. Whatever grid the builder returns has [height] rows (none when
    [height] is negative) of [width] cells each (none when [width] is
    negative): it is rectangular. *)
Theorem create_display_grid_shape self g :
  create_display_grid self = Ok g →
  length g = Z.to_nat (height self) ∧
  Forall (λ row, length row = Z.to_nat (width self)) g ∧
  rectangular g.
Proof. apply grid_shape. Qed.

Lemma create_display_grid_shape_witness :
  length [py "ABAA"] = Z.to_nat (height (clock_of (py "AB") 4 1)) ∧
  Forall (λ row, length row = Z.to_nat (width (clock_of (py "AB") 4 1)))
    [py "ABAA"] ∧
  rectangular [py "ABAA"].
Proof.
  apply (create_display_grid_shape (clock_of (py "AB") 4 1) [py "ABAA"]).
  reflexivity.
Defined.

(** X3. What the builder writes. For a non-empty source of [n]
    characters, the cell of row [r] and column [c] holds the character at
    index [cursor_at n (r * width + c)] of the source: the characters
    0 .. n-1 in order, then character 0 once more, and so on with period
    [n + 1]. *)
Theorem create_display_grid_contents self :
  source_code self ≠ [] →
  ∃ g, create_display_grid self = Ok g ∧
       ∀ r c, 0 ≤ r < height self → 0 ≤ c < width self →
         (row ← index g r; index row c)
         = index (source_code self)
             (cursor_at (len (source_code self)) (r * width self + c)).
Proof.
  intros Hne.
  destruct (create_display_grid_cells self Hne) as (g & Hg & _ & _ & Hcell).
  by exists g.
Qed.

Lemma create_display_grid_contents_witness :
  ∃ g, create_display_grid (clock_of (py "AB") 4 1) = Ok g ∧
       ∀ r c, 0 ≤ r < height (clock_of (py "AB") 4 1) →
              0 ≤ c < width (clock_of (py "AB") 4 1) →
         (row ← index g r; index row c)
         = index (source_code (clock_of (py "AB") 4 1))
             (cursor_at (len (source_code (clock_of (py "AB") 4 1)))
                (r * width (clock_of (py "AB") 4 1) + c)).
Proof.
  apply (create_display_grid_contents (clock_of (py "AB") 4 1)).
  vm_compute. discriminate.
Defined.

(** X4. While the grid has at most one cell more than the source has
    characters, the builder's grid is the plain tiling: the cell of
    row-major index [k] holds character [k mod n] of the source. *)
Theorem create_display_grid_tiles_one_pass self :
  source_code self ≠ [] →
  width self * height self ≤ len (source_code self) + 1 →
  ∃ g, create_display_grid self = Ok g ∧ tiles self g.
Proof. apply create_display_grid_tiles_short. Qed.

Lemma create_display_grid_tiles_one_pass_witness :
  ∃ g, create_display_grid (clock_of (py "AB") 3 1) = Ok g ∧
       tiles (clock_of (py "AB") 3 1) g.
Proof.
  apply (create_display_grid_tiles_one_pass (clock_of (py "AB") 3 1)).
  - vm_compute. discriminate.
  - vm_compute. discriminate.
Defined.

(** ** The text of the background *)

Lemma elem_of_lstrip (s : list char) x : x ∈ lstrip s → x ∈ s.
Proof.
  induction s as [|c s IH]; simpl; [done|].
  destruct (isspace c); [|done]. intros H. right. by apply IH.
Qed.

Lemma elem_of_strip (s : list char) x : x ∈ strip s → x ∈ s.
Proof.
  unfold strip. rewrite elem_of_reverse. intros H%elem_of_lstrip.
  rewrite elem_of_reverse in H. by apply elem_of_lstrip.
Qed.

Lemma split_no_sep sep (s part : list char) :
  part ∈ split sep s → sep ∉ part.
Proof.
  revert part. induction s as [|c s IH]; intros part; simpl.
  - intros ->%list_elem_of_singleton. apply not_elem_of_nil.
  - destruct (N.eqb_spec c sep) as [->|Hne].
    + intros [->|H]%elem_of_cons; [apply not_elem_of_nil | by apply IH].
    + destruct (split sep s) as [|p ps].
      * intros ->%list_elem_of_singleton.
        intros [->|H]%elem_of_cons; [done | by apply elem_of_nil in H].
      * intros [->|H]%elem_of_cons.
        -- intros [->|H]%elem_of_cons; [done|].
           apply (IH p); [by left | done].
        -- apply IH. by right.
Qed.

Lemma minified_lines_filter (lines acc : list (list char)) :
  foldl (λ minified_lines line,
           let line := strip line in
           if bool_decide (line ≠ []) then minified_lines ++ [line]
           else minified_lines) acc lines
  = acc ++ filter (λ line, line ≠ []) (map strip lines).
Proof.
  revert acc. induction lines as [|line lines IH]; intros acc; simpl.
  - by rewrite app_nil_r.
  - rewrite IH, filter_cons. destruct (decide (strip line ≠ [])) as [H|H].
    + rewrite bool_decide_eq_true_2 by done. by rewrite <- app_assoc.
    + by rewrite bool_decide_eq_false_2 by done.
Qed.

Lemma join_cons sep (part : list char) parts :
  parts ≠ [] → join sep (part :: parts) = part ++ sep ++ join sep parts.
Proof. by destruct parts. Qed.

Lemma elem_of_join sep (parts : list (list char)) x :
  x ∈ join sep parts → x ∈ sep ∨ ∃ part, part ∈ parts ∧ x ∈ part.
Proof.
  induction parts as [|part parts IH]; [by intros ?%elem_of_nil|].
  destruct parts as [|part' parts].
  - simpl. intros H. right. exists part. split; [by left | done].
  - rewrite join_cons by done.
    intros [H|[H|H]%elem_of_app]%elem_of_app.
    + right. exists part. split; [by left | done].
    + by left.
    + destruct (IH H) as [?|(p & Hp & Hx)]; [by left|].
      right. exists p. split; [by right | done].
Qed.

Lemma minify_no_newline source : NEWLINE ∉ minify source.
Proof.
  unfold minify. rewrite minified_lines_filter. simpl app.
  intros [H|(part & Hpart & Hx)]%elem_of_join.
  - vm_compute in H. apply list_elem_of_singleton in H. discriminate.
  - apply list_elem_of_filter in Hpart as [_ Hpart].
    apply list_elem_of_fmap in Hpart as (line & -> & Hline).
    apply elem_of_strip in Hx. by apply split_no_sep in Hline.
Qed.

Lemma join_replicate_double sep (m : list char) (n : nat) :
  (1 ≤ n)%nat →
  join sep (replicate n (m ++ sep ++ m)) = join sep (replicate (2 * n) m).
Proof.
  induction n as [|n IH]; [lia|]. intros _.
  destruct n as [|n]; [done|].
  change (replicate (S (S n)) ?x) with (x :: replicate (S n) x).
  replace (2 * S (S n))%nat with (S (S (2 * S n))) by lia.
  change (replicate (S (S ?k)) ?x) with (x :: x :: replicate k x).
  rewrite join_cons by done. rewrite IH by lia.
  replace (2 * S n)%nat with (S (S (2 * n))) by lia.
  rewrite !join_cons by done. by rewrite <- !app_assoc.
Qed.

Lemma ensure_length_more fuel fuel' (m text : list char) :
  ensure_length fuel m = Some text → (fuel ≤ fuel')%nat →
  ensure_length fuel' m = Some text.
Proof.
  revert fuel' m. induction fuel as [|fuel IH]; intros fuel' m H Hle.
  - simpl in H. destruct (len m <? 20000) eqn:Hlen; [done|].
    destruct fuel'; simpl; by rewrite Hlen.
  - simpl in H. destruct (len m <? 20000) eqn:Hlen.
    + destruct fuel' as [|fuel']; [lia|]. simpl. rewrite Hlen.
      apply IH; [done | lia].
    + destruct fuel'; simpl; by rewrite Hlen.
Qed.

Lemma ensure_length_returns fuel (m : list char) :
  20000 ≤ (len m + 1) * 2 ^ Z.of_nat fuel - 1 →
  ∃ (n : nat) text,
    ensure_length fuel m = Some text ∧ 20000 ≤ len text ∧ (1 ≤ n)%nat ∧
    text = join (py " ") (replicate n m).
Proof.
  revert m. induction fuel as [|fuel IH]; intros m Hbig.
  - simpl in *. exists 1%nat, m.
    destruct (Z.ltb_spec (len m) 20000); [lia|]. repeat split; [lia..|done].
  - simpl ensure_length. destruct (Z.ltb_spec (len m) 20000) as [Hlt|Hge].
    + destruct (IH (m ++ (py " " ++ m))) as (n & text & Hrun & Hlen & Hn & ->).
      { unfold len in *. rewrite !length_app.
        replace (Z.of_nat (S fuel)) with (Z.of_nat fuel + 1) in Hbig by lia.
        rewrite Z.pow_add_r, Z.pow_1_r in Hbig by lia.
        change (length (py " ")) with 1%nat. nia. }
      exists (2 * n)%nat, (join (py " ") (replicate n (m ++ py " " ++ m))).
      split; [done|]. split; [done|]. split; [lia|].
      by apply join_replicate_double.
    + exists 1%nat, m. repeat split; [lia..|done].
Qed.

(** X5. For any text the comment remover leaves, [get_minified_source]
    returns after at most 15 rounds of its loop, and the text it returns
    has at least 20000 characters (so it is never empty), contains no
    newline, and is the minified text repeated a positive number of times
    with single spaces between. *)
Theorem get_minified_source_returns source :
  ∃ text (n : nat),
    (∀ fuel, (15 ≤ fuel)%nat → get_minified_source fuel source = Some text) ∧
    20000 ≤ len text ∧
    text ≠ [] ∧
    (NEWLINE ∉ text) ∧
    (1 ≤ n)%nat ∧
    text = join (py " ") (replicate n (minify source)).
Proof.
  destruct (ensure_length_returns 15 (minify source))
    as (n & text & Hrun & Hlen & Hn & Htext).
  { pose proof (len_nonneg (minify source)).
    change (2 ^ Z.of_nat 15) with 32768. lia. }
  exists text, n. split; [|split; [done|split; [|split; [|done]]]].
  - intros fuel Hfuel. by eapply ensure_length_more.
  - intros ->. unfold len in Hlen. simpl in Hlen. lia.
  - rewrite Htext. intros [H|(part & [-> _]%elem_of_replicate & Hx)]%elem_of_join.
    + vm_compute in H. apply list_elem_of_singleton in H. discriminate.
    + by apply minify_no_newline in Hx.
Qed.

(** ** The compositor: errors *)

Lemma enumerate_from_app {A} (xs ys : list A) start :
  enumerate_from start (xs ++ ys)
  = enumerate_from start xs ++ enumerate_from (start + len xs) ys.
Proof.
  revert start. induction xs as [|x xs IH]; intros start; simpl.
  - unfold len. simpl. by rewrite Z.add_0_r.
  - rewrite IH. do 3 f_equal. unfold len. simpl length. lia.
Qed.

Lemma dict_get_unsupported c :
  ¬ supported c → dict_get ASCII_PATTERNS c = Raise KeyError.
Proof.
  intros Hc. unfold dict_get.
  destruct (ASCII_PATTERNS !! c) as [pattern|] eqn:Hp; [|done].
  destruct Hc. by eapply lookup_supported.
Qed.

Lemma first_unsupported (time_str : list char) :
  ¬ Forall supported time_str →
  ∃ (i : nat) c, time_str !! i = Some c ∧ ¬ supported c ∧
                 Forall supported (take i time_str).
Proof.
  induction time_str as [|c time_str IH]; intros Hnot.
  - destruct Hnot. constructor.
  - destruct (decide (supported c)) as [Hc|Hc].
    + destruct IH as (i & c' & Hi & Hc' & Hpre).
      { intros H. apply Hnot. by constructor. }
      exists (S i), c'. split; [done|]. split; [done|]. simpl. by constructor.
    + exists 0%nat, c. split; [done|]. split; [done|]. simpl. constructor.
Qed.

(** The highlight pass stops at the first character that has no glyph or
    no colour. *)
Lemma get_highlight_positions_stops (before : list char) c after e
    start_row start_col grid_width grid_height :
  time_string before →
  (¬ supported c ∧ e = KeyError) ∨
  (supported c ∧ length before = 8%nat ∧ e = IndexError) →
  get_highlight_positions (before ++ c :: after) start_row start_col
    grid_width grid_height = Raise e.
Proof.
  intros Hts Hbad. unfold get_highlight_positions, enumerate.
  rewrite enumerate_from_app, for_each_app.
  change (enumerate_from 0 before) with (enumerate_from (Z.of_nat 0) before).
  erewrite (slots_accumulate (B:=Z * Z * pystr) list_add list_add_nil
              list_add_app (λ i c, supported c ∧ (i < 8)%nat) _
              (emit_highlight grid_width grid_height) start_row).
  - rewrite bind_Ok. simpl enumerate_from. rewrite for_each_cons.
    cbv beta iota.
    destruct Hbad as [[Hc ->]|(Hc & Hlen & ->)].
    + by rewrite dict_get_unsupported.
    + destruct (dict_get_supported c Hc) as (pattern & _ & ->).
      rewrite bind_Ok. unfold len. rewrite Hlen. reflexivity.
  - intros i c' positions cur [Hc Hi].
    destruct (dict_get_supported c' Hc) as (pattern & Hp & ->). simpl mbind.
    rewrite index_colors by done. simpl mbind.
    erewrite (for_each_lit_pixel_accumulate (B:=Z * Z * pystr) list_add
                list_add_nil list_add_app
                _ _ (λ row_idx col_idx,
                       emit_highlight grid_width grid_height i
                         (start_row + row_idx, cur + col_idx)));
      [| by eapply patterns_shape |].
    + simpl. unfold slot_emit. by rewrite Hp.
    + intros r cc acc. unfold emit_highlight, list_add. simpl.
      destruct (within _ _ _ _); [done | by rewrite app_nil_r].
  - intros i c' Hi. by eapply time_string_good.
Qed.

(** X6. [get_highlight_positions] returns exactly for the strings of
    supported characters with at most 8 of them. A ninth supported
    character raises [IndexError] (the colour table has 8 entries); an
    unsupported character among the first nine, all before it being
    supported, raises [KeyError]. *)
Theorem get_highlight_positions_returns_iff time_str start_row start_col
    grid_width grid_height :
  ((∃ positions,
      get_highlight_positions time_str start_row start_col grid_width
        grid_height = Ok positions) ↔ time_string time_str) ∧
  (Forall supported time_str → (8 < length time_str)%nat →
   get_highlight_positions time_str start_row start_col grid_width
     grid_height = Raise IndexError) ∧
  (∀ (i : nat) c,
     time_str !! i = Some c → ¬ supported c → (i ≤ 8)%nat →
     Forall supported (take i time_str) →
     get_highlight_positions time_str start_row start_col grid_width
       grid_height = Raise KeyError).
Proof.
  assert (Forall supported time_str → (8 < length time_str)%nat →
          get_highlight_positions time_str start_row start_col grid_width
            grid_height = Raise IndexError) as Hindex.
  { intros Hsup Hlen.
    destruct (lookup_lt_is_Some_2 time_str 8 Hlen) as [c Hc].
    rewrite <- (take_drop_middle time_str 8 c Hc).
    apply get_highlight_positions_stops.
    - split; [by apply Forall_take|]. rewrite length_take. lia.
    - right. split; [by eapply Forall_lookup_1|].
      split; [rewrite length_take; lia | done]. }
  assert (∀ (i : nat) c,
     time_str !! i = Some c → ¬ supported c → (i ≤ 8)%nat →
     Forall supported (take i time_str) →
     get_highlight_positions time_str start_row start_col grid_width
       grid_height = Raise KeyError) as Hkey.
  { intros i c Hi Hc Hle Hpre.
    rewrite <- (take_drop_middle time_str i c Hi).
    apply get_highlight_positions_stops.
    - split; [done|]. rewrite length_take. lia.
    - by left. }
  split; [|by split]. split.
  - intros [positions Hpos].
    destruct (decide (Forall supported time_str)) as [Hsup|Hsup].
    + split; [done|].
      destruct (Nat.le_gt_cases (length time_str) 8) as [|Hlen]; [done|].
      rewrite Hindex in Hpos by done. done.
    + destruct (first_unsupported time_str Hsup) as (i & c & Hi & Hc & Hpre).
      destruct (Nat.le_gt_cases i 8) as [Hle|Hgt].
      * rewrite (Hkey i c) in Hpos by done. done.
      * destruct (lookup_lt_is_Some_2 time_str 8) as [c8 Hc8].
        { apply lookup_lt_Some in Hi. lia. }
        rewrite <- (take_drop_middle time_str 8 c8 Hc8) in Hpos.
        rewrite (get_highlight_positions_stops _ _ _ IndexError) in Hpos;
          [done| |].
        -- split; [|rewrite length_take; lia].
           replace (take 8 time_str) with (take 8 (take i time_str))
             by (rewrite take_take; f_equal; lia).
           by apply Forall_take.
        -- right. split; [|split; [|done]].
           ++ eapply (Forall_lookup_1 _ _ 8 c8 Hpre).
              by rewrite lookup_take_lt by lia.
           ++ rewrite length_take. apply lookup_lt_Some in Hc8. lia.
  - intros Hts. eexists. by apply get_highlight_positions_slots.
Qed.

(** A highlight list was returned only for a time string. *)
Lemma get_highlight_positions_time_string time_str start_row start_col
    grid_width grid_height positions :
  get_highlight_positions time_str start_row start_col grid_width
    grid_height = Ok positions → time_string time_str.
Proof.
  intros Hpos.
  destruct (decide (Forall supported time_str)) as [Hsup|Hsup].
  - split; [done|].
    destruct (Nat.le_gt_cases (length time_str) 8) as [|Hlen]; [done|].
    destruct (lookup_lt_is_Some_2 time_str 8 Hlen) as [c Hc].
    rewrite <- (take_drop_middle time_str 8 c Hc) in Hpos.
    rewrite (get_highlight_positions_stops _ _ _ IndexError) in Hpos;
      [done| |].
    + split; [by apply Forall_take|]. rewrite length_take. lia.
    + right. split; [by eapply Forall_lookup_1|].
      split; [rewrite length_take; lia | done].
  - destruct (first_unsupported time_str Hsup) as (i & c & Hi & Hc & Hpre).
    destruct (Nat.le_gt_cases i 8) as [Hle|Hgt].
    + rewrite <- (take_drop_middle time_str i c Hi) in Hpos.
      rewrite (get_highlight_positions_stops _ _ _ KeyError) in Hpos;
        [done| |by left].
      split; [done|]. rewrite length_take. lia.
    + destruct (lookup_lt_is_Some_2 time_str 8) as [c8 Hc8].
      { apply lookup_lt_Some in Hi. lia. }
      rewrite <- (take_drop_middle time_str 8 c8 Hc8) in Hpos.
      rewrite (get_highlight_positions_stops _ _ _ IndexError) in Hpos;
        [done| |].
      * split; [|rewrite length_take; lia].
        replace (take 8 time_str) with (take 8 (take i time_str))
          by (rewrite take_take; f_equal; lia).
        by apply Forall_take.
      * right. split; [|split; [|done]].
        -- eapply (Forall_lookup_1 _ _ 8 c8 Hpre).
           by rewrite lookup_take_lt by lia.
        -- rewrite length_take. apply lookup_lt_Some in Hc8. lia.
Qed.

(** The border pass stops, in its first loop, at the first character that
    has no glyph. *)
Lemma get_border_positions_stops (before : list char) c after
    start_row start_col grid_width grid_height :
  Forall supported before → ¬ supported c →
  get_border_positions (before ++ c :: after) start_row start_col
    grid_width grid_height = Raise KeyError.
Proof.
  intros Hsup Hc. unfold get_border_positions, enumerate.
  rewrite enumerate_from_app, for_each_app.
  change (enumerate_from 0 before) with (enumerate_from (Z.of_nat 0) before).
  erewrite (slots_accumulate (B:=Z * Z) set_add set_add_nil set_add_app
              (λ i c, supported c) _ (emit_digit grid_width grid_height)
              start_row);
    [| |intros i c' Hi; by eapply Forall_lookup_1].
  - rewrite bind_Ok. simpl enumerate_from. rewrite for_each_cons.
    cbv beta iota. by rewrite dict_get_unsupported.
  - intros i c' acc cur Hc'.
    destruct (dict_get_supported c' Hc') as (pattern & Hp & ->). simpl mbind.
    erewrite (for_each_lit_pixel_accumulate (B:=Z * Z) set_add set_add_nil
                set_add_app
                _ _ (λ row_idx col_idx,
                       emit_digit grid_width grid_height i
                         (start_row + row_idx, cur + col_idx)));
      [| by eapply patterns_shape |].
    + simpl. unfold slot_emit. by rewrite Hp.
    + intros r cc acc'. unfold emit_digit, set_add. simpl.
      destruct (within _ _ _ _); f_equal; set_solver.
Qed.

(** X7. [get_border_positions] returns exactly for the strings of
    supported characters, of any length (it uses no colour, so a ninth
    character is no error here); any unsupported character raises
    [KeyError]. The list it returns has no duplicates. *)
Theorem get_border_positions_returns_iff time_str start_row start_col
    grid_width grid_height :
  ((∃ border,
      get_border_positions time_str start_row start_col grid_width
        grid_height = Ok border ∧ NoDup border)
   ↔ Forall supported time_str) ∧
  (¬ Forall supported time_str →
   get_border_positions time_str start_row start_col grid_width
     grid_height = Raise KeyError).
Proof.
  assert (¬ Forall supported time_str →
          get_border_positions time_str start_row start_col grid_width
            grid_height = Raise KeyError) as Hkey.
  { intros Hnot.
    destruct (first_unsupported time_str Hnot) as (i & c & Hi & Hc & Hpre).
    rewrite <- (take_drop_middle time_str i c Hi).
    by apply get_border_positions_stops. }
  split; [|done]. split.
  - intros (border & Hbd & _).
    destruct (decide (Forall supported time_str)) as [|Hnot]; [done|].
    rewrite Hkey in Hbd by done. done.
  - intros Hsup.
    destruct (elem_of_border time_str start_row start_col grid_width
                grid_height Hsup) as (border & Hbd & Hnodup & _).
    by exists border.
Qed.

(** ** The compositor: geometry *)

(** Where the cells of a slot lie. *)
Lemma slot_cell_box time_str start_row start_col i q :
  slot_cell time_str start_row start_col i q →
  start_row ≤ q.1 ≤ start_row + 10 ∧
  start_col + 12 * Z.of_nat i ≤ q.2 ≤ start_col + 12 * Z.of_nat i + 8.
Proof. intros (c & p & r & cc & _ & _ & Hr & Hc & _ & ->). simpl. lia. Qed.

Lemma band_of_slot (i : nat) x :
  12 * Z.of_nat i ≤ x ≤ 12 * Z.of_nat i + 8 →
  x / 12 = Z.of_nat i ∧ x mod 12 ≤ 8.
Proof. intros H. Z.div_mod_to_equations. lia. Qed.

(** X8. The glyphs stand apart in what [get_highlight_positions] returns.
    Counted from [start_col], the columns fall into bands of 12, one band
    per character: a highlighted cell lies in the first 9 columns of its
    band and has the colour the table gives the band, so the last 3
    columns of every band are never highlighted. Hence highlighted cells
    of different bands are at least 4 columns apart, and no cell touches
    (by a side or a corner) highlighted cells of two different bands: the
    halos of two glyphs do not meet. *)
Theorem glyph_slots_apart time_str start_row start_col grid_width
    grid_height :
  time_string time_str →
  ∃ positions,
    get_highlight_positions time_str start_row start_col grid_width
      grid_height = Ok positions ∧
    (∀ q color, (q, color) ∈ positions →
       (q.2 - start_col) mod 12 ≤ 8 ∧
       0 ≤ (q.2 - start_col) / 12 < Z.of_nat (length time_str) ∧
       colors !! Z.to_nat ((q.2 - start_col) / 12) = Some color) ∧
    (∀ q q' color color',
       (q, color) ∈ positions → (q', color') ∈ positions →
       (q.2 - start_col) / 12 ≠ (q'.2 - start_col) / 12 →
       4 ≤ Z.abs (q.2 - q'.2) ∧
       ∀ p, ¬ (adjacent8 q p ∧ adjacent8 q' p)).
Proof.
  intros Hts.
  destruct (elem_of_highlight time_str start_row start_col grid_width
              grid_height Hts) as (positions & Hpos & Hiff).
  exists positions. split; [done|].
  assert (∀ q color, (q, color) ∈ positions →
            ∃ i : nat, (i < length time_str)%nat ∧
                       colors !! i = Some color ∧
                       (q.2 - start_col) / 12 = Z.of_nat i ∧
                       (q.2 - start_col) mod 12 ≤ 8) as Hband.
  { intros q color (i & Hcell & _ & Hcol)%Hiff. exists i.
    split; [by eapply slot_cell_lt|]. split; [done|].
    apply slot_cell_box in Hcell as [_ Hq]. apply band_of_slot. lia. }
  split.
  - intros q color (i & Hi & Hcol & Hdiv & Hmod)%Hband.
    rewrite Hdiv, Nat2Z.id. split; [done|]. split; [lia | done].
  - intros q q' color color' (i & _ & _ & Hdiv & Hmod)%Hband
      (j & _ & _ & Hdiv' & Hmod')%Hband Hne.
    assert (4 ≤ Z.abs (q.2 - q'.2)) as Hfar.
    { replace (q.2 - q'.2) with ((q.2 - start_col) - (q'.2 - start_col))
        by lia.
      revert Hdiv Hmod Hdiv' Hmod' Hne.
      generalize (q.2 - start_col), (q'.2 - start_col). intros x y.
      intros. Z.div_mod_to_equations. lia. }
    split; [done|]. intros p [(_ & H1 & _) (_ & H2 & _)]. lia.
Qed.

Lemma glyph_slots_apart_witness :
  ∃ positions,
    get_highlight_positions (py "12:30:45") 5 10 120 30 = Ok positions ∧
    (∀ q color, (q, color) ∈ positions →
       (q.2 - 10) mod 12 ≤ 8 ∧
       0 ≤ (q.2 - 10) / 12 < Z.of_nat (length (py "12:30:45")) ∧
       colors !! Z.to_nat ((q.2 - 10) / 12) = Some color) ∧
    (∀ q q' color color',
       (q, color) ∈ positions → (q', color') ∈ positions →
       (q.2 - 10) / 12 ≠ (q'.2 - 10) / 12 →
       4 ≤ Z.abs (q.2 - q'.2) ∧
       ∀ p, ¬ (adjacent8 q p ∧ adjacent8 q' p)).
Proof.
  apply (glyph_slots_apart (py "12:30:45") 5 10 120 30).
  time_string_literal.
Defined.

(** X9. The highlight list gives a cell at most one colour, that of the
    one slot whose glyph has the cell. *)
Theorem highlight_color_unique time_str start_row start_col grid_width
    grid_height positions q color color' :
  get_highlight_positions time_str start_row start_col grid_width
    grid_height = Ok positions →
  (q, color) ∈ positions → (q, color') ∈ positions →
  color = color'.
Proof.
  intros Hpos Hin Hin'.
  assert (time_string time_str) as Hts.
  { by apply (get_highlight_positions_time_string time_str start_row
                start_col grid_width grid_height positions). }
  destruct (elem_of_highlight time_str start_row start_col grid_width
              grid_height Hts) as (positions' & Hpos' & Hiff).
  rewrite Hpos in Hpos'. injection Hpos' as <-.
  apply Hiff in Hin as (i & Hcell & _ & Hcol).
  apply Hiff in Hin' as (j & Hcell' & _ & Hcol').
  destruct (decide (i = j)) as [->|Hne]; [congruence|].
  apply slot_cell_box in Hcell as [_ Hq].
  apply slot_cell_box in Hcell' as [_ Hq']. lia.
Qed.

Lemma highlight_color_unique_witness :
  Colors.RED ++ Colors.BOLD = Colors.RED ++ Colors.BOLD.
Proof.
  apply (highlight_color_unique (py "1") 0 0 4 1
           [(0, 3, Colors.RED ++ Colors.BOLD)] (0, 3)).
  - reflexivity.
  - by left.
  - by left.
Defined.

(** X10. The glyph table has a glyph exactly for the digits and the colon,
    and every glyph is 11 rows of 9 pixels, each pixel 0 or 1. *)
Theorem ascii_patterns_table :
  (∀ c, is_Some (ASCII_PATTERNS !! c) ↔ supported c) ∧
  (∀ c pattern, ASCII_PATTERNS !! c = Some pattern →
     length pattern = 11%nat ∧
     Forall (λ row, length row = 9%nat ∧ Forall (λ v, v = 0 ∨ v = 1) row)
       pattern).
Proof.
  split.
  - intros c. split.
    + intros [pattern Hp]. by eapply lookup_supported.
    + apply supported_lookup.
  - intros c pattern H. unfold ASCII_PATTERNS in H.
    apply elem_of_list_to_map_2 in H.
    repeat (apply elem_of_cons in H as [[= _ ->]|H];
            [apply (bool_decide_unpack _); by vm_compute|]).
    by apply elem_of_nil in H.
Qed.

(** The anchor of [main] leaves the whole block of glyphs inside a grid of
    at least 98 by 23 cells. *)
Lemma main_anchor_inside time_str w h q :
  (length time_str ≤ 8)%nat → 98 ≤ w → 23 ≤ h →
  glyph_cell time_str (time_start_row h) (time_start_col w) q →
  in_grid w h q.
Proof.
  intros Hlen Hw Hh [i Hcell].
  pose proof (slot_cell_lt _ _ _ _ _ Hcell) as Hi.
  apply slot_cell_box in Hcell as [Hr Hc].
  unfold in_grid, time_start_row, time_start_col in *.
  change (8 * 12 - 3) with 93 in *.
  split; Z.div_mod_to_equations; lia.
Qed.

(** X11. With the anchor [main] computes, in a grid of at least 98 by 23
    cells (the least adequate terminal, 100 by 25, less 2), nothing of
    the clock is clipped: the highlighted cells are all the lit pixels of
    the glyphs, and the border is exactly the cells inside the grid that
    touch a highlighted cell and are not highlighted. *)
Theorem main_anchor_shows_whole_clock time_str w h :
  time_string time_str → 98 ≤ w → 23 ≤ h →
  ∃ positions border,
    get_highlight_positions time_str (time_start_row h) (time_start_col w)
      w h = Ok positions ∧
    get_border_positions time_str (time_start_row h) (time_start_col w)
      w h = Ok border ∧
    (∀ q, q ∈ cells positions ↔
          glyph_cell time_str (time_start_row h) (time_start_col w) q) ∧
    border_of_highlight positions border w h.
Proof.
  intros Hts Hw Hh.
  destruct (elem_of_highlight time_str (time_start_row h) (time_start_col w)
              w h Hts) as (positions & Hpos & _).
  destruct (elem_of_border time_str (time_start_row h) (time_start_col w)
              w h (proj1 Hts)) as (border & Hbd & _ & Hb).
  pose proof (λ q, elem_of_highlight_cells time_str (time_start_row h)
                     (time_start_col w) w h positions q Hts Hpos) as Hcells.
  pose proof (λ q, main_anchor_inside time_str w h q (proj2 Hts) Hw Hh)
    as Hinside.
  exists positions, border. split; [done|]. split; [done|].
  assert (∀ q, q ∈ cells positions ↔
            glyph_cell time_str (time_start_row h) (time_start_col w) q)
    as Hall.
  { intros q. rewrite Hcells. split; [tauto|]. intros Hq. split; auto. }
  split; [done|]. intros p. rewrite Hb. setoid_rewrite Hall. tauto.
Qed.

Lemma main_anchor_shows_whole_clock_witness :
  ∃ positions border,
    get_highlight_positions (py "12:30:45") (time_start_row 23)
      (time_start_col 98) 98 23 = Ok positions ∧
    get_border_positions (py "12:30:45") (time_start_row 23)
      (time_start_col 98) 98 23 = Ok border ∧
    (∀ q, q ∈ cells positions ↔
          glyph_cell (py "12:30:45") (time_start_row 23) (time_start_col 98)
            q) ∧
    border_of_highlight positions border 98 23.
Proof.
  apply (main_anchor_shows_whole_clock (py "12:30:45") 98 23).
  - time_string_literal.
  - lia.
  - lia.
Defined.

(** ** The renderer on any grid *)

(** X12. For every grid (empty or ragged ones included) and any highlight
    and border lists, the renderer raises nothing and prints exactly one
    line per row. A highlight entry colours its cell only if its column is
    a column of the first row (the test is made against [grid[0]]); every
    other cell is GRAY if in the border list and DARK_GRAY if not. *)
Theorem display_code_with_time_any_grid g positions border :
  display_code_with_time g positions border
  = Ok (map (λ '(row_idx, row),
               Print
                 (flat_map (λ '(col_idx, c),
                    if inside_first_row g (row_idx, col_idx)
                    then rendered_cell positions border (row_idx, col_idx) c
                    else rendered_cell [] border (row_idx, col_idx) c)
                  (enumerate row)))
            (enumerate g)).
Proof.
  unfold display_code_with_time.
  destruct (highlight_dict_loop g positions ∅) as (d & -> & Hd).
  rewrite bind_Ok.
  rewrite <- flat_map_singleton.
  erewrite (for_each_accumulate (B:=action) list_add list_add_nil list_add_app);
    [done|].
  intros [row_idx row] out _.
  erewrite (for_each_accumulate (B:=char) list_add list_add_nil list_add_app
              _ _ (λ '(col_idx, c),
                     if inside_first_row g (row_idx, col_idx)
                     then rendered_cell positions border (row_idx, col_idx) c
                     else rendered_cell [] border (row_idx, col_idx) c)).
  { by rewrite bind_Ok. }
  intros [col_idx c] line _.
  unfold rendered_cell, list_add. rewrite Hd, lookup_empty.
  rewrite (bool_decide_ext _ ((row_idx, col_idx) ∈ border))
    by apply elem_of_list_to_set.
  destruct (inside_first_row g (row_idx, col_idx)).
  - destruct (highlight_color positions (row_idx, col_idx)); [done|].
    by destruct (bool_decide _).
  - change (highlight_color [] (row_idx, col_idx)) with (@None (list char)).
    by destruct (bool_decide _).
Qed.

(** ** The size warning: where and how much it prints *)

Lemma elem_of_enumerate_lookup {A} (xs : list A) start i x :
  (i, x) ∈ enumerate_from start xs → x ∈ xs.
Proof.
  intros [_ H]%elem_of_enumerate_from. by eapply list_elem_of_lookup_2.
Qed.

Lemma display_size_warning_action clock t cols lines a :
  get_terminal_size clock t = (cols, lines) →
  a ∈ display_size_warning clock t →
  a = ClearScreen ∨
  (∃ r, [a] = Cursor.move_to r 1 ∧ 1 ≤ r < lines) ∨
  (∃ line, line ∈ warning_lines clock cols lines ∧
           a = Print (warning_color line ++ center line cols
                      ++ Colors.RESET)).
Proof.
  intros Hsz. unfold display_size_warning. rewrite Hsz.
  intros [H|H]%elem_of_app.
  - left. by apply list_elem_of_singleton in H.
  - right. apply list_elem_of_In, in_flat_map in H as ([i line] & Hline & H).
    apply list_elem_of_In in Hline.
    pose proof (elem_of_enumerate_from _ _ _ _ Hline) as [Hi _].
    destruct (Z.ltb_spec
                (Z.max 1 (lines / 2
                   - len (warning_lines clock cols lines) / 2) + i) lines)
      as [Hrow|]; [|done].
    apply in_app_or in H as [H|H].
    + left. destruct H as [<-|[]]. eexists. split; [done|]. lia.
    + right. destruct H as [<-|[]]. exists line.
      split; [by eapply elem_of_enumerate_lookup | done].
Qed.

(** X13. Every action of the size warning is the clearing of the screen,
    a cursor move to column 1 of a row [r] with [1 ≤ r < lines], or the
    print of one line of the warning, centred to the terminal's width and
    wrapped in a colour and RESET. The warning never addresses a row
    outside the terminal. *)
Theorem display_size_warning_actions clock t cols lines a :
  get_terminal_size clock t = (cols, lines) →
  a ∈ display_size_warning clock t →
  a = ClearScreen ∨
  (∃ r, [a] = Cursor.move_to r 1 ∧ 1 ≤ r < lines) ∨
  (∃ line, line ∈ warning_lines clock cols lines ∧
           a = Print (warning_color line ++ center line cols
                      ++ Colors.RESET)).
Proof. apply display_size_warning_action. Qed.

Lemma display_size_warning_actions_witness :
  ClearScreen = ClearScreen ∨
  (∃ r, [ClearScreen] = Cursor.move_to r 1 ∧ 1 ≤ r < 24) ∨
  (∃ line, line ∈ warning_lines (init true linux) 79 24 ∧
           ClearScreen = Print (warning_color line ++ center line 79
                                ++ Colors.RESET)).
Proof.
  apply (display_size_warning_actions (init true linux) (terminal_of 79 24)
           79 24 ClearScreen).
  - reflexivity.
  - by left.
Defined.

Lemma flat_map_ext_elem {A B} (f g : A → list B) xs :
  (∀ x, x ∈ xs → f x = g x) → flat_map f xs = flat_map g xs.
Proof.
  induction xs as [|x xs IH]; intros H; simpl; [done|].
  rewrite H by (by left). rewrite IH; [done|].
  intros y Hy. apply H. by right.
Qed.

(** In a terminal with more lines than the warning has, the guard on the
    row never fails. *)
Lemma display_size_warning_whole clock t cols lines :
  get_terminal_size clock t = (cols, lines) →
  len (warning_lines clock cols lines) < lines →
  display_size_warning clock t
  = Cursor.clear_screen
    ++ flat_map (λ '(i, line),
         Cursor.move_to
           (Z.max 1 (lines / 2 - len (warning_lines clock cols lines) / 2)
            + i) 1
         ++ [Print (warning_color line ++ center line cols
                    ++ Colors.RESET)])
       (enumerate (warning_lines clock cols lines)).
Proof.
  intros Hsz Hfit.
  unfold display_size_warning. rewrite Hsz. f_equal.
  apply flat_map_ext_elem. intros [i line] Hin.
  apply elem_of_enumerate_from in Hin as [Hi _].
  destruct (Z.ltb_spec
              (Z.max 1 (lines / 2
                 - len (warning_lines clock cols lines) / 2) + i) lines)
    as [|Hcut]; [done|].
  pose proof (len_nonneg (warning_lines clock cols lines)).
  revert Hcut Hi Hfit.
  generalize (len (warning_lines clock cols lines)). intros n Hcut Hi Hfit.
  Z.div_mod_to_equations. lia.
Qed.

(** X14. The warning has 14 lines when resize signals are supported and 17
    when they are not. In a terminal with more lines than the warning has,
    the whole warning is shown: what is printed is, for each line of the
    warning in order, a cursor move to column 1 of the next row (from
    [max(1, lines/2 - len/2)] on) and the print of the line. *)
Theorem display_size_warning_complete clock t cols lines :
  get_terminal_size clock t = (cols, lines) →
  len (warning_lines clock cols lines) < lines →
  len (warning_lines clock cols lines)
  = (if supports_resize_signal clock then 14 else 17) ∧
  display_size_warning clock t
  = Cursor.clear_screen
    ++ flat_map (λ '(i, line),
         Cursor.move_to
           (Z.max 1 (lines / 2 - len (warning_lines clock cols lines) / 2)
            + i) 1
         ++ [Print (warning_color line ++ center line cols
                    ++ Colors.RESET)])
       (enumerate (warning_lines clock cols lines)).
Proof.
  intros Hsz Hfit. split.
  - unfold warning_lines, len.
    destruct (supports_resize_signal clock); reflexivity.
  - by apply display_size_warning_whole.
Qed.

Lemma display_size_warning_complete_witness :
  len (warning_lines (init true linux) 79 24)
  = (if supports_resize_signal (init true linux) then 14 else 17) ∧
  display_size_warning (init true linux) (terminal_of 79 24)
  = Cursor.clear_screen
    ++ flat_map (λ '(i, line),
         Cursor.move_to
           (Z.max 1 (24 / 2 - len (warning_lines (init true linux) 79 24) / 2)
            + i) 1
         ++ [Print (warning_color line ++ center line 79
                    ++ Colors.RESET)])
       (enumerate (warning_lines (init true linux) 79 24)).
Proof.
  apply (display_size_warning_complete (init true linux) (terminal_of 79 24)
           79 24).
  - reflexivity.
  - vm_compute. reflexivity.
Defined.

(** ** The size query on Windows *)

Lemma mode_con_loop_raises (lines : list ModeLine) st :
  (∃ line e, line ∈ lines ∧ consulted line = true ∧ int_field line = Raise e) →
  ∃ e, for_each lines (λ line '(cols, rows),
         if contains (py "Columns:") (text line) then
           cols ← int_field line; Ok (cols, rows)
         else if contains (py "Lines:") (text line) then
           rows ← int_field line; Ok (cols, rows)
         else Ok (cols, rows)) st = Raise e.
Proof.
  revert st. induction lines as [|line lines IH]; intros [cols rows].
  - intros (l & e & Hl & _). by apply elem_of_nil in Hl.
  - intros (l & e & Hl & Hcons & Hfail). rewrite for_each_cons.
    cbv beta iota. unfold consulted in Hcons.
    apply elem_of_cons in Hl as [->|Hl].
    + destruct (contains (py "Columns:") (text line)).
      * rewrite Hfail. by exists e.
      * simpl in Hcons. rewrite Hcons, Hfail. by exists e.
    + assert (∃ line e, line ∈ lines ∧ consulted line = true
                        ∧ int_field line = Raise e) as Hrest
        by (by exists l, e).
      destruct (contains (py "Columns:") (text line)).
      * destruct (int_field line) as [v|e']; [|by exists e'].
        rewrite bind_Ok. by apply IH.
      * destruct (contains (py "Lines:") (text line)).
        -- destruct (int_field line) as [v|e']; [|by exists e'].
           rewrite bind_Ok. by apply IH.
        -- rewrite bind_Ok. by apply IH.
Qed.

Lemma mode_con_loop_returns (lines : list ModeLine) cols rows cols' rows' :
  for_each lines (λ line '(cols, rows),
    if contains (py "Columns:") (text line) then
      cols ← int_field line; Ok (cols, rows)
    else if contains (py "Lines:") (text line) then
      rows ← int_field line; Ok (cols, rows)
    else Ok (cols, rows)) (cols, rows) = Ok (cols', rows') →
  (cols' = cols ∨
   ∃ line, line ∈ lines ∧ contains (py "Columns:") (text line) = true ∧
           int_field line = Ok cols') ∧
  (rows' = rows ∨
   ∃ line, line ∈ lines ∧ contains (py "Columns:") (text line) = false ∧
           contains (py "Lines:") (text line) = true ∧
           int_field line = Ok rows').
Proof.
  revert cols rows. induction lines as [|line lines IH]; intros cols rows H.
  - injection H as -> ->. auto.
  - rewrite for_each_cons in H. cbv beta iota in H.
    assert (∀ P : ModeLine → Prop,
              (∃ l, l ∈ lines ∧ P l) → ∃ l, l ∈ line :: lines ∧ P l)
      as Hweak.
    { intros P (l & Hl & HP). exists l. split; [by right | done]. }
    destruct (contains (py "Columns:") (text line)) eqn:Hcol.
    + destruct (int_field line) as [v|] eqn:Hv; [|done].
      simpl in H. apply IH in H as [Hc Hr]. split.
      * right. destruct Hc as [->|Hc]; [|by apply Hweak in Hc].
        exists line. split; [by left | done].
      * destruct Hr as [->|Hr]; [by left | right; by apply Hweak in Hr].
    + destruct (contains (py "Lines:") (text line)) eqn:Hlin.
      * destruct (int_field line) as [v|] eqn:Hv; [|done].
        simpl in H. apply IH in H as [Hc Hr]. split.
        -- destruct Hc as [->|Hc]; [by left | right; by apply Hweak in Hc].
        -- right. destruct Hr as [->|Hr]; [|by apply Hweak in Hr].
           exists line. split; [by left | done].
      * simpl in H. apply IH in H as [Hc Hr]. split.
        -- destruct Hc as [->|Hc]; [by left | right; by apply Hweak in Hc].
        -- destruct Hr as [->|Hr]; [by left | right; by apply Hweak in Hr].
Qed.

(** X15. On Windows, when [os.get_terminal_size] raises and the output of
    [mode con] is read instead: if the number on any line with "Columns:"
    or "Lines:" cannot be parsed, the size is (80, 24), whatever the other
    lines say; otherwise the columns are 80 or the number of a line with
    "Columns:", and the lines are 24 or the number of a line with "Lines:"
    and without "Columns:". *)
Theorem get_terminal_size_mode_con self t e lines :
  is_windows (os_info self) = true →
  os_get_terminal_size t = Raise e →
  mode_con t = Ok lines →
  ((∃ line e', line ∈ lines ∧ consulted line = true ∧
               int_field line = Raise e') →
   get_terminal_size self t = (80, 24)) ∧
  (∀ cols rows, get_terminal_size self t = (cols, rows) →
     (cols = 80 ∨
      ∃ line, line ∈ lines ∧ contains (py "Columns:") (text line) = true ∧
              int_field line = Ok cols) ∧
     (rows = 24 ∨
      ∃ line, line ∈ lines ∧ contains (py "Columns:") (text line) = false ∧
              contains (py "Lines:") (text line) = true ∧
              int_field line = Ok rows)).
Proof.
  intros Hwin Hos Hmode.
  unfold get_terminal_size, get_terminal_size_try.
  rewrite Hwin, Hos, Hmode, bind_Ok. split.
  - intros Hbad.
    destruct (mode_con_loop_raises lines (80, 24) Hbad) as [e' ->]. done.
  - intros cols rows Hsz.
    match type of Hsz with
    | match ?loop with _ => _ end = _ => destruct loop as [[c r]|] eqn:Hloop
    end.
    + injection Hsz as -> ->. by apply mode_con_loop_returns in Hloop.
    + injection Hsz as <- <-. auto.
Qed.

Lemma get_terminal_size_mode_con_witness :
  ((∃ line e', line ∈ [{| text := py "Columns: x"; int_field := Raise ValueError |};
                       {| text := py "Lines: 30"; int_field := Ok 30 |}]
               ∧ consulted line = true ∧ int_field line = Raise e') →
   get_terminal_size
     (init false {| system := py "Windows"; version := [];
                    is_windows := true; is_unix := false; is_mac := false |})
     {| os_get_terminal_size := Raise OSError;
        mode_con := Ok [{| text := py "Columns: x";
                           int_field := Raise ValueError |};
                        {| text := py "Lines: 30"; int_field := Ok 30 |}] |}
   = (80, 24)) ∧
  (∀ cols rows,
     get_terminal_size
       (init false {| system := py "Windows"; version := [];
                      is_windows := true; is_unix := false; is_mac := false |})
       {| os_get_terminal_size := Raise OSError;
          mode_con := Ok [{| text := py "Columns: x";
                             int_field := Raise ValueError |};
                          {| text := py "Lines: 30"; int_field := Ok 30 |}] |}
     = (cols, rows) →
     (cols = 80 ∨
      ∃ line, line ∈ [{| text := py "Columns: x";
                         int_field := Raise ValueError |};
                      {| text := py "Lines: 30"; int_field := Ok 30 |}]
              ∧ contains (py "Columns:") (text line) = true ∧
              int_field line = Ok cols) ∧
     (rows = 24 ∨
      ∃ line, line ∈ [{| text := py "Columns: x";
                         int_field := Raise ValueError |};
                      {| text := py "Lines: 30"; int_field := Ok 30 |}]
              ∧ contains (py "Columns:") (text line) = false ∧
              contains (py "Lines:") (text line) = true ∧
              int_field line = Ok rows)).
Proof.
  apply (get_terminal_size_mode_con
           (init false {| system := py "Windows"; version := [];
                          is_windows := true; is_unix := false;
                          is_mac := false |})
           {| os_get_terminal_size := Raise OSError;
              mode_con := Ok [{| text := py "Columns: x";
                                 int_field := Raise ValueError |};
                              {| text := py "Lines: 30";
                                 int_field := Ok 30 |}] |}
           OSError).
  - reflexivity.
  - reflexivity.
  - reflexivity.
Defined.

(** ** The loop: what it keeps *)

(** One iteration on a well-formed host, whatever the clock. *)
Lemma main_iteration_step host clock :
  well_formed_host host →
  ∃ clock' out,
    main_iteration host clock
    = Ok (clock', (if rebuilds_first clock then [ReadSource] else []) ++ out) ∧
    iteration_shows host clock' out ∧
    same_settings clock' clock ∧
    terminal_resized clock' = false ∧
    (create_display_grid clock = Ok (grid clock) →
     create_display_grid clock' = Ok (grid clock')).
Proof.
  intros [Hsrc Hts].
  destruct (main_iteration_returns host clock) as
    (clock' & out & Hrun & Hshow & Hset & Hclock); [done | done |].
  exists clock', out. split; [done|]. split; [done|]. split; [done|].
  unfold rebuilds_first in *.
  destruct (terminal_resized clock || negb (supports_resize_signal clock))
    eqn:Hre.
  - destruct Hclock as (Hflag & _ & _ & _ & Hgrid). by split.
  - subst clock'. split; [|done].
    apply orb_false_iff in Hre as [Hflag _]. done.
Qed.

Lemma handle_resize_settings clock (sigwinch : bool) :
  same_settings
    (if sigwinch && supports_resize_signal clock
     then _handle_resize clock else clock) clock.
Proof. destruct (sigwinch && _); by repeat split. Qed.

Lemma main_loop_invariant hosts clock :
  create_display_grid clock = Ok (grid clock) →
  Forall (λ later, well_formed_host later.2) hosts →
  ∃ clock' out,
    main_loop hosts clock = Ok (clock', out) ∧
    same_settings clock' clock ∧
    create_display_grid clock' = Ok (grid clock').
Proof.
  intros Hgrid Hhosts. revert clock Hgrid.
  induction Hhosts as [|[sigwinch host] hosts Hwf _ IH]; intros clock Hgrid.
  - exists clock, []. split; [done|]. split; [apply same_settings_refl|done].
  - simpl main_loop.
    set (clock0 := if sigwinch && supports_resize_signal clock
                   then _handle_resize clock else clock).
    assert (create_display_grid clock0 = Ok (grid clock0)) as Hgrid0.
    { unfold clock0. by destruct (sigwinch && _). }
    destruct (main_iteration_step host clock0 Hwf)
      as (clock1 & out1 & -> & _ & Hset1 & _ & Hgrid1).
    rewrite bind_Ok. cbv beta iota.
    destruct (IH clock1 (Hgrid1 Hgrid0)) as (clock' & out & -> & Hset & Hg).
    rewrite bind_Ok. cbv beta iota.
    eexists _, _. split; [done|]. split; [|done].
    eapply same_settings_trans; [exact Hset|].
    eapply same_settings_trans; [exact Hset1|].
    apply handle_resize_settings.
Qed.

(** X16. From the fresh clock on, for hosts that give a non-empty text
    and a time string, the loop never raises, never changes the minimum
    sizes, the signal support or the OS record, and after every iteration
    the grid the clock holds is the grid of its own width, height and
    source: [height] rows of [width] cells. *)
Theorem main_loop_keeps_grid_current sigwinch_installed info hosts :
  Forall (λ later, well_formed_host later.2) hosts →
  ∃ clock out,
    main_loop hosts (init sigwinch_installed info) = Ok (clock, out) ∧
    min_width clock = 100 ∧ min_height clock = 25 ∧
    supports_resize_signal clock = sigwinch_installed ∧
    os_info clock = info ∧
    create_display_grid clock = Ok (grid clock) ∧
    length (grid clock) = Z.to_nat (height clock) ∧
    Forall (λ row, length row = Z.to_nat (width clock)) (grid clock).
Proof.
  intros Hhosts.
  destruct (main_loop_invariant hosts (init sigwinch_installed info))
    as (clock & out & Hrun & (Hw & Hh & Hs & Hos) & Hgrid); [done | done |].
  exists clock, out. split; [done|].
  destruct (grid_shape clock (grid clock) Hgrid) as (Hlen & Hrows & _).
  by repeat split.
Qed.

Lemma main_loop_keeps_grid_current_witness :
  ∃ clock out,
    main_loop [(false, host_of 120 30 (py "AB") (py "12:30:45"))]
      (init true linux) = Ok (clock, out) ∧
    min_width clock = 100 ∧ min_height clock = 25 ∧
    supports_resize_signal clock = true ∧
    os_info clock = linux ∧
    create_display_grid clock = Ok (grid clock) ∧
    length (grid clock) = Z.to_nat (height clock) ∧
    Forall (λ row, length row = Z.to_nat (width clock)) (grid clock).
Proof.
  apply (main_loop_keeps_grid_current true linux
           [(false, host_of 120 30 (py "AB") (py "12:30:45"))]).
  constructor; [|constructor].
  split; [vm_compute; discriminate | time_string_literal].
Defined.

(** X17. How often the loop rebuilds the grid. An iteration rebuilds
    exactly when the resize flag is set (as it is at start), a signal
    arrived before it, or resize signals are not supported. So without
    signal support every iteration rebuilds, and with it the rebuilds are
    the first iteration and those that follow a signal. *)
Theorem main_loop_rebuild_count hosts clock :
  Forall (λ later, well_formed_host later.2) hosts →
  ∃ clock' out,
    main_loop hosts clock = Ok (clock', out) ∧
    rebuilds out
    = expected_rebuilds (supports_resize_signal clock)
        (terminal_resized clock) hosts ∧
    (supports_resize_signal clock = false → rebuilds out = length hosts).
Proof.
  intros Hhosts.
  assert (∃ clock' out,
    main_loop hosts clock = Ok (clock', out) ∧
    rebuilds out
    = expected_rebuilds (supports_resize_signal clock)
        (terminal_resized clock) hosts) as (clock' & out & Hrun & Hcount).
  { revert clock.
    induction Hhosts as [|[sigwinch host] hosts Hwf _ IH]; intros clock.
    - by exists clock, [].
    - simpl main_loop.
      set (clock0 := if sigwinch && supports_resize_signal clock
                     then _handle_resize clock else clock).
      destruct (main_iteration_step host clock0 Hwf)
        as (clock1 & out1 & -> & Hshow & Hset1 & Hflag1 & _).
      rewrite bind_Ok. cbv beta iota.
      destruct (IH clock1) as (clock' & out & -> & Hout).
      rewrite bind_Ok. cbv beta iota.
      eexists _, _. split; [done|].
      rewrite !rebuilds_app, Hout, Hflag1.
      rewrite (rebuilds_none out1)
        by (by apply (iteration_shows_no_read host clock1)).
      destruct Hset1 as (_ & _ & -> & _).
      assert (supports_resize_signal clock0 = supports_resize_signal clock)
        as -> by (unfold clock0; by destruct (sigwinch && _)).
      simpl expected_rebuilds.
      assert (rebuilds_first clock0
              = negb (supports_resize_signal clock) || terminal_resized clock
                || sigwinch) as ->.
      { unfold rebuilds_first, clock0.
        destruct sigwinch, (supports_resize_signal clock) eqn:Hs,
          (terminal_resized clock) eqn:Hf; simpl; by rewrite ?Hs, ?Hf. }
      destruct (negb _ || _ || _); simpl; lia. }
  exists clock', out. split; [done|]. split; [done|].
  intros Hno. rewrite Hcount, Hno. clear.
  generalize (terminal_resized clock).
  induction hosts as [|[sigwinch host] hosts IH]; intros flag; [done|].
  simpl. by rewrite IH.
Qed.

Lemma main_loop_rebuild_count_witness :
  ∃ clock' out,
    main_loop [(false, host_of 120 30 (py "AB") (py "12:30:45"));
               (true, host_of 150 40 (py "AB") (py "12:30:46"));
               (false, host_of 150 40 (py "AB") (py "12:30:47"))]
      (init true linux) = Ok (clock', out) ∧
    rebuilds out
    = expected_rebuilds (supports_resize_signal (init true linux))
        (terminal_resized (init true linux))
        [(false, host_of 120 30 (py "AB") (py "12:30:45"));
         (true, host_of 150 40 (py "AB") (py "12:30:46"));
         (false, host_of 150 40 (py "AB") (py "12:30:47"))] ∧
    (supports_resize_signal (init true linux) = false →
     rebuilds out
     = length [(false, host_of 120 30 (py "AB") (py "12:30:45"));
               (true, host_of 150 40 (py "AB") (py "12:30:46"));
               (false, host_of 150 40 (py "AB") (py "12:30:47"))]).
Proof.
  apply (main_loop_rebuild_count
           [(false, host_of 120 30 (py "AB") (py "12:30:45"));
            (true, host_of 150 40 (py "AB") (py "12:30:46"));
            (false, host_of 150 40 (py "AB") (py "12:30:47"))]
           (init true linux)).
  repeat (constructor;
          [split; [vm_compute; discriminate | time_string_literal]|]).
  constructor.
Defined.

(** ** [main]: the two ways out *)

(** A number in decimal starts with a digit or the minus sign. *)
Lemma str_head z : ∃ c rest, str z = c :: rest ∧ c ≠ ch "?".
Proof.
  unfold str. destruct z as [|p|p]; simpl Z.to_int.
  - eexists _, _. split; [reflexivity | by vm_compute].
  - unfold NilZero.string_of_int, NilZero.string_of_uint.
    destruct (Pos.to_uint p); eexists _, _;
      (split; [reflexivity | by vm_compute]).
  - eexists _, _. split; [reflexivity | by vm_compute].
Qed.

Lemma move_to_not_show row col : Cursor.move_to row col ≠ Cursor.show.
Proof.
  unfold Cursor.move_to, Cursor.show.
  destruct (str_head row) as (c & rest & -> & Hc).
  intros [= H]. by destruct Hc.
Qed.

Lemma iteration_shows_no_show host clock out a :
  iteration_shows host clock out → a ∈ out → [a] ≠ Cursor.show.
Proof.
  unfold iteration_shows.
  destruct (is_terminal_size_adequate clock (size_at_check host)).
  - intros (positions & border & lines & _ & _ & _ & _ & ->).
    intros [H|[H|H]%elem_of_app]%elem_of_app.
    + by apply list_elem_of_singleton in H as ->.
    + by apply list_elem_of_fmap in H as (line & -> & _).
    + by apply list_elem_of_singleton in H as ->.
  - intros ->. intros [H|H]%elem_of_app.
    + destruct (get_terminal_size clock (size_at_warning host))
        as [cols lines] eqn:Hsz.
      destruct (display_size_warning_action _ _ _ _ _ Hsz H)
        as [->|[(r & -> & _)|(line & _ & ->)]]; [done| |done].
      apply move_to_not_show.
    + by apply list_elem_of_singleton in H as ->.
Qed.

Lemma main_until_returns hosts clock clock' out :
  main_loop hosts clock = Ok (clock', out) →
  main_until hosts clock = (out, None).
Proof.
  revert clock clock' out. induction hosts as [|[sigwinch host] hosts IH];
    intros clock clock' out.
  - simpl. by intros [= _ <-].
  - simpl. unfold main_iteration_effects.
    destruct (main_iteration host _) as [[clock1 out1]|]; [|done].
    rewrite bind_Ok. cbv beta iota.
    destruct (main_loop hosts clock1) as [[clock2 out2]|] eqn:Hloop; [|done].
    rewrite bind_Ok. cbv beta iota. intros [= _ <-].
    by rewrite (IH clock1 clock2 out2 Hloop).
Qed.

Lemma main_loop_no_show hosts clock clock' out a :
  Forall (λ later, well_formed_host later.2) hosts →
  main_loop hosts clock = Ok (clock', out) →
  a ∈ out → [a] ≠ Cursor.show.
Proof.
  intros Hhosts. revert clock clock' out.
  induction Hhosts as [|[sigwinch host] hosts Hwf _ IH];
    intros clock clock' out.
  - simpl. intros [= _ <-] H. by apply elem_of_nil in H.
  - simpl main_loop.
    set (clock0 := if sigwinch && supports_resize_signal clock
                   then _handle_resize clock else clock).
    destruct (main_iteration_step host clock0 Hwf)
      as (clock1 & out1 & -> & Hshow & _).
    rewrite bind_Ok. cbv beta iota.
    destruct (main_loop hosts clock1) as [[clock2 out2]|] eqn:Hloop; [|done].
    rewrite bind_Ok. cbv beta iota. intros [= _ <-].
    intros [[H|H]%elem_of_app|H]%elem_of_app.
    + destruct (rebuilds_first clock0); [|by apply elem_of_nil in H].
      by apply list_elem_of_singleton in H as ->.
    + by eapply iteration_shows_no_show.
    + by eapply IH.
Qed.

(** X18. For hosts that give a non-empty text and a time string, no
    iteration raises: [main] ends only by the interrupt, with exit status
    0; what it did starts with hiding the cursor and ends with clearing
    the screen, and nowhere does it show the cursor again. The interrupt
    is taken to arrive while the loop sleeps. *)
Theorem main_interrupted sigwinch_installed info str_exn hosts :
  Forall (λ later, well_formed_host later.2) hosts →
  ∃ out,
    main sigwinch_installed info str_exn hosts
    = (Cursor.hide ++ out ++ Cursor.clear_screen, 0) ∧
    ∀ a, a ∈ Cursor.hide ++ out ++ Cursor.clear_screen →
         [a] ≠ Cursor.show.
Proof.
  intros Hhosts.
  destruct (main_loop_invariant hosts (init sigwinch_installed info))
    as (clock & out & Hrun & _); [done | done |].
  exists out. split.
  - unfold main. by rewrite (main_until_returns _ _ _ _ Hrun).
  - intros a [H|[H|H]%elem_of_app]%elem_of_app.
    + by apply list_elem_of_singleton in H as ->.
    + by eapply main_loop_no_show.
    + by apply list_elem_of_singleton in H as ->.
Qed.

Lemma main_interrupted_witness :
  ∃ out,
    main true linux (λ _, [])
      [(false, host_of 79 24 (py "AB") (py "12:30:45"))]
    = (Cursor.hide ++ out ++ Cursor.clear_screen, 0) ∧
    ∀ a, a ∈ Cursor.hide ++ out ++ Cursor.clear_screen →
         [a] ≠ Cursor.show.
Proof.
  apply (main_interrupted true linux (λ _, [])
           [(false, host_of 79 24 (py "AB") (py "12:30:45"))]).
  constructor; [|constructor].
  split; [vm_compute; discriminate | time_string_literal].
Defined.

(** X19. Were the text empty on the first iteration, in a terminal of
    more than 2 columns and 2 lines, the grid builder's [IndexError]
    would end [main] through its handler: the cursor is shown, the screen
    cleared, three lines printed (the error, the OS, a hint), and the exit
    status is 1. *)
Theorem main_fails_on_empty_source sigwinch_installed info str_exn
    sigwinch host hosts cols lines :
  minified_source host = [] →
  get_terminal_size (init sigwinch_installed info) (size_at_update host)
  = (cols, lines) →
  2 < cols → 2 < lines →
  main sigwinch_installed info str_exn ((sigwinch, host) :: hosts)
  = (Cursor.hide ++ [ReadSource] ++ Cursor.show ++ Cursor.clear_screen
     ++ [Print (py "Error: " ++ str_exn IndexError);
         Print (py "OS: " ++ system info);
         Print (py "Please check terminal compatibility and try again.")],
     1).
Proof.
  intros Hsrc Hsz Hcols Hlines. unfold main. simpl main_until.
  set (clock0 := if sigwinch && sigwinch_installed
                 then _handle_resize (init sigwinch_installed info)
                 else init sigwinch_installed info).
  assert (rebuilds_first clock0 = true) as Hre
    by (unfold clock0; by destruct (sigwinch && _)).
  assert (main_iteration host clock0 = Raise IndexError) as Hrun.
  { unfold main_iteration. fold (rebuilds_first clock0). rewrite Hre.
    assert (update_display_parameters clock0 (size_at_update host)
              (minified_source host) = Raise IndexError) as ->; [|done].
    unfold update_display_parameters.
    assert (get_terminal_size clock0 (size_at_update host) = (cols, lines))
      as -> by (unfold clock0; by destruct (sigwinch && _)).
    rewrite create_display_grid_empty_raises; [done|simpl..]; [done|lia|lia]. }
  unfold main_iteration_effects. rewrite Hrun, Hre. done.
Qed.

Lemma main_fails_on_empty_source_witness :
  main true linux (λ _, py "string index out of range")
    [(false, host_of 120 30 [] (py "12:30:45"))]
  = (Cursor.hide ++ [ReadSource] ++ Cursor.show ++ Cursor.clear_screen
     ++ [Print (py "Error: " ++ py "string index out of range");
         Print (py "OS: " ++ system linux);
         Print (py "Please check terminal compatibility and try again.")],
     1).
Proof.
  apply (main_fails_on_empty_source true linux
           (λ _, py "string index out of range") false
           (host_of 120 30 [] (py "12:30:45")) [] 120 30).
  - reflexivity.
  - reflexivity.
  - lia.
  - lia.
Defined.

(** ** The grid as a prefix of the text *)

Lemma cells_from_app source_code k (m m' : nat) :
  cells_from source_code k (m + m')
  = cells_from source_code k m
    ++ cells_from source_code (k + Z.of_nat m) m'.
Proof.
  revert k. induction m as [|m IH]; intros k; simpl.
  - by rewrite Z.add_0_r.
  - rewrite IH. do 3 f_equal. lia.
Qed.

Lemma concat_rows_from source_code w k rows :
  concat (rows_from source_code w k rows)
  = cells_from source_code k (w * rows).
Proof.
  revert k. induction rows as [|rows IH]; intros k; simpl.
  - by rewrite Nat.mul_0_r.
  - rewrite IH. replace (w * S rows)%nat with (w + w * rows)%nat by lia.
    by rewrite cells_from_app.
Qed.

Lemma cells_from_prefix (source_code : list char) (k m : nat) :
  (k + m ≤ length source_code)%nat →
  cells_from source_code (Z.of_nat k) m = take m (drop k source_code).
Proof.
  revert k. induction m as [|m IH]; intros k Hlen; [done|].
  simpl cells_from.
  destruct (lookup_lt_is_Some_2 source_code k ltac:(lia)) as [x Hx].
  rewrite (drop_S _ _ _ Hx). simpl take.
  replace (Z.of_nat k + 1) with (Z.of_nat (S k)) by lia.
  rewrite IH by lia. f_equal.
  unfold char_at, cursor_at, len.
  rewrite Z.mod_small by lia.
  destruct (Z.ltb_spec (Z.of_nat k) (Z.of_nat (length source_code))); [|lia].
  by rewrite Nat2Z.id, Hx.
Qed.

(** X20. As long as the grid has no more cells than the source has
    characters, the grid read row by row is the beginning of the source:
    row [r] is the characters [r * width .. r * width + width - 1]. *)
Theorem create_display_grid_prefix self :
  0 ≤ width self → 0 ≤ height self →
  width self * height self ≤ len (source_code self) →
  ∃ g, create_display_grid self = Ok g ∧
       concat g
       = take (Z.to_nat (width self * height self)) (source_code self).
Proof.
  intros Hw Hh Hfit.
  destruct (decide (source_code self = [])) as [Hsrc|Hsrc].
  - rewrite Hsrc in *. unfold len in Hfit. simpl in Hfit.
    assert (width self = 0 ∨ height self = 0) as [Hz|Hz] by nia.
    + eexists. split; [apply create_display_grid_no_columns; lia|].
      rewrite take_nil. generalize (Z.to_nat (height self)).
      intros n. induction n; simpl; auto.
    + eexists. split; [apply create_display_grid_no_rows; lia|].
      by rewrite take_nil.
  - eexists. split; [by apply create_display_grid_rows|].
    rewrite concat_rows_from.
    change 0 with (Z.of_nat 0). rewrite cells_from_prefix.
    + rewrite drop_0. f_equal. nia.
    + unfold len in Hfit. nia.
Qed.

Lemma create_display_grid_prefix_witness :
  ∃ g, create_display_grid (clock_of (py "ABCDEFG") 3 2) = Ok g ∧
       concat g
       = take (Z.to_nat (width (clock_of (py "ABCDEFG") 3 2)
                         * height (clock_of (py "ABCDEFG") 3 2)))
           (source_code (clock_of (py "ABCDEFG") 3 2)).
Proof.
  apply (create_display_grid_prefix (clock_of (py "ABCDEFG") 3 2)).
  - simpl. lia.
  - simpl. lia.
  - vm_compute. discriminate.
Defined.

(** ** What an adequate terminal shows *)

(** On a rectangular grid the test against the first row passes for every
    cell, and the renderer's line is [rendered_line]. *)
Lemma render_rectangular g positions border :
  rectangular g →
  display_code_with_time g positions border
  = Ok (map (λ '(row_idx, row),
               Print (rendered_line positions border row_idx row))
            (enumerate g)).
Proof.
  intros Hrect. unfold display_code_with_time.
  destruct (highlight_dict_loop g positions ∅) as (d & -> & Hd).
  rewrite bind_Ok.
  rewrite <- flat_map_singleton.
  erewrite (for_each_accumulate (B:=action) list_add list_add_nil list_add_app);
    [done|].
  intros [row_idx row] out Hrow.
  apply elem_of_enumerate_from in Hrow as [Hidx Hrow].
  erewrite (for_each_accumulate (B:=char) list_add list_add_nil list_add_app
              _ _ (λ '(col_idx, c),
                     rendered_cell positions border (row_idx, col_idx) c)).
  { by rewrite bind_Ok. }
  intros [col_idx c] line Hcol.
  apply elem_of_enumerate_from in Hcol as [Hcidx _].
  unfold rendered_cell, list_add. rewrite Hd, lookup_empty.
  assert (inside_first_row g (row_idx, col_idx) = true) as ->.
  { unfold inside_first_row. simpl.
    destruct g as [|first_row g']; [by rewrite lookup_nil in Hrow|].
    assert (length row = length first_row) as Hlen
      by (eapply Hrect; [by eapply list_elem_of_lookup_2 | done]).
    simpl. unfold len in *. rewrite <- Hlen. zbool. }
  destruct (highlight_color positions (row_idx, col_idx)); [done|].
  rewrite (bool_decide_ext _ ((row_idx, col_idx) ∈ border))
    by apply elem_of_list_to_set.
  by destruct (bool_decide _).
Qed.

(** X21. An iteration that rebuilds, in a terminal of at least 100 by 25
    that answers both size queries alike: the grid is rebuilt for the
    terminal's size less 2, the screen is cleared, and one line per grid
    row is printed, each cell in the colour of its layer; the highlighted
    cells are all the lit pixels of the glyphs (nothing is clipped)
    and the border is exactly the free cells touching them. *)
Theorem adequate_iteration_shows_clock host clock cols lines :
  well_formed_host host →
  rebuilds_first clock = true →
  min_width clock = 100 → min_height clock = 25 →
  get_terminal_size clock (size_at_update host) = (cols, lines) →
  get_terminal_size clock (size_at_check host) = (cols, lines) →
  100 ≤ cols → 25 ≤ lines →
  ∃ clock' positions border,
    main_iteration host clock
    = Ok (clock',
          [ReadSource] ++ Cursor.clear_screen
          ++ map (λ '(row_idx, row),
                    Print (rendered_line positions border row_idx row))
                 (enumerate (grid clock'))
          ++ [Sleep 1]) ∧
    width clock' = cols - 2 ∧ height clock' = lines - 2 ∧
    length (grid clock') = Z.to_nat (lines - 2) ∧
    Forall (λ row, length row = Z.to_nat (cols - 2)) (grid clock') ∧
    get_highlight_positions (current_time host) (time_start_row (lines - 2))
      (time_start_col (cols - 2)) (cols - 2) (lines - 2) = Ok positions ∧
    get_border_positions (current_time host) (time_start_row (lines - 2))
      (time_start_col (cols - 2)) (cols - 2) (lines - 2) = Ok border ∧
    (∀ q, q ∈ cells positions ↔
          glyph_cell (current_time host) (time_start_row (lines - 2))
            (time_start_col (cols - 2)) q) ∧
    border_of_highlight positions border (cols - 2) (lines - 2).
Proof.
  intros [Hsrc Hts] Hre Hw Hh Hupd Hchk Hcols Hlines.
  destruct (main_iteration_returns host clock) as
    (clock' & out & Hrun & Hshow & Hset & Hclock); [done | done |].
  rewrite Hre in Hrun, Hclock.
  destruct Hclock as (_ & _ & Hwd & Hht & Hgrid).
  rewrite Hupd in Hwd, Hht. simpl in Hwd, Hht.
  unfold iteration_shows in Hshow.
  rewrite (is_terminal_size_adequate_settings clock' clock _ Hset) in Hshow.
  assert (is_terminal_size_adequate clock (size_at_check host) = true)
    as Hok.
  { unfold is_terminal_size_adequate. rewrite Hchk, Hw, Hh. zbool. }
  rewrite Hok in Hshow.
  destruct Hshow as (positions & border & printed & Hpos & Hbd & Hframe
                     & _ & ->).
  rewrite Hwd, Hht in Hpos, Hbd.
  destruct (grid_shape clock' (grid clock') Hgrid) as (Hlen & Hrows & Hrect).
  rewrite Hwd in Hrows. rewrite Hht in Hlen.
  rewrite (render_rectangular _ _ _ Hrect) in Hframe.
  injection Hframe as Hframe.
  exists clock', positions, border.
  split; [by rewrite Hrun, Hframe|].
  split; [done|]. split; [done|]. split; [done|]. split; [done|].
  split; [exact Hpos|]. split; [exact Hbd|].
  destruct (elem_of_border (current_time host) (time_start_row (lines - 2))
              (time_start_col (cols - 2)) (cols - 2) (lines - 2) (proj1 Hts))
    as (border' & Hbd' & _ & Hb).
  assert (border' = border) as -> by (unfold time_start_row, time_start_col
    in *; congruence).
  pose proof (λ q, elem_of_highlight_cells (current_time host)
                     (time_start_row (lines - 2)) (time_start_col (cols - 2))
                     (cols - 2) (lines - 2) positions q Hts Hpos) as Hcells.
  pose proof (λ q, main_anchor_inside (current_time host) (cols - 2)
                     (lines - 2) q (proj2 Hts) ltac:(lia) ltac:(lia))
    as Hinside.
  assert (∀ q, q ∈ cells positions ↔
            glyph_cell (current_time host) (time_start_row (lines - 2))
              (time_start_col (cols - 2)) q) as Hall.
  { intros q. rewrite Hcells. split; [tauto|]. intros Hq. split; auto. }
  split; [done|]. intros p. rewrite Hb. setoid_rewrite Hall. tauto.
Qed.

Lemma adequate_iteration_shows_clock_witness :
  ∃ clock' positions border,
    main_iteration (host_of 100 25 (py "AB") (py "12:30:45"))
      (init true linux)
    = Ok (clock',
          [ReadSource] ++ Cursor.clear_screen
          ++ map (λ '(row_idx, row),
                    Print (rendered_line positions border row_idx row))
                 (enumerate (grid clock'))
          ++ [Sleep 1]) ∧
    width clock' = 100 - 2 ∧ height clock' = 25 - 2 ∧
    length (grid clock') = Z.to_nat (25 - 2) ∧
    Forall (λ row, length row = Z.to_nat (100 - 2)) (grid clock') ∧
    get_highlight_positions
      (current_time (host_of 100 25 (py "AB") (py "12:30:45")))
      (time_start_row (25 - 2)) (time_start_col (100 - 2)) (100 - 2) (25 - 2)
    = Ok positions ∧
    get_border_positions
      (current_time (host_of 100 25 (py "AB") (py "12:30:45")))
      (time_start_row (25 - 2)) (time_start_col (100 - 2)) (100 - 2) (25 - 2)
    = Ok border ∧
    (∀ q, q ∈ cells positions ↔
          glyph_cell (current_time (host_of 100 25 (py "AB") (py "12:30:45")))
            (time_start_row (25 - 2)) (time_start_col (100 - 2)) q) ∧
    border_of_highlight positions border (100 - 2) (25 - 2).
Proof.
  apply (adequate_iteration_shows_clock
           (host_of 100 25 (py "AB") (py "12:30:45")) (init true linux)
           100 25).
  - split; [vm_compute; discriminate | time_string_literal].
  - reflexivity.
  - reflexivity.
  - reflexivity.
  - reflexivity.
  - reflexivity.
  - lia.
  - lia.
Defined.

(** * The controller, with the grid's shape and the warning's place *)

(** [center] centres: what it returns is the line between two margins that
    differ by at most one cell, as wide as asked for unless the line is
    wider. *)
Lemma center_centred (line : list char) width :
  centred_in width line (center line width).
Proof.
  destruct (Z.lt_ge_cases (len line) width) as [Hlt|Hge].
  - destruct (center_balanced line width Hlt)
      as (left & right & Heq & Hl & Hr & Hsum & Habs).
    exists left, right. split; [done|]. split; [done|]. split; [done|].
    split; [done|]. lia.
  - exists 0, 0. unfold center.
    destruct (Z.geb_spec (len line) width) as [_|Hlt]; [|lia].
    split; [by rewrite app_nil_r|]. lia.
Qed.

(** The rows the whole warning leaves free: with [n] lines (14 or 17) in a
    terminal of more than [n] lines, from 1 to 3 more below than above. *)
Lemma warning_rows_balanced clock cols lines :
  len (warning_lines clock cols lines) < lines →
  1 ≤ (lines - (Z.max 1 (lines / 2 - len (warning_lines clock cols lines) / 2)
                + len (warning_lines clock cols lines) - 1))
      - (Z.max 1 (lines / 2 - len (warning_lines clock cols lines) / 2) - 1)
    ≤ 3.
Proof.
  destruct (warning_lines_sizes clock cols lines) as (_ & _ & [-> | ->]);
    intros Hfit;
    [change (14 / 2) with 7 | change (17 / 2) with 8];
    Z.div_mod_to_equations; lia.
Qed.

(** C6, as the code has it. On an iteration in which the terminal is below
    100 columns or 25 lines, no frame is composed or printed: all the
    iteration shows is the size warning. The grid is rebuilt first, with
    [lines - 2] rows of [cols - 2] cells, exactly when the resize flag is
    set or resize signals are not supported; otherwise the clock, grid
    included, is left as it is. Every line of the warning is printed
    centred in the terminal's width, on a row of the terminal. When the
    terminal has at least 6 lines the warning has the line with the
    current size and the line with the minimum 100 x 25. When the terminal
    has more lines than the warning, the whole warning is printed on
    consecutive rows from [max(1, lines/2 - n/2)] on, which leaves from 1
    to 3 more free rows below it than above it. *)
Theorem inadequate_size_shows_warning host clock cols lines :
  min_width clock = 100 → min_height clock = 25 →
  (rebuilds_first clock = true → minified_source host ≠ []) →
  get_terminal_size clock (size_at_update host) = (cols, lines) →
  get_terminal_size clock (size_at_check host) = (cols, lines) →
  get_terminal_size clock (size_at_warning host) = (cols, lines) →
  cols < 100 ∨ lines < 25 →
  ∃ clock',
    main_iteration host clock
    = Ok (clock',
          (if rebuilds_first clock then [ReadSource] else [])
          ++ display_size_warning clock' (size_at_warning host)
          ++ [Sleep 1]) ∧
    (if rebuilds_first clock then
       width clock' = cols - 2 ∧ height clock' = lines - 2 ∧
       create_display_grid clock' = Ok (grid clock') ∧
       length (grid clock') = Z.to_nat (lines - 2) ∧
       Forall (λ row, length row = Z.to_nat (cols - 2)) (grid clock')
     else clock' = clock) ∧
    (∀ a, a ∈ display_size_warning clock' (size_at_warning host) →
       a = ClearScreen ∨
       (∃ r, [a] = Cursor.move_to r 1 ∧ 1 ≤ r < lines) ∨
       (∃ line padded,
          line ∈ warning_lines clock' cols lines ∧
          a = Print (warning_color line ++ padded ++ Colors.RESET) ∧
          padded = center line cols ∧
          centred_in cols line padded)) ∧
    (6 ≤ lines →
     ∃ current required,
       Print (warning_color (current_size_line cols lines) ++ current
              ++ Colors.RESET)
         ∈ display_size_warning clock' (size_at_warning host) ∧
       centred_in cols (current_size_line cols lines) current ∧
       mentions current (str cols ++ py " x " ++ str lines) ∧
       Print (warning_color (required_minimum_line clock') ++ required
              ++ Colors.RESET)
         ∈ display_size_warning clock' (size_at_warning host) ∧
       centred_in cols (required_minimum_line clock') required ∧
       mentions required (py "100 x 25")) ∧
    (len (warning_lines clock' cols lines) < lines →
     display_size_warning clock' (size_at_warning host)
     = Cursor.clear_screen
       ++ flat_map (λ '(i, line),
            Cursor.move_to
              (Z.max 1 (lines / 2 - len (warning_lines clock' cols lines) / 2)
               + i) 1
            ++ [Print (warning_color line ++ center line cols
                       ++ Colors.RESET)])
          (enumerate (warning_lines clock' cols lines)) ∧
     1 ≤ (lines
          - (Z.max 1 (lines / 2 - len (warning_lines clock' cols lines) / 2)
             + len (warning_lines clock' cols lines) - 1))
         - (Z.max 1 (lines / 2 - len (warning_lines clock' cols lines) / 2)
            - 1)
       ≤ 3).
Proof.
  intros Hw Hh Hsrc Hupd Hchk Hwarn Hsmall.
  pose proof (inadequate_size cols lines clock _ Hw Hh Hchk Hsmall) as Hbad.
  destruct (main_iteration_returns host clock) as
    (clock' & out & Hrun & Hshow & Hset & Hclock); [congruence | done |].
  unfold iteration_shows in Hshow.
  rewrite (is_terminal_size_adequate_settings clock' clock _ Hset), Hbad
    in Hshow.
  subst out. exists clock'. split; [done|].
  assert (get_terminal_size clock' (size_at_warning host) = (cols, lines))
    as Hsz by (by rewrite (get_terminal_size_settings clock' clock _ Hset)).
  split; [|split; [|split]].
  - destruct (rebuilds_first clock); [|done].
    destruct Hclock as (_ & _ & Hwd & Hht & Hgrid).
    rewrite Hupd in Hwd, Hht. simpl in Hwd, Hht.
    destruct (grid_shape clock' (grid clock') Hgrid) as (Hlen & Hrows & _).
    rewrite Hwd in Hrows. rewrite Hht in Hlen. done.
  - intros a Ha.
    destruct (display_size_warning_action clock' _ cols lines a Hsz Ha)
      as [->|[Hmove|(line & Hline & ->)]]; [by left | by right; left |].
    right; right. exists line, (center line cols).
    split; [done|]. split; [done|]. split; [done|]. apply center_centred.
  - intros Hlines.
    destruct (display_size_warning_sizes clock' _ cols lines Hsz Hlines)
      as [Hcur Hreq].
    destruct Hset as (Hw' & Hh' & _).
    exists (center (current_size_line cols lines) cols),
           (center (required_minimum_line clock') cols).
    split; [exact Hcur|]. split; [apply center_centred|]. split.
    { apply mentions_center, current_size_line_mentions. }
    split; [exact Hreq|]. split; [apply center_centred|].
    apply mentions_center, required_minimum_line_mentions; congruence.
  - intros Hfit. split.
    + by apply display_size_warning_whole.
    + by apply warning_rows_balanced.
Qed.

Lemma inadequate_size_shows_warning_witness :
  ∃ clock',
    main_iteration (host_of 79 24 (py "AB") (py "12:30:45")) (init true linux)
    = Ok (clock',
          [ReadSource]
          ++ display_size_warning clock' (terminal_of 79 24)
          ++ [Sleep 1]) ∧
    (width clock' = 79 - 2 ∧ height clock' = 24 - 2 ∧
     create_display_grid clock' = Ok (grid clock') ∧
     length (grid clock') = Z.to_nat (24 - 2) ∧
     Forall (λ row, length row = Z.to_nat (79 - 2)) (grid clock')) ∧
    (∀ a, a ∈ display_size_warning clock' (terminal_of 79 24) →
       a = ClearScreen ∨
       (∃ r, [a] = Cursor.move_to r 1 ∧ 1 ≤ r < 24) ∨
       (∃ line padded,
          line ∈ warning_lines clock' 79 24 ∧
          a = Print (warning_color line ++ padded ++ Colors.RESET) ∧
          padded = center line 79 ∧
          centred_in 79 line padded)) ∧
    (6 ≤ 24 →
     ∃ current required,
       Print (warning_color (current_size_line 79 24) ++ current
              ++ Colors.RESET)
         ∈ display_size_warning clock' (terminal_of 79 24) ∧
       centred_in 79 (current_size_line 79 24) current ∧
       mentions current (str 79 ++ py " x " ++ str 24) ∧
       Print (warning_color (required_minimum_line clock') ++ required
              ++ Colors.RESET)
         ∈ display_size_warning clock' (terminal_of 79 24) ∧
       centred_in 79 (required_minimum_line clock') required ∧
       mentions required (py "100 x 25")) ∧
    (len (warning_lines clock' 79 24) < 24 →
     display_size_warning clock' (terminal_of 79 24)
     = Cursor.clear_screen
       ++ flat_map (λ '(i, line),
            Cursor.move_to
              (Z.max 1 (24 / 2 - len (warning_lines clock' 79 24) / 2)
               + i) 1
            ++ [Print (warning_color line ++ center line 79
                       ++ Colors.RESET)])
          (enumerate (warning_lines clock' 79 24)) ∧
     1 ≤ (24
          - (Z.max 1 (24 / 2 - len (warning_lines clock' 79 24) / 2)
             + len (warning_lines clock' 79 24) - 1))
         - (Z.max 1 (24 / 2 - len (warning_lines clock' 79 24) / 2)
            - 1)
       ≤ 3).
Proof.
  apply (inadequate_size_shows_warning
           (host_of 79 24 (py "AB") (py "12:30:45")) (init true linux) 79 24).
  - reflexivity.
  - reflexivity.
  - intros _. vm_compute. discriminate.
  - reflexivity.
  - reflexivity.
  - reflexivity.
  - left. lia.
Defined.

(** C9. With resize signals supported, let a resize be signalled before an
    iteration and none before the iterations that follow. The first
    iteration rebuilds the grid for the new size: for a terminal that now
    answers [cols] by [lines], the grid has [lines - 2] rows of [cols - 2]
    cells, filled from the text read on that iteration. Every later
    iteration starts from and leaves that same clock and grid, and shows
    the warning or the frame composed for its own time; over all these
    iterations the grid is rebuilt exactly once. *)
Theorem resize_rebuilds_once clock host hosts cols lines :
  supports_resize_signal clock = true →
  minified_source host ≠ [] →
  time_string (current_time host) →
  get_terminal_size clock (size_at_update host) = (cols, lines) →
  Forall (λ later, later.1 = false ∧ time_string (current_time later.2))
    hosts →
  ∃ clock' out,
    main_loop ((true, host) :: hosts) clock = Ok (clock', out) ∧
    rebuilds out = 1%nat ∧
    (∃ out1, main_iteration host (_handle_resize clock)
             = Ok (clock', ReadSource :: out1) ∧
             iteration_shows host clock' out1) ∧
    width clock' = cols - 2 ∧
    height clock' = lines - 2 ∧
    source_code clock' = minified_source host ∧
    create_display_grid clock' = Ok (grid clock') ∧
    length (grid clock') = Z.to_nat (lines - 2) ∧
    Forall (λ row, length row = Z.to_nat (cols - 2)) (grid clock') ∧
    ∀ later, later ∈ hosts →
      ∃ out', main_iteration later.2 clock' = Ok (clock', out') ∧
              iteration_shows later.2 clock' out' ∧
              rebuilds out' = 0%nat.
Proof.
  intros Hsup Hsrc Hts Hsz Hhosts.
  destruct (main_iteration_returns host (_handle_resize clock)) as
    (clock' & out1 & Hrun & Hshow & Hset & Hclock); [done | done |].
  change (rebuilds_first (_handle_resize clock)) with true in Hrun, Hclock.
  destruct Hclock as (Hflag & Hsource & Hw & Hh & Hgrid).
  change (get_terminal_size (_handle_resize clock) (size_at_update host))
    with (get_terminal_size clock (size_at_update host)) in Hw, Hh.
  rewrite Hsz in Hw, Hh. simpl in Hw, Hh.
  assert (rebuilds_first clock' = false) as Hre.
  { unfold rebuilds_first. destruct Hset as (_ & _ & -> & _).
    rewrite Hflag. simpl. by rewrite Hsup. }
  destruct (main_loop_reuses_grid hosts clock' Hre Hhosts)
    as (out & Hloop & Hout).
  destruct (grid_shape clock' (grid clock') Hgrid) as (Hlen & Hrows & _).
  rewrite Hw in Hrows. rewrite Hh in Hlen.
  exists clock', ([ReadSource] ++ out1 ++ out).
  split.
  { simpl main_loop. rewrite Hsup. simpl andb. cbv iota.
    rewrite Hrun, bind_Ok. cbv beta iota. rewrite Hloop, bind_Ok.
    cbv beta iota. by rewrite <- app_assoc. }
  split.
  { rewrite !rebuilds_app, Hout.
    by rewrite (rebuilds_none out1)
      by (by apply (iteration_shows_no_read host clock')). }
  split; [by exists out1|].
  split; [exact Hw|]. split; [exact Hh|]. split; [exact Hsource|].
  split; [exact Hgrid|]. split; [exact Hlen|]. split; [exact Hrows|].
  intros [sigwinch later] Hin. rewrite Forall_forall in Hhosts.
  destruct (Hhosts _ Hin) as [_ Hts'].
  by apply main_iteration_reuses_grid.
Qed.

Lemma resize_rebuilds_once_witness :
  ∃ clock' out,
    main_loop [(true, host_of 150 40 (py "AB") (py "12:30:45"));
               (false, host_of 150 40 (py "AB") (py "12:30:46"))]
      (clear_resized (init true linux)) = Ok (clock', out) ∧
    rebuilds out = 1%nat ∧
    (∃ out1, main_iteration (host_of 150 40 (py "AB") (py "12:30:45"))
               (_handle_resize (clear_resized (init true linux)))
             = Ok (clock', ReadSource :: out1) ∧
             iteration_shows (host_of 150 40 (py "AB") (py "12:30:45"))
               clock' out1) ∧
    width clock' = 150 - 2 ∧
    height clock' = 40 - 2 ∧
    source_code clock'
    = minified_source (host_of 150 40 (py "AB") (py "12:30:45")) ∧
    create_display_grid clock' = Ok (grid clock') ∧
    length (grid clock') = Z.to_nat (40 - 2) ∧
    Forall (λ row, length row = Z.to_nat (150 - 2)) (grid clock') ∧
    ∀ later,
      later ∈ [(false, host_of 150 40 (py "AB") (py "12:30:46"))] →
      ∃ out', main_iteration later.2 clock' = Ok (clock', out') ∧
              iteration_shows later.2 clock' out' ∧
              rebuilds out' = 0%nat.
Proof.
  apply (resize_rebuilds_once (clear_resized (init true linux))
           (host_of 150 40 (py "AB") (py "12:30:45"))
           [(false, host_of 150 40 (py "AB") (py "12:30:46"))] 150 40).
  - reflexivity.
  - vm_compute. discriminate.
  - time_string_literal.
  - reflexivity.
  - constructor; [|constructor].
    split; [reflexivity | time_string_literal].
Defined.

(** On Windows a failure of [os.get_terminal_size] alone is not a failure
    of the query: [mode con] is read instead, and its answer, here 120 by
    30, is the size returned and passes the check. *)
Lemma windows_mode_con_adequate :
  get_terminal_size (init false windows)
    {| os_get_terminal_size := Raise OSError;
       mode_con := Ok [ {| text := py "    Lines:          30";
                           int_field := Ok 30 |};
                        {| text := py "    Columns:        120";
                           int_field := Ok 120 |} ] |}
  = (120, 30) ∧
  is_terminal_size_adequate (init false windows)
    {| os_get_terminal_size := Raise OSError;
       mode_con := Ok [ {| text := py "    Lines:          30";
                           int_field := Ok 30 |};
                        {| text := py "    Columns:        120";
                           int_field := Ok 120 |} ] |}
  = true.
Proof. split; by vm_compute. Qed.
